(** * MRDEPB: manifest rewriting and DASH to HLS conversion

    A shallow embedding of the two engines of the proxy,
    [services/manifest_rewriter.py] (class [ManifestRewriter]) and
    [utils/mpd_converter.py] (class [MPDToHLSConverter]), and the
    properties of them that the specification states.

    Conventions of the embedding.
    - A Python [str] is a [string]; a character is a code point in
      0..255 (the Latin-1 range), which is where [str.strip],
      [str.lower], [int] and [urllib.parse.quote] are modelled.
    - A Python [int] is a [Z].
    - A Python [float] is a type with the operations the code applies to
      it (class [PyFloat]); the rationals give an instance on which the
      examples run.
    - The standard library calls whose behaviour the code relies on but
      does not define -- [urljoin], [urlparse], [ET.fromstring],
      [ET.tostring], the text of an exception -- are fields of the
      class [PyLib].
    - [try ... except Exception] is an error monad: a computation is
      [Ok v] or [Raise e]. *)

From Stdlib Require Import List ZArith QArith Qround Ascii String Bool Lia.
From Stdlib Require Import DecimalString.
Import ListNotations.

Local Open Scope string_scope.
Local Open Scope Z_scope.

(** [++] joins strings; [+++] joins lists. *)
Infix "+++" := (@app _) (at level 60, right associativity).

(** ** Python strings *)

Module Py.

Definition code (c : ascii) : N := N_of_ascii c.

(** [str.isspace] on one character: TAB..CR, FS..US, SPACE, NEL, NBSP. *)
Definition isspace (c : ascii) : bool :=
  let n := code c in
  ((9 <=? n) && (n <=? 13) || (28 <=? n) && (n <=? 32)
   || (n =? 133) || (n =? 160))%N.

Definition isdigit (c : ascii) : bool :=
  let n := code c in ((48 <=? n) && (n <=? 57))%N.

Definition isupper_ascii (c : ascii) : bool :=
  let n := code c in ((65 <=? n) && (n <=? 90))%N.

Definition islower_ascii (c : ascii) : bool :=
  let n := code c in ((97 <=? n) && (n <=? 122))%N.

(** [str.lower] on one character: A..Z and the Latin-1 capitals
    U+00C0..U+00DE (U+00D7, the multiplication sign, excepted). *)
Definition lower_char (c : ascii) : ascii :=
  let n := code c in
  if (isupper_ascii c
      || (192 <=? n)%N && (n <=? 222)%N && negb (n =? 215)%N)%bool
  then ascii_of_N (n + 32) else c.

Fixpoint lower (s : string) : string :=
  match s with
  | EmptyString => EmptyString
  | String c t => String (lower_char c) (lower t)
  end.

Definition len (s : string) : Z := Z.of_nat (String.length s).

(** [s.startswith(p)] *)
Definition startswith (s p : string) : bool := String.prefix p s.

(** [sub in s] *)
Fixpoint contains (sub s : string) : bool :=
  String.prefix sub s ||
  match s with
  | EmptyString => false
  | String _ t => contains sub t
  end.

Fixpoint rev_append (s acc : string) : string :=
  match s with
  | EmptyString => acc
  | String c t => rev_append t (String c acc)
  end.

Definition rev (s : string) : string := rev_append s EmptyString.

(** [s.endswith(p)] *)
Definition endswith (s p : string) : bool := String.prefix (rev p) (rev s).

(** [s[:n]] and [s[n:]] for a non-negative [n]. *)
Fixpoint take (n : nat) (s : string) : string :=
  match n, s with
  | S k, String c t => String c (take k t)
  | _, _ => EmptyString
  end.

Fixpoint drop (n : nat) (s : string) : string :=
  match n, s with
  | S k, String _ t => drop k t
  | _, _ => s
  end.

Definition slice_to (s : string) (i : Z) : string := take (Z.to_nat i) s.
Definition slice_from (s : string) (i : Z) : string := drop (Z.to_nat i) s.
Definition slice (s : string) (i j : Z) : string :=
  take (Z.to_nat (j - i)) (drop (Z.to_nat i) s).

(** [s.find(sub, start)]: the least index at or after [start] where [sub]
    occurs, or -1. *)
Definition find (s sub : string) (start : Z) : Z :=
  match String.index (Z.to_nat start) sub s with
  | Some m => Z.of_nat m
  | None => -1
  end.

Fixpoint lstrip (s : string) : string :=
  match s with
  | EmptyString => EmptyString
  | String c t => if isspace c then lstrip t else s
  end.

Fixpoint rstrip (s : string) : string :=
  match s with
  | EmptyString => EmptyString
  | String c t =>
      match rstrip t with
      | EmptyString => if isspace c then EmptyString else String c EmptyString
      | t' => String c t'
      end
  end.

(** [s.strip()] *)
Definition strip (s : string) : string := rstrip (lstrip s).

(** [s.split(sep)] for a one-character separator. *)
Fixpoint split (sep : ascii) (s : string) : list string :=
  match s with
  | EmptyString => [EmptyString]
  | String c t =>
      if Ascii.eqb c sep then EmptyString :: split sep t
      else match split sep t with
           | h :: r => String c h :: r
           | [] => [String c EmptyString]
           end
  end.

(** [sep.join(l)] *)
Definition join (sep : string) (l : list string) : string :=
  String.concat sep l.

(** [s.replace(old, new)] for a non-empty [old]: every occurrence, left
    to right, without overlap.  [skip] counts the characters of the
    occurrence just replaced that are still to be passed over. *)
Fixpoint replace_from (old new s : string) (skip : nat) : string :=
  match s with
  | EmptyString => EmptyString
  | String c t =>
      match skip with
      | S k => replace_from old new t k
      | O =>
          if String.prefix old s
          then new ++ replace_from old new t (String.length old - 1)
          else String c (replace_from old new t O)
      end
  end.

Definition replace (s old new : string) : string :=
  replace_from old new s O.

(** [s.replace(old, new, 1)]: the first occurrence only. *)
Fixpoint replace_first (s old new : string) : string :=
  if String.prefix old s
  then new ++ drop (String.length old) s
  else match s with
       | EmptyString => EmptyString
       | String c t => String c (replace_first t old new)
       end.

(** [str(n)] for an [int]. *)
Definition str_of_int (n : Z) : string :=
  NilZero.string_of_int (Z.to_int n).

(** [int(s)] for a [str]: surrounding whitespace is dropped, a sign is
    allowed, the digits may be grouped by single underscores.  [None] is
    [ValueError]. *)
Fixpoint digits_value (s : string) (acc : Z) (after_digit : bool)
  : option Z :=
  match s with
  | EmptyString => if after_digit then Some acc else None
  | String c t =>
      if isdigit c
      then digits_value t (10 * acc + Z.of_N (code c - 48)) true
      else if (Ascii.eqb c "_" && after_digit)%bool
           then digits_value t acc false
           else None
  end.

Definition int_of_str (s : string) : option Z :=
  match strip s with
  | String "-" t => option_map Z.opp (digits_value t 0 false)
  | String "+" t => digits_value t 0 false
  | t => digits_value t 0 false
  end.

(** The truth value of an optional string, as in [if value:]. *)
Definition truthy (v : option string) : bool :=
  match v with
  | Some (String _ _) => true
  | _ => false
  end.

(** *** [urllib.parse.quote] *)

Definition hex_digit (n : N) : ascii :=
  if (n <? 10)%N then ascii_of_N (48 + n) else ascii_of_N (55 + n).

Definition percent (byte : N) : string :=
  String "%" (String (hex_digit (byte / 16)) (String (hex_digit (byte mod 16)) "")).

Definition always_safe (c : ascii) : bool :=
  (isupper_ascii c || islower_ascii c || isdigit c
   || Ascii.eqb c "_" || Ascii.eqb c "." || Ascii.eqb c "-" || Ascii.eqb c "~")%bool.

Fixpoint char_in (c : ascii) (s : string) : bool :=
  match s with
  | EmptyString => false
  | String d t => Ascii.eqb c d || char_in c t
  end.

(** One character of [quote]: kept when it is unreserved or listed in
    [safe] (and ASCII), else the bytes of its UTF-8 encoding, each as
    [%XX]. *)
Definition quote_char (safe : string) (c : ascii) : string :=
  let n := code c in
  if ((n <? 128)%N && (always_safe c || char_in c safe))%bool
  then String c ""
  else if (n <? 128)%N then percent n
       else percent (192 + n / 64) ++ percent (128 + n mod 64).

Fixpoint quote_with (safe s : string) : string :=
  match s with
  | EmptyString => EmptyString
  | String c t => quote_char safe c ++ quote_with safe t
  end.

(** [urllib.parse.quote(s)], whose default is [safe='/']. *)
Definition quote (s : string) : string := quote_with "/" s.

(** [urllib.parse.quote(s, safe='')] *)
Definition quote_all (s : string) : string := quote_with "" s.

(** [os.path.dirname] (posixpath). *)
Fixpoint last_slash (s : string) (pos : nat) (best : nat) : nat :=
  match s with
  | EmptyString => best
  | String c t =>
      last_slash t (S pos) (if Ascii.eqb c "/" then S pos else best)
  end.

Fixpoint all_slashes (s : string) : bool :=
  match s with
  | EmptyString => true
  | String c t => Ascii.eqb c "/" && all_slashes t
  end.

Fixpoint rstrip_slash (s : string) : string :=
  match s with
  | EmptyString => EmptyString
  | String c t =>
      match rstrip_slash t with
      | EmptyString => if Ascii.eqb c "/" then EmptyString else String c EmptyString
      | t' => String c t'
      end
  end.

Definition dirname (p : string) : string :=
  let head := take (last_slash p 0 0) p in
  if (negb (String.eqb head "") && negb (all_slashes head))%bool
  then rstrip_slash head else head.

End Py.

Example py_quote_url :
  Py.quote_all "https://o.example/live/key.bin"
  = "https%3A%2F%2Fo.example%2Flive%2Fkey.bin".
Proof. reflexivity. Qed.

Example py_int_examples :
  Py.int_of_str " 4000 " = Some 4000 /\ Py.int_of_str "-1" = Some (-1)
  /\ Py.int_of_str "1_000" = Some 1000 /\ Py.int_of_str "" = None
  /\ Py.int_of_str "4e3" = None /\ Py.str_of_int 0 = "0"
  /\ Py.str_of_int (-12) = "-12" /\ Py.str_of_int 36 = "36".
Proof. repeat split; reflexivity. Qed.

Example py_string_examples :
  Py.split "010" ("a" ++ String "010" "b") = ["a"; "b"]
  /\ Py.split ":" "ab:cd" = ["ab"; "cd"]
  /\ Py.strip "  x y  " = "x y"
  /\ Py.replace "a$N$b$N$" "$N$" "7" = "a7b7"
  /\ Py.replace_first "<MPD><MPD>" "<MPD" "<M x" = "<M x><MPD>"
  /\ Py.find "abcabc" "c" 3 = 5 /\ Py.find "abc" "z" 0 = -1
  /\ Py.dirname "http://h/a/b.mpd" = "http://h/a"
  /\ Py.endswith "abc/" "/" = true
  /\ Py.lower "URN:Uuid" = "urn:uuid".
Proof. repeat split; reflexivity. Qed.

(** The characters and constants the sources spell with escapes. *)
Definition nl : string := String "010" "".
Definition dquote : string := String "034" "".

(** ** Exceptions and [try ... except] *)

Inductive exn : Type :=
| ParseError         (* ET.ParseError: the text is not well-formed XML *)
| ValueError         (* int() of a non-number, an unpacking of the wrong size, urljoin, urlparse *)
| TypeError          (* int(None) *)
| AttributeError     (* a method called on None *)
| ZeroDivisionError  (* int / 0 *)
| OverflowError      (* int / int too large for a float *)
| IndexError.        (* lines[i + 1] past the end *)

Inductive result (A : Type) : Type :=
| Ok (a : A)
| Raise (e : exn).
Arguments Ok {A} a.
Arguments Raise {A} e.

Definition bind {A B : Type} (m : result A) (k : A -> result B) : result B :=
  match m with
  | Ok a => k a
  | Raise e => Raise e
  end.

Notation "x <- m ;; k" := (bind m (fun x => k))
  (at level 61, m at next level, right associativity).
Notation "' p <- m ;; k" := (bind m (fun x => let p := x in k))
  (at level 61, p pattern, m at next level, right associativity).

(** A loop whose body may raise: [for x in l: st = body(st, x)]. *)
Fixpoint for_each {A S : Type} (body : S -> A -> result S) (l : list A) (st : S)
  : result S :=
  match l with
  | [] => Ok st
  | x :: r => st' <- body st x ;; for_each body r st'
  end.

(** A comprehension whose element expression may raise. *)
Fixpoint map_result {A B : Type} (f : A -> result B) (l : list A)
  : result (list B) :=
  match l with
  | [] => Ok []
  | x :: r => y <- f x ;; ys <- map_result f r ;; Ok (y :: ys)
  end.

(** A value that must not be [None] where a method is called on it. *)
Definition not_none {A : Type} (v : option A) : result A :=
  match v with
  | Some a => Ok a
  | None => Raise AttributeError
  end.

(** [int(v)] where [v] comes from [element.get]. *)
Definition int (v : option string) : result Z :=
  match v with
  | None => Raise TypeError
  | Some s =>
      match Py.int_of_str s with
      | Some n => Ok n
      | None => Raise ValueError
      end
  end.

(** ** xml.etree.ElementTree *)

Module ET.

(** An element: its tag in Clark notation ([{uri}local]), its attributes
    in document order, its text, its tail and its children. *)
#[warnings="-register-all"]
Inductive element : Type :=
| Element (tag : string) (attrib : list (string * string))
          (text : option string) (tail : option string)
          (children : list element).

Definition tag (e : element) : string :=
  match e with Element t _ _ _ _ => t end.
Definition attrib (e : element) : list (string * string) :=
  match e with Element _ a _ _ _ => a end.
Definition text (e : element) : option string :=
  match e with Element _ _ x _ _ => x end.
Definition tail (e : element) : option string :=
  match e with Element _ _ _ x _ => x end.
Definition children (e : element) : list element :=
  match e with Element _ _ _ _ c => c end.

Fixpoint lookup (k : string) (d : list (string * string)) : option string :=
  match d with
  | [] => None
  | (k', v) :: r => if String.eqb k k' then Some v else lookup k r
  end.

(** [d[k] = v] on a dict: an existing key keeps its place. *)
Fixpoint dict_set (k v : string) (d : list (string * string))
  : list (string * string) :=
  match d with
  | [] => [(k, v)]
  | (k', v') :: r =>
      if String.eqb k k' then (k, v) :: r else (k', v') :: dict_set k v r
  end.

(** [e.get(k)] and [e.get(k, default)] *)
Definition get (e : element) (k : string) : option string :=
  lookup k (attrib e).
Definition get_default (e : element) (k default : string) : string :=
  match get e k with
  | Some v => v
  | None => default
  end.

(** [e.set(k, v)] *)
Definition set (e : element) (k v : string) : element :=
  match e with
  | Element t a x tl c => Element t (dict_set k v a) x tl c
  end.

Definition set_text (e : element) (x : option string) : element :=
  match e with
  | Element t a _ tl c => Element t a x tl c
  end.

Definition set_children (e : element) (c : list element) : element :=
  match e with
  | Element t a x tl _ => Element t a x tl c
  end.

Definition has_tag (t : string) (e : element) : bool := String.eqb (tag e) t.

(** [e.findall('ns:X')] and [e.find('ns:X')]: the children of [e] with
    that tag, in order, and the first of them. *)
Definition findall (e : element) (t : string) : list element :=
  filter (has_tag t) (children e).
Definition find (e : element) (t : string) : option element :=
  hd_error (findall e t).

(** The elements below [e], in document order. *)
Fixpoint descendants (e : element) : list element :=
  match e with
  | Element _ _ _ _ cs =>
      (fix go (l : list element) : list element :=
         match l with
         | [] => []
         | c :: r => c :: descendants c +++ go r
         end) cs
  end.

(** [e.findall('.//ns:X')] *)
Definition findall_deep (e : element) (t : string) : list element :=
  filter (has_tag t) (descendants e).

(** [e.find('ns:X[@k="v"]')] for a [v] free of quote characters. *)
Definition find_with_attr (e : element) (t k v : string) : option element :=
  hd_error
    (filter (fun c => match get c k with
                      | Some v' => String.eqb v' v
                      | None => false
                      end)
            (findall e t)).

End ET.

(** The namespaces of [self.ns] and the tags the code looks up. *)
Definition mpd_ns : string := "urn:mpeg:dash:schema:mpd:2011".
Definition cenc_ns : string := "urn:mpeg:cenc:2013".
Definition dashif_ns : string := "http://dashif.org/guidelines/clearKey".
Definition qname (ns local : string) : string := "{" ++ ns ++ "}" ++ local.
Definition mpd (local : string) : string := qname mpd_ns local.

(** ** The library calls the code relies on *)

Class PyLib : Type := {
  (** [urllib.parse.urljoin(base, url)]; it raises [ValueError] on a
      malformed bracketed host. *)
  urljoin : string -> string -> result string;
  (** [urllib.parse.urlparse(url).query] *)
  urlparse_query : string -> result string;
  (** [ET.fromstring(text)] *)
  fromstring : string -> result ET.element;
  (** [ET.tostring(root, encoding='unicode', method='xml')], after the
      three [ET.register_namespace] calls of the rewriter. *)
  tostring : ET.element -> string;
  (** [str(e)] for a caught exception. *)
  exn_text : exn -> string
}.

(** ** Python floats *)

Class PyFloat : Type := {
  float : Type;
  (** [a / b] on two ints. *)
  truediv : Z -> Z -> result float;
  (** The float an int is promoted to in [int + float] and [float >= int]. *)
  of_int : Z -> float;
  fadd : float -> float -> float;
  (** [x <= y] and [x < y] *)
  fleb : float -> float -> bool;
  fltb : float -> float -> bool;
  (** [int(x)]: truncation toward zero. *)
  trunc : float -> Z;
  (** [f'{x:.Nf}'] *)
  format_f : nat -> float -> string;
  (** Facts of binary64 arithmetic (no NaN arises from non-negative
      operands) that the window of a short live playlist depends on. *)
  fleb_zero : fleb (of_int 0) (of_int 0) = true;
  fleb_trans : forall x y z,
      fleb x y = true -> fleb y z = true -> fleb x z = true;
  fadd_nonneg : forall x y,
      fleb (of_int 0) x = true -> fleb (of_int 0) y = true ->
      fleb x (fadd x y) = true
}.

(** ** [utils/mpd_converter.py]: class [MPDToHLSConverter] *)

(** The first statement of both converters and of the MPD rewriter:
    [if 'xmlns' not in text: text = text.replace('<MPD', '<MPD xmlns=...', 1)]. *)
Definition mpd_open_tag_with_ns : string :=
  "<MPD xmlns=" ++ dquote ++ mpd_ns ++ dquote.

Definition add_default_namespace (manifest_content : string) : string :=
  if negb (Py.contains "xmlns" manifest_content)
  then Py.replace_first manifest_content "<MPD" mpd_open_tag_with_ns
  else manifest_content.

Module MPDToHLSConverter.

Section Converter.
Context {F : PyFloat} {L : PyLib}.

(** An entry of [all_segments]:
    [{'time': ..., 'number': ..., 'duration': ..., 'd': ...}]. *)
Record segment : Type := Segment {
  seg_time : Z;
  seg_number : Z;
  seg_duration : float;
  seg_d : Z
}.

(** The state of the timeline loop. *)
Record timeline_state : Type := TimelineState {
  all_segments : list segment;
  current_time : Z;
  segment_number : Z
}.

(** [for _ in range(count): all_segments.append(...); current_time += d;
    segment_number += 1] *)
Fixpoint repeat_segment (count : nat) (d : Z) (duration_sec : float)
  (st : timeline_state) : timeline_state :=
  match count with
  | O => st
  | S k =>
      repeat_segment k d duration_sec
        (TimelineState
           (all_segments st
              +++ [Segment (current_time st) (segment_number st) duration_sec d])
           (current_time st + d)
           (segment_number st + 1))
  end.

(** The body of [for s in segment_timeline.findall('mpd:S', self.ns)]. *)
Definition timeline_step (timescale : Z) (st : timeline_state) (s : ET.element)
  : result timeline_state :=
  let t := ET.get s "t" in
  current_time' <- (if Py.truthy t then int t else Ok (current_time st)) ;;
  d <- int (ET.get s "d") ;;
  r <- int (Some (ET.get_default s "r" "0")) ;;
  duration_sec <- truediv d timescale ;;
  Ok (repeat_segment (Z.to_nat (r + 1)) d duration_sec
        (TimelineState (all_segments st) current_time' (segment_number st))).

(** The whole loop, from [all_segments = []], [current_time = 0],
    [segment_number = start_number]. *)
Definition expand_timeline (timescale start_number : Z)
  (segment_timeline : ET.element) : result (list segment) :=
  st <- for_each (timeline_step timescale)
          (ET.findall segment_timeline (mpd "S"))
          (TimelineState [] 0 start_number) ;;
  Ok (all_segments st).

(** [LIVE_WINDOW_SECONDS = 30] *)
Definition LIVE_WINDOW_SECONDS : Z := 30.

(** [for seg in reversed(all_segments): live_segments.insert(0, seg);
    total_duration += seg['duration'];
    if total_duration >= LIVE_WINDOW_SECONDS: break] *)
Fixpoint live_walk (reversed : list segment) (total_duration : float)
  (live_segments : list segment) : list segment * float :=
  match reversed with
  | [] => (live_segments, total_duration)
  | seg :: rest =>
      let live_segments' := seg :: live_segments in
      let total_duration' := fadd total_duration (seg_duration seg) in
      if fleb (of_int LIVE_WINDOW_SECONDS) total_duration'
      then (live_segments', total_duration')
      else live_walk rest total_duration' live_segments'
  end.

Definition live_window (all : list segment) : list segment :=
  fst (live_walk (List.rev all) (of_int 0) []).

(** [max(seg['duration'] for seg in segments)]: the first largest. *)
Definition max_duration (first : segment) (others : list segment) : float :=
  fold_left (fun m seg => if fltb m (seg_duration seg) then seg_duration seg else m)
            others (seg_duration first).

(** [lines.insert(i, x)] *)
Definition list_insert {A : Type} (i : nat) (x : A) (l : list A) : list A :=
  firstn i l +++ x :: skipn i l.

(** The two lines of one retained segment of the timeline branch. *)
Definition timeline_segment_lines (rep_id proxy_base params base_url : string)
  (media : option string) (server_side_decryption : bool)
  (encoded_init_url decryption_params : string) (seg : segment)
  : result (list string) :=
  media <- not_none media ;;
  let seg_name := Py.replace media "$RepresentationID$" rep_id in
  let seg_name := Py.replace seg_name "$Number$" (Py.str_of_int (seg_number seg)) in
  let seg_name := Py.replace seg_name "$Time$" (Py.str_of_int (seg_time seg)) in
  full_seg_url <- urljoin base_url seg_name ;;
  let encoded_seg_url := Py.quote_all full_seg_url in
  let extinf := "#EXTINF:" ++ format_f 3 (seg_duration seg) ++ "," in
  if server_side_decryption
  then Ok [extinf;
           proxy_base ++ "/decrypt/segment.mp4?url=" ++ encoded_seg_url
           ++ "&init_url=" ++ encoded_init_url ++ decryption_params ++ params]
  else Ok [extinf;
           proxy_base ++ "/segment/" ++ seg_name ++ "?base_url="
           ++ encoded_seg_url ++ params].

(** The branch [if segment_timeline is not None]. *)
Definition timeline_branch (is_live : bool)
  (rep_id proxy_base params base_url : string) (media : option string)
  (server_side_decryption : bool) (encoded_init_url decryption_params : string)
  (timescale start_number : Z) (segment_timeline : ET.element)
  (lines : list string) : result (list string) :=
  all <- expand_timeline timescale start_number segment_timeline ;;
  '(segments_to_use, lines) <-
    match is_live, all with
    | true, _ :: _ =>
        let live_segments := live_window all in
        match live_segments with
        | first :: others =>
            Ok (live_segments,
                list_insert 2
                  ("#EXT-X-TARGETDURATION:"
                   ++ Py.str_of_int (trunc (max_duration first others) + 1))
                  lines
                +++ ["#EXT-X-MEDIA-SEQUENCE:"
                     ++ Py.str_of_int (seg_number first)])
        | [] => Raise ValueError (* max() of an empty sequence *)
        end
    | _, _ => Ok (all, lines +++ ["#EXT-X-MEDIA-SEQUENCE:0"])
    end ;;
  seg_lines <- map_result
                 (timeline_segment_lines rep_id proxy_base params base_url media
                    server_side_decryption encoded_init_url decryption_params)
                 segments_to_use ;;
  Ok (lines +++ List.concat seg_lines).

(** [total_segments = 100 # Placeholder] *)
Definition total_segments : nat := 100.

(** The two lines of segment [i] of the fixed-duration branch. *)
Definition duration_segment_lines (rep_id proxy_base params base_url : string)
  (media : option string) (start_number : Z) (duration_sec : float) (i : nat)
  : result (list string) :=
  let seg_num := start_number + Z.of_nat i in
  media <- not_none media ;;
  let seg_name := Py.replace media "$RepresentationID$" rep_id in
  let seg_name := Py.replace seg_name "$Number$" (Py.str_of_int seg_num) in
  full_seg_url <- urljoin base_url seg_name ;;
  let encoded_seg_url := Py.quote_all full_seg_url in
  Ok ["#EXTINF:" ++ format_f 6 duration_sec ++ ",";
      proxy_base ++ "/segment/seg_" ++ Py.str_of_int seg_num
      ++ ".m4s?base_url=" ++ encoded_seg_url ++ params].

(** The branch [else: duration = int(segment_template.get('duration', '0'))]. *)
Definition duration_branch (root segment_template : ET.element)
  (rep_id proxy_base params base_url : string) (media : option string)
  (timescale start_number : Z) (lines : list string) : result (list string) :=
  duration <- int (Some (ET.get_default segment_template "duration" "0")) ;;
  if 0 <? duration
  then
    period <- not_none (ET.find root (mpd "Period")) ;;
    let period_duration_str := ET.get period "duration" in
    duration_sec <- truediv duration timescale ;;
    seg_lines <- map_result
                   (duration_segment_lines rep_id proxy_base params base_url
                      media start_number duration_sec)
                   (seq 0 total_segments) ;;
    Ok (lines +++ List.concat seg_lines)
  else Ok lines.

(** [lines] as first assigned, for a live and for a VOD manifest. *)
Definition header_lines (is_live : bool) : list string :=
  if is_live
  then ["#EXTM3U"; "#EXT-X-VERSION:7";
        "#EXT-X-START:TIME-OFFSET=-3.0,PRECISE=YES"]
  else ["#EXTM3U"; "#EXT-X-VERSION:7"; "#EXT-X-TARGETDURATION:10";
        "#EXT-X-PLAYLIST-TYPE:VOD"].

(** [for aset in root.findall('.//mpd:AdaptationSet', self.ns)]: the first
    set with a Representation of that id, and that Representation. *)
Fixpoint find_representation (adaptation_sets : list ET.element)
  (rep_id : string) : option (ET.element * ET.element) :=
  match adaptation_sets with
  | [] => None
  | aset :: rest =>
      match ET.find_with_attr aset (mpd "Representation") "id" rep_id with
      | Some rep => Some (rep, aset)
      | None => find_representation rest rep_id
      end
  end.

(** The ClearKey block: [(server_side_decryption, decryption_params)].
    The unpacking of [clearkey_param.split(':')] raises unless there are
    exactly two parts, and the exception is caught on the spot. *)
Definition parse_clearkey (clearkey_param : option string) : bool * string :=
  match clearkey_param with
  | Some (String _ _ as param) =>
      match Py.split ":" param with
      | [kid_hex; key_hex] =>
          (true, "&key=" ++ key_hex ++ "&key_id=" ++ kid_hex)
      | _ => (false, "")
      end
  | _ => (false, "")
  end.

(** The branch [if segment_template is not None]. *)
Definition template_branch (is_live : bool) (root segment_template : ET.element)
  (rep_id proxy_base original_url params : string)
  (server_side_decryption : bool) (decryption_params : string)
  (lines : list string) : result (list string) :=
  timescale <- int (Some (ET.get_default segment_template "timescale" "1")) ;;
  let initialization := ET.get segment_template "initialization" in
  let media := ET.get segment_template "media" in
  start_number <- int (Some (ET.get_default segment_template "startNumber" "1")) ;;
  base_url <- match ET.find root (mpd "BaseURL") with
              | Some base_url_tag => not_none (ET.text base_url_tag)
              | None => Ok (Py.dirname original_url)
              end ;;
  let base_url :=
    if negb (Py.endswith base_url "/") then base_url ++ "/" else base_url in
  '(encoded_init_url, lines) <-
    match initialization with
    | Some (String _ _ as initialization) =>
        let init_url := Py.replace initialization "$RepresentationID$" rep_id in
        full_init_url <- urljoin base_url init_url ;;
        let encoded_init_url := Py.quote_all full_init_url in
        Ok (encoded_init_url,
            if negb server_side_decryption
            then lines
                 +++ ["#EXT-X-MAP:URI=" ++ dquote ++ proxy_base
                      ++ "/segment/init.mp4?base_url=" ++ encoded_init_url
                      ++ params ++ dquote]
            else lines)
    | _ => Ok ("", lines)
    end ;;
  match ET.find segment_template (mpd "SegmentTimeline") with
  | Some segment_timeline =>
      timeline_branch is_live rep_id proxy_base params base_url media
        server_side_decryption encoded_init_url decryption_params
        timescale start_number segment_timeline lines
  | None =>
      duration_branch root segment_template rep_id proxy_base params base_url
        media timescale start_number lines
  end.

(** [root.get('type', 'static').lower() == 'dynamic'] *)
Definition is_live (root : ET.element) : bool :=
  String.eqb (Py.lower (ET.get_default root "type" "static")) "dynamic".

(** The lines of the playlist once the Representation is found. *)
Definition playlist_lines (root representation adaptation_set : ET.element)
  (rep_id proxy_base original_url params : string)
  (clearkey_param : option string) : result (list string) :=
  let lines := header_lines (is_live root) in
  let '(server_side_decryption, decryption_params) :=
    parse_clearkey clearkey_param in
  let segment_template :=
    match ET.find representation (mpd "SegmentTemplate") with
    | Some t => Some t
    | None => ET.find adaptation_set (mpd "SegmentTemplate")
    end in
  lines <- match segment_template with
           | Some segment_template =>
               template_branch (is_live root) root segment_template rep_id
                 proxy_base original_url params server_side_decryption
                 decryption_params lines
           | None => Ok lines
           end ;;
  Ok (if negb (is_live root) then lines +++ ["#EXT-X-ENDLIST"] else lines).

Definition representation_not_found : string :=
  "#EXTM3U" ++ nl ++ "#EXT-X-ERROR: Representation not found".

(** The body of the [try] of [convert_media_playlist], from the parsed
    root on. *)
Definition convert_root (root : ET.element)
  (rep_id proxy_base original_url params : string)
  (clearkey_param : option string) : result string :=
  match find_representation (ET.findall_deep root (mpd "AdaptationSet")) rep_id with
  | None => Ok representation_not_found
  | Some (representation, adaptation_set) =>
      lines <- playlist_lines root representation adaptation_set rep_id
                 proxy_base original_url params clearkey_param ;;
      Ok (Py.join nl lines)
  end.

(** [convert_media_playlist(manifest_content, rep_id, proxy_base,
    original_url, params, clearkey_param=None)] *)
Definition convert_media_playlist (manifest_content rep_id proxy_base
  original_url params : string) (clearkey_param : option string) : string :=
  match
    root <- fromstring (add_default_namespace manifest_content) ;;
    convert_root root rep_id proxy_base original_url params clearkey_param
  with
  | Ok playlist => playlist
  | Raise e => "#EXTM3U" ++ nl ++ "#EXT-X-ERROR: " ++ exn_text e
  end.

End Converter.

End MPDToHLSConverter.

(** ** [services/manifest_rewriter.py]: class [ManifestRewriter] *)

Module ManifestRewriter.

(** [stream_headers]: a dict, iterated in insertion order. *)
Definition headers : Type := list (string * string).

(** ["".join([f"&h_{quote(key)}={quote(value)}" for key, value in
    stream_headers.items()])] *)
Definition h_params (stream_headers : headers) : string :=
  String.concat ""
    (map (fun kv => "&h_" ++ Py.quote (fst kv) ++ "=" ++ Py.quote (snd kv))
         stream_headers).

(** [if api_password: params += f"&api_password={api_password}"] *)
Definition with_api_password (params : string) (api_password : option string)
  : string :=
  match api_password with
  | Some (String _ _ as pw) => params ++ "&api_password=" ++ pw
  | _ => params
  end.

Definition header_params (stream_headers : headers)
  (api_password : option string) : string :=
  with_api_password (h_params stream_headers) api_password.

(** *** Walking the tree

    The code mutates the elements that [root.findall('.//...')] lists.
    Here the tree is rebuilt: every element below the root is replaced by
    [f] of itself, its own descendants first. *)
Fixpoint update_descendants (f : ET.element -> ET.element) (e : ET.element)
  : ET.element :=
  match e with
  | ET.Element t a x tl cs =>
      ET.Element t a x tl (map (fun c => f (update_descendants f c)) cs)
  end.

Fixpoint try_update_descendants (f : ET.element -> result ET.element)
  (e : ET.element) : result ET.element :=
  match e with
  | ET.Element t a x tl cs =>
      cs' <- map_result (fun c => c' <- try_update_descendants f c ;; f c') cs ;;
      Ok (ET.Element t a x tl cs')
  end.

(** *** Static ClearKey *)

Definition clearkey_uuid : string := "e2719d58-a985-b3c9-781a-007147f192ec".
Definition clearkey_scheme : string := "urn:uuid:" ++ clearkey_uuid.

(** [f"{kid_hex[:8]}-{kid_hex[8:12]}-{kid_hex[12:16]}-{kid_hex[16:20]}-{kid_hex[20:]}"] *)
Definition kid_guid (kid_hex : string) : string :=
  Py.slice kid_hex 0 8 ++ "-" ++ Py.slice kid_hex 8 12 ++ "-"
  ++ Py.slice kid_hex 12 16 ++ "-" ++ Py.slice kid_hex 16 20 ++ "-"
  ++ Py.slice_from kid_hex 20.

(** [cp_element]: built once, then inserted into every AdaptationSet that
    lacks a ClearKey entry.  Its tag is the bare name: [ET.Element] is
    given no namespace. *)
Definition make_cp_element (proxy_base clearkey_param : string)
  (api_password : option string) (kid_hex : string) : ET.element :=
  let license_url :=
    with_api_password (proxy_base ++ "/license?clearkey=" ++ clearkey_param)
      api_password in
  ET.Element "ContentProtection"
    ([("schemeIdUri", clearkey_scheme); ("value", "ClearKey")]
     +++ (if Py.len kid_hex =? 32
          then [(qname cenc_ns "default_KID", kid_guid kid_hex)]
          else []))
    None None
    [ET.Element (qname mpd_ns "Laurl") [] (Some license_url) None [];
     ET.Element (qname dashif_ns "Laurl") [] (Some license_url) None []].

(** A child that [adaptation_set.findall('mpd:ContentProtection', ns)]
    lists. *)
Definition is_content_protection (c : ET.element) : bool :=
  ET.has_tag (mpd "ContentProtection") c.

(** The test that keeps a ContentProtection:
    ['e2719d58-...' in cp.get('schemeIdUri', '').lower()]. *)
Definition names_clearkey (cp : ET.element) : bool :=
  Py.contains clearkey_uuid (Py.lower (ET.get_default cp "schemeIdUri" "")).

(** The test of the second loop:
    [cp.get('schemeIdUri') == 'urn:uuid:e2719d58-...']. *)
Definition is_clearkey_entry (cp : ET.element) : bool :=
  match ET.get cp "schemeIdUri" with
  | Some scheme => String.eqb scheme clearkey_scheme
  | None => false
  end.

(** The body of [for adaptation_set in adaptation_sets]. *)
Definition inject_adaptation_set (cp_element adaptation_set : ET.element)
  : ET.element :=
  let kept :=
    filter (fun c => negb (is_content_protection c && negb (names_clearkey c)))
           (ET.children adaptation_set) in
  let existing_cp :=
    existsb (fun c => is_content_protection c && is_clearkey_entry c) kept in
  ET.set_children adaptation_set
    (if negb existing_cp then cp_element :: kept else kept).

Definition on_tag (t : string) (f : ET.element -> ET.element) (e : ET.element)
  : ET.element :=
  if ET.has_tag t e then f e else e.

Definition try_on_tag (t : string) (f : ET.element -> result ET.element)
  (e : ET.element) : result ET.element :=
  if ET.has_tag t e then f e else Ok e.

(** The block [if clearkey_param: try: ... except Exception: ...].  The
    only statement of it that can raise is the unpacking of the split,
    its first. *)
Definition inject_clearkey (proxy_base : string)
  (clearkey_param api_password : option string) (root : ET.element)
  : ET.element :=
  match clearkey_param with
  | Some (String _ _ as param) =>
      match Py.split ":" param with
      | [kid_hex; key_hex] =>
          update_descendants
            (on_tag (mpd "AdaptationSet")
               (inject_adaptation_set
                  (make_cp_element proxy_base param api_password kid_hex)))
            root
      | _ => root
      end
  | _ => root
  end.

(** *** Existing licence URLs *)

(** [for child in cp: if 'Laurl' in child.tag and child.text: child.text = ...] *)
Definition rewrite_license_child (proxy_base header_params : string)
  (child : ET.element) : ET.element :=
  match ET.text child with
  | Some (String _ _ as original_license_url) =>
      if Py.contains "Laurl" (ET.tag child)
      then ET.set_text child
             (Some (proxy_base ++ "/license?url="
                    ++ Py.quote_all original_license_url ++ header_params))
      else child
  | _ => child
  end.

Definition rewrite_licenses (proxy_base header_params : string)
  (root : ET.element) : ET.element :=
  update_descendants
    (on_tag (mpd "ContentProtection")
       (fun cp => ET.set_children cp
                    (map (rewrite_license_child proxy_base header_params)
                         (ET.children cp))))
    root.

Section Rewriter.
Context {L : PyLib}.

(** The closure [create_proxy_url(relative_url)]. *)
Definition create_proxy_url (base_url proxy_base header_params relative_url : string)
  : result string :=
  absolute_url <- urljoin base_url relative_url ;;
  Ok (proxy_base ++ "/proxy/mpd/manifest.m3u8?d=" ++ Py.quote_all absolute_url
      ++ header_params).

(** [if tag.get(attr): tag.set(attr, create_proxy_url(tag.get(attr)))] *)
Definition rewrite_attr (base_url proxy_base header_params attr : string)
  (e : ET.element) : result ET.element :=
  match ET.get e attr with
  | Some (String _ _ as v) =>
      u <- create_proxy_url base_url proxy_base header_params v ;;
      Ok (ET.set e attr u)
  | _ => Ok e
  end.

Definition rewrite_segment_template (base_url proxy_base header_params : string)
  (template_tag : ET.element) : result ET.element :=
  e <- rewrite_attr base_url proxy_base header_params "media" template_tag ;;
  rewrite_attr base_url proxy_base header_params "initialization" e.

(** [if base_url_tag.text: base_url_tag.text = create_proxy_url(base_url_tag.text)] *)
Definition rewrite_base_url_tag (base_url proxy_base header_params : string)
  (base_url_tag : ET.element) : result ET.element :=
  match ET.text base_url_tag with
  | Some (String _ _ as v) =>
      u <- create_proxy_url base_url proxy_base header_params v ;;
      Ok (ET.set_text base_url_tag (Some u))
  | _ => Ok base_url_tag
  end.

(** The statements between [ET.fromstring] and [ET.tostring]. *)
Definition rewrite_root (root : ET.element) (base_url proxy_base : string)
  (stream_headers : headers) (clearkey_param api_password : option string)
  : result ET.element :=
  let header_params := header_params stream_headers api_password in
  let root := inject_clearkey proxy_base clearkey_param api_password root in
  let root := rewrite_licenses proxy_base header_params root in
  root <- try_update_descendants
            (try_on_tag (mpd "SegmentTemplate")
               (rewrite_segment_template base_url proxy_base header_params))
            root ;;
  root <- try_update_descendants
            (try_on_tag (mpd "SegmentURL")
               (rewrite_attr base_url proxy_base header_params "media"))
            root ;;
  try_update_descendants
    (try_on_tag (mpd "BaseURL")
       (rewrite_base_url_tag base_url proxy_base header_params))
    root.

(** [rewrite_mpd_manifest(manifest_content, base_url, proxy_base,
    stream_headers, clearkey_param=None, api_password=None)].  The name
    [manifest_content] is assigned again inside the [try], before the
    parse; the [except] branch returns it. *)
Definition rewrite_mpd_manifest (manifest_content base_url proxy_base : string)
  (stream_headers : headers) (clearkey_param api_password : option string)
  : string :=
  let manifest_content := add_default_namespace manifest_content in
  match
    root <- fromstring manifest_content ;;
    root <- rewrite_root root base_url proxy_base stream_headers
              clearkey_param api_password ;;
    Ok (tostring root)
  with
  | Ok rewritten => rewritten
  | Raise _ => manifest_content
  end.

End Rewriter.

(** *** HLS playlists: [rewrite_manifest_urls] *)

(** What the detection block at the head of [rewrite_manifest_urls]
    leaves in [is_vixsrc_stream] and [is_dlhd_stream]: at most one of the
    two is set, and a failure of [get_extractor_func] sets neither. *)
Inductive stream_kind : Type :=
| Generic
| VixSrc
| DLHD.

(** An entry of [streams]: [{'bandwidth': ..., 'inf': ..., 'url': ...}]. *)
Record stream : Type := Stream {
  bandwidth : Z;
  inf : string;
  url : string
}.

Fixpoint leading_digits (s : string) : string :=
  match s with
  | String c t => if Py.isdigit c then String c (leading_digits t) else ""
  | EmptyString => ""
  end.

(** [re.search(r'BANDWIDTH=(\d+)', line)]: group 1 of the leftmost match. *)
Fixpoint search_bandwidth (line : string) : option string :=
  match
    (if String.prefix "BANDWIDTH=" line
     then match leading_digits (Py.drop 10 line) with
          | EmptyString => None
          | digits => Some digits
          end
     else None),
    line
  with
  | Some digits, _ => Some digits
  | None, String _ t => search_bandwidth t
  | None, EmptyString => None
  end.

(** [for i, line in enumerate(lines): ... streams.append(...)], where
    [lines[i+1]] raises [IndexError] on the last line. *)
Fixpoint collect_streams (lines : list string) : result (list stream) :=
  match lines with
  | [] => Ok []
  | line :: rest =>
      if Py.startswith line "#EXT-X-STREAM-INF:"
      then match search_bandwidth line with
           | Some digits =>
               bandwidth <- int (Some digits) ;;
               url <- match rest with
                      | next :: _ => Ok next
                      | [] => Raise IndexError
                      end ;;
               others <- collect_streams rest ;;
               Ok (Stream bandwidth line url :: others)
           | None => collect_streams rest
           end
      else collect_streams rest
  end.

(** [max(streams, key=lambda x: x['bandwidth'])]: the first largest. *)
Definition highest_quality (first : stream) (others : list stream) : stream :=
  fold_left (fun best x => if bandwidth best <? bandwidth x then x else best)
            others first.

(** The playlist of the VixSrc branch. *)
Definition vixsrc_playlist (lines : list string) (highest : stream) : string :=
  Py.join nl
    ("#EXTM3U"
     :: filter (fun line => Py.startswith line "#EXT-X-MEDIA:") lines
     +++ [inf highest; url highest]).

Section HLS.
Context {L : PyLib}.

(** The shape the three tag branches share:
    [uri_start = line.find('URI=' + quote) + 5;
     uri_end = line.find(quote, uri_start);
     if uri_start > 4 and uri_end > uri_start:
       new_line = line[:uri_start] + f(line[uri_start:uri_end]) + line[uri_end:]
     else: the line as it is]. *)
Definition rewrite_uri (line : string) (f : string -> result string)
  : result string :=
  let uri_start := Py.find line ("URI=" ++ dquote) 0 + 5 in
  let uri_end := Py.find line dquote uri_start in
  if ((4 <? uri_start) && (uri_start <? uri_end))%bool
  then
    new_url <- f (Py.slice line uri_start uri_end) ;;
    Ok (Py.slice_to line uri_start ++ new_url ++ Py.slice_from line uri_end)
  else Ok line.

(** [proxy_key_url] of the [#EXT-X-KEY] branch. *)
Definition proxy_key_url (base_url proxy_base : string)
  (stream_headers : headers) (original_channel_url : string)
  (api_password : option string) (original_key_url : string) : result string :=
  absolute_key_url <- urljoin base_url original_key_url ;;
  Ok (with_api_password
        (proxy_base ++ "/key?key_url=" ++ Py.quote_all absolute_key_url
         ++ "&original_channel_url=" ++ Py.quote_all original_channel_url
         ++ h_params stream_headers)
        api_password).

(** The URL put in an [#EXT-X-MEDIA] or [#EXT-X-MAP] tag. *)
Definition proxy_tag_url (kind : stream_kind) (endpoint : string)
  (base_url proxy_base header_params original_url : string) : result string :=
  absolute_url <- urljoin base_url original_url ;;
  Ok (match kind with
      | DLHD => absolute_url
      | _ => proxy_base ++ endpoint ++ Py.quote_all absolute_url ++ header_params
      end).

(** The branch for a segment or a sub-manifest line. *)
Definition rewrite_url_line (kind : stream_kind)
  (base_url proxy_base header_params base_query line : string) : result string :=
  absolute_url <- (if negb (Py.startswith line "http")
                   then urljoin base_url line else Ok line) ;;
  let absolute_url :=
    if (negb (String.eqb base_query "")
        && negb (Py.contains "?" absolute_url))%bool
    then absolute_url ++ "?" ++ base_query else absolute_url in
  match kind with
  | DLHD => Ok absolute_url
  | _ =>
      let encoded_url := Py.quote_all absolute_url in
      if Py.contains ".m3u8" absolute_url
      then Ok (proxy_base ++ "/proxy/manifest.m3u8?url=" ++ encoded_url
               ++ header_params)
      else Ok (proxy_base ++ "/proxy/hls/segment.mp4?d=" ++ encoded_url
               ++ header_params)
  end.

(** The body of [for line in lines] of the standard path: what is
    appended to [rewritten_lines]. *)
Definition rewrite_line (kind : stream_kind) (base_url proxy_base : string)
  (stream_headers : headers) (original_channel_url : string)
  (api_password : option string) (base_query line : string) : result string :=
  let header_params := header_params stream_headers api_password in
  let line := Py.strip line in
  if (Py.startswith line "#EXT-X-KEY:" && Py.contains "URI=" line)%bool
  then rewrite_uri line
         (proxy_key_url base_url proxy_base stream_headers original_channel_url
            api_password)
  else if (Py.startswith line "#EXT-X-MEDIA:" && Py.contains "URI=" line)%bool
  then rewrite_uri line
         (proxy_tag_url kind "/proxy/hls/manifest.m3u8?d=" base_url proxy_base
            header_params)
  else if (Py.startswith line "#EXT-X-MAP:" && Py.contains "URI=" line)%bool
  then rewrite_uri line
         (proxy_tag_url kind "/proxy/hls/segment.mp4?d=" base_url proxy_base
            header_params)
  else if (negb (String.eqb line "") && negb (Py.startswith line "#"))%bool
  then rewrite_url_line kind base_url proxy_base header_params base_query line
  else Ok line.

(** The VixSrc branch: [Some playlist] when it returns, [None] when
    [streams] is empty and the standard path runs. *)
Definition vixsrc_collapse (kind : stream_kind) (lines : list string)
  : result (option string) :=
  match kind with
  | VixSrc =>
      streams <- collect_streams lines ;;
      match streams with
      | first :: others =>
          Ok (Some (vixsrc_playlist lines (highest_quality first others)))
      | [] => Ok None
      end
  | _ => Ok None
  end.

(** [rewrite_manifest_urls(manifest_content, base_url, proxy_base,
    stream_headers, original_channel_url='', api_password=None,
    get_extractor_func=None)], with the outcome of the detection block as
    [kind].  Nothing catches what the body raises. *)
Definition rewrite_manifest_urls (manifest_content base_url proxy_base : string)
  (stream_headers : headers) (original_channel_url : string)
  (api_password : option string) (kind : stream_kind) : result string :=
  let lines := Py.split "010" manifest_content in
  collapsed <- vixsrc_collapse kind lines ;;
  match collapsed with
  | Some playlist => Ok playlist
  | None =>
      base_query <- urlparse_query base_url ;;
      rewritten_lines <-
        map_result
          (rewrite_line kind base_url proxy_base stream_headers
             original_channel_url api_password base_query)
          lines ;;
      Ok (Py.join nl rewritten_lines)
  end.

End HLS.

End ManifestRewriter.

(** ** The rationals as floats

    An instance of [PyFloat] in which every operation is exact.  It
    agrees with binary64 wherever the binary64 operations are exact, as
    on the small integers of the examples below. *)

Module QFloat.

Definition truediv (a b : Z) : result Q :=
  if b =? 0 then Raise ZeroDivisionError
  else Ok (Qred (inject_Z a / inject_Z b)).

Definition fadd (x y : Q) : Q := Qred (x + y).

Definition fltb (x y : Q) : bool := negb (Qle_bool y x).

Definition trunc (x : Q) : Z := Z.quot (Qnum x) (Zpos (Qden x)).

Fixpoint zeros (n : nat) : string :=
  match n with
  | O => ""
  | S k => String "0" (zeros k)
  end.

(** Fixed-point notation with [digits] decimals, the last one rounded
    half to even. *)
Definition format_f (digits : nat) (x : Q) : string :=
  let scale := 10 ^ Z.of_nat digits in
  let num := Z.abs (Qnum x) * scale in
  let den := Zpos (Qden x) in
  let quo := num / den in
  let rem := num mod den in
  let rounded :=
    if 2 * rem <? den then quo
    else if den <? 2 * rem then quo + 1
         else if Z.even quo then quo else quo + 1 in
  let frac := Py.str_of_int (rounded mod scale) in
  (if Qnum x <? 0 then "-" else "")
  ++ Py.str_of_int (rounded / scale)
  ++ match digits with
     | O => ""
     | _ => "." ++ zeros (digits - String.length frac) ++ frac
     end.

Lemma fleb_trans (x y z : Q) :
  Qle_bool x y = true -> Qle_bool y z = true -> Qle_bool x z = true.
Proof.
  rewrite !Qle_bool_iff. apply Qle_trans.
Qed.

Lemma fadd_nonneg (x y : Q) :
  Qle_bool (inject_Z 0) x = true -> Qle_bool (inject_Z 0) y = true ->
  Qle_bool x (fadd x y) = true.
Proof.
  unfold fadd. rewrite !Qle_bool_iff. intros _ Hy.
  rewrite Qred_correct.
  setoid_replace x with (x + 0)%Q at 1 by ring.
  apply Qplus_le_compat; [apply Qle_refl | exact Hy].
Qed.

End QFloat.

#[export] Instance Q_float : PyFloat := {|
  float := Q;
  truediv := QFloat.truediv;
  of_int := inject_Z;
  fadd := QFloat.fadd;
  fleb := Qle_bool;
  fltb := QFloat.fltb;
  trunc := QFloat.trunc;
  format_f := QFloat.format_f;
  fleb_zero := eq_refl;
  fleb_trans := QFloat.fleb_trans;
  fadd_nonneg := QFloat.fadd_nonneg
|}.

Example q_float_examples :
  QFloat.truediv 4000 1000 = Ok (4 # 1)%Q
  /\ QFloat.truediv 1 0 = Raise ZeroDivisionError
  /\ QFloat.format_f 3 (4 # 1)%Q = "4.000"
  /\ QFloat.format_f 3 (2001 # 1000)%Q = "2.001"
  /\ QFloat.format_f 3 (-1 # 2000)%Q = "-0.000"
  /\ QFloat.format_f 6 (1 # 3)%Q = "0.333333"
  /\ QFloat.trunc (7 # 2)%Q = 3 /\ QFloat.trunc (-7 # 2)%Q = -3.
Proof. repeat split; reflexivity. Qed.

(** ** Library instances for the examples

    A stand-in for [urljoin] that is right where the examples use it: an
    absolute [http] or [https] URL is returned as it is, and a plain
    relative name is appended to a base that ends in a slash.  The parser
    of an instance is a table from the texts of the examples to their
    trees. *)

Definition example_urljoin (base url : string) : result string :=
  if (Py.startswith url "http://" || Py.startswith url "https://")%bool
  then Ok url
  else if (Py.endswith base "/" && negb (Py.contains "/" url)
           && negb (Py.contains ":" url)
           && negb (Py.contains "." (Py.take 1 url)))%bool
       then Ok (base ++ url) else Raise ValueError.

Definition example_lib (parse : string -> result ET.element) : PyLib := {|
  urljoin := example_urljoin;
  urlparse_query := fun _ => Ok "";
  fromstring := parse;
  tostring := fun _ => "";
  exn_text := fun _ => ""
|}.

(** * Properties *)

(** ** The words of the specification

    The definitions of this module follow the specification, not the
    code: they are what the code is compared with. *)

Module Spec.

Section Timeline.
Context {F : PyFloat}.

(** The attributes of one [<S t d r>] entry, read as numbers. *)
Record s_entry : Type := SEntry {
  s_t : option Z;
  s_d : Z;
  s_r : Z
}.

(** The [count] segments of one entry: each advances the clock by [d]
    and the sequence number by 1. *)
Definition entry_segments (clock number : Z) (count : nat) (d : Z)
  (duration : float) : list MPDToHLSConverter.segment :=
  map (fun k => MPDToHLSConverter.Segment
                  (clock + Z.of_nat k * d) (number + Z.of_nat k) duration d)
      (seq 0 count).

(** Section 4.4, step 6: the starting time of an entry is the running
    clock unless [t] is given; the entry contributes [r + 1] segments of
    [d / timescale] seconds. *)
Fixpoint timeline_segments (seconds : Z -> float) (clock number : Z)
  (entries : list s_entry) : list MPDToHLSConverter.segment :=
  match entries with
  | [] => []
  | e :: rest =>
      let start := match s_t e with Some t => t | None => clock end in
      let count := Z.to_nat (s_r e + 1) in
      entry_segments start number count (s_d e) (seconds (s_d e))
      +++ timeline_segments seconds
            (start + Z.of_nat count * s_d e) (number + Z.of_nat count) rest
  end.

End Timeline.

(** The sum of the [r] attributes. *)
Definition sum_r (entries : list s_entry) : Z :=
  fold_right (fun e acc => s_r e + acc) 0 entries.

(** What an [<S>] element says, when its attributes are numbers. *)
Definition read_S (s : ET.element) : result s_entry :=
  t <- (if Py.truthy (ET.get s "t")
        then v <- int (ET.get s "t") ;; Ok (Some v)
        else Ok None) ;;
  d <- int (ET.get s "d") ;;
  r <- int (Some (ET.get_default s "r" "0")) ;;
  Ok (SEntry t d r).

End Spec.

(** ** Tactics and basic facts *)

(** Case analysis on the computation a [bind] or a [match] waits for. *)
Ltac destruct_head :=
  match goal with
  | |- context [bind ?m _] =>
      match m with
      | context [bind _ _] => fail 1
      | _ => destruct m eqn:?; cbn [bind]
      end
  end.

Lemma prefix_nil (s : string) : String.prefix "" s = true.
Proof. destruct s; reflexivity. Qed.

Lemma prefix_cons (a b : ascii) (s1 s2 : string) :
  String.prefix (String a s1) (String b s2)
  = (Ascii.eqb a b && String.prefix s1 s2)%bool.
Proof.
  cbn [String.prefix]. destruct (ascii_dec a b) as [-> | Hne].
  - rewrite Ascii.eqb_refl. reflexivity.
  - apply Ascii.eqb_neq in Hne. rewrite Hne. reflexivity.
Qed.

Lemma bind_ok {A B : Type} (m : result A) (k : A -> result B) (b : B) :
  bind m k = Ok b -> exists a, m = Ok a /\ k a = Ok b.
Proof.
  destruct m as [a | e]; cbn; intros H; [eauto | discriminate].
Qed.

Lemma map_result_length {A B : Type} (f : A -> result B) (l : list A)
  (out : list B) :
  map_result f l = Ok out -> List.length out = List.length l.
Proof.
  revert out. induction l as [| x r IH]; cbn; intros out H.
  - injection H as <-. reflexivity.
  - apply bind_ok in H as (y & _ & H).
    apply bind_ok in H as (ys & Hys & H).
    injection H as <-. cbn. f_equal. auto.
Qed.



Lemma map_result_Forall2 {A B : Type} (f : A -> result B) (l : list A)
  (out : list B) :
  map_result f l = Ok out <-> Forall2 (fun x y => f x = Ok y) l out.
Proof.
  split.
  - revert out. induction l as [| x r IH]; cbn; intros out H.
    + injection H as <-. constructor.
    + apply bind_ok in H as (y & Hy & H).
      apply bind_ok in H as (ys & Hys & H).
      injection H as <-. constructor; auto.
  - induction 1 as [| x y r ys Hx _ IH]; cbn; [reflexivity |].
    rewrite Hx. cbn. rewrite IH. reflexivity.
Qed.

(** ** The segment timeline (claim C1) *)

Section TimelineFacts.
Context {F : PyFloat}.
Import MPDToHLSConverter.

Lemma repeat_segment_spec (count : nat) (d : Z) (dur : float)
  (segs : list segment) (clock number : Z) :
  repeat_segment count d dur (TimelineState segs clock number)
  = TimelineState (segs +++ Spec.entry_segments clock number count d dur)
      (clock + Z.of_nat count * d) (number + Z.of_nat count).
Proof.
  revert segs clock number.
  induction count as [| count IH]; intros segs clock number;
    cbn [repeat_segment].
  - unfold Spec.entry_segments. cbn. rewrite app_nil_r. f_equal; lia.
  - cbn [all_segments current_time segment_number]. rewrite IH.
    unfold Spec.entry_segments. cbn [seq map].
    rewrite <- seq_shift, map_map, <- app_assoc. cbn [app].
    f_equal; [| lia | lia].
    f_equal. f_equal; [f_equal; lia |].
    apply map_ext. intros k. f_equal; lia.
Qed.

Lemma timeline_step_read (timescale : Z) (st : timeline_state)
  (s : ET.element) (e : Spec.s_entry) :
  Spec.read_S s = Ok e ->
  timeline_step timescale st s
  = (dur <- truediv (Spec.s_d e) timescale ;;
     Ok (repeat_segment (Z.to_nat (Spec.s_r e + 1)) (Spec.s_d e) dur
           (TimelineState (all_segments st)
              (match Spec.s_t e with Some t => t | None => current_time st end)
              (segment_number st)))).
Proof.
  unfold Spec.read_S, timeline_step. intros H.
  destruct (Py.truthy (ET.get s "t")).
  - destruct (int (ET.get s "t")) as [t |]; cbn [bind] in *; [| discriminate].
    destruct (int (ET.get s "d")) as [d |]; cbn [bind] in *; [| discriminate].
    destruct (int (Some (ET.get_default s "r" "0"))) as [r |]; cbn [bind] in *;
      [| discriminate].
    injection H as <-. reflexivity.
  - cbn [bind] in *.
    destruct (int (ET.get s "d")) as [d |]; cbn [bind] in *; [| discriminate].
    destruct (int (Some (ET.get_default s "r" "0"))) as [r |]; cbn [bind] in *;
      [| discriminate].
    injection H as <-. reflexivity.
Qed.

Lemma for_each_timeline (timescale : Z) (seconds : Z -> float)
  (ss : list ET.element) (entries : list Spec.s_entry) :
  Forall2 (fun s e => Spec.read_S s = Ok e) ss entries ->
  Forall (fun e => truediv (Spec.s_d e) timescale = Ok (seconds (Spec.s_d e)))
         entries ->
  forall segs clock number, exists clock' number',
    for_each (timeline_step timescale) ss (TimelineState segs clock number)
    = Ok (TimelineState
            (segs +++ Spec.timeline_segments seconds clock number entries)
            clock' number').
Proof.
  induction 1 as [| s e ss entries Hs _ IH]; intros Hdur segs clock number.
  - cbn. rewrite app_nil_r. eauto.
  - inversion Hdur as [| ? ? He Hrest]; subst.
    cbn [for_each]. rewrite (timeline_step_read _ _ _ _ Hs), He.
    cbn [bind all_segments current_time segment_number].
    rewrite repeat_segment_spec. cbn [bind].
    destruct (IH Hrest
                (segs +++ Spec.entry_segments
                   (match Spec.s_t e with Some t => t | None => clock end)
                   number (Z.to_nat (Spec.s_r e + 1)) (Spec.s_d e)
                   (seconds (Spec.s_d e)))
                (match Spec.s_t e with Some t => t | None => clock end
                 + Z.of_nat (Z.to_nat (Spec.s_r e + 1)) * Spec.s_d e)
                (number + Z.of_nat (Z.to_nat (Spec.s_r e + 1))))
      as (clock' & number' & ->).
    exists clock', number'. cbn [Spec.timeline_segments].
    rewrite <- app_assoc. reflexivity.
Qed.

Lemma timeline_segments_length (seconds : Z -> float)
  (entries : list Spec.s_entry) (clock number : Z) :
  Forall (fun e => -1 <= Spec.s_r e) entries ->
  Z.of_nat (List.length (Spec.timeline_segments seconds clock number entries))
  = Z.of_nat (List.length entries) + Spec.sum_r entries.
Proof.
  intros H. revert clock number.
  induction H as [| e rest He _ IH]; intros clock number.
  - reflexivity.
  - cbn [Spec.timeline_segments Spec.sum_r fold_right List.length].
    rewrite length_app. unfold Spec.entry_segments.
    rewrite length_map, length_seq, Nat2Z.inj_add, IH.
    unfold Spec.sum_r. lia.
Qed.

End TimelineFacts.

(** C1, as amended.  When the attributes of the [<S>] elements are
    numbers, every [r] is at least -1 and [d / timescale] is defined, the
    timeline loop yields the segments the specification describes: an
    entry starts at [t] when [t] is given and at the running clock
    otherwise, contributes [r + 1] segments, each advancing the clock by
    [d] and the number by 1, each of [d / timescale] seconds; for [N]
    entries whose [r] sum to [R] that makes [N + R] segments. *)
Theorem timeline_expansion_arithmetic {F : PyFloat}
  (timescale start_number : Z) (segment_timeline : ET.element)
  (entries : list Spec.s_entry) (seconds : Z -> float) :
  map_result Spec.read_S (ET.findall segment_timeline (mpd "S")) = Ok entries ->
  Forall (fun e => truediv (Spec.s_d e) timescale = Ok (seconds (Spec.s_d e)))
         entries ->
  Forall (fun e => -1 <= Spec.s_r e) entries ->
  exists segments,
    MPDToHLSConverter.expand_timeline timescale start_number segment_timeline
    = Ok segments
    /\ segments = Spec.timeline_segments seconds 0 start_number entries
    /\ Z.of_nat (List.length segments)
       = Z.of_nat (List.length entries) + Spec.sum_r entries.
Proof.
  intros Hread Hdur Hr.
  apply map_result_Forall2 in Hread.
  destruct (for_each_timeline timescale seconds _ _ Hread Hdur [] 0 start_number)
    as (clock' & number' & Hloop).
  eexists. unfold MPDToHLSConverter.expand_timeline.
  rewrite Hloop. cbn. split; [reflexivity |]. split; [reflexivity |].
  apply timeline_segments_length, Hr.
Qed.

(** The example of the specification: [<S t=0 d=4000 r=2/>] at timescale
    1000. *)
Definition timeline_of (entries : list ET.element) : ET.element :=
  ET.Element (mpd "SegmentTimeline") [] None None entries.

Definition s_element (attrs : list (string * string)) : ET.element :=
  ET.Element (mpd "S") attrs None None [].

Example timeline_example :
  MPDToHLSConverter.expand_timeline (F := Q_float) 1000 1
    (timeline_of [s_element [("t", "0"); ("d", "4000"); ("r", "2")]])
  = Ok [MPDToHLSConverter.Segment 0 1 (4 # 1)%Q 4000;
        MPDToHLSConverter.Segment 4000 2 (4 # 1)%Q 4000;
        MPDToHLSConverter.Segment 8000 3 (4 # 1)%Q 4000].
Proof. reflexivity. Qed.

Lemma timeline_expansion_arithmetic_witness :
  exists segments,
    MPDToHLSConverter.expand_timeline (F := Q_float) 1000 1
      (timeline_of [s_element [("t", "0"); ("d", "4000"); ("r", "2")];
                    s_element [("d", "2000"); ("r", "-1")];
                    s_element [("d", "1000")]])
    = Ok segments
    /\ segments
       = Spec.timeline_segments (fun d => Qred (inject_Z d / inject_Z 1000)) 0 1
           [Spec.SEntry (Some 0) 4000 2; Spec.SEntry None 2000 (-1);
            Spec.SEntry None 1000 0]
    /\ Z.of_nat (List.length segments) = Z.of_nat 3 + (2 + (-1 + (0 + 0))).
Proof.
  apply (timeline_expansion_arithmetic (F := Q_float) 1000 1
           (timeline_of [s_element [("t", "0"); ("d", "4000"); ("r", "2")];
                         s_element [("d", "2000"); ("r", "-1")];
                         s_element [("d", "1000")]])
           [Spec.SEntry (Some 0) 4000 2; Spec.SEntry None 2000 (-1);
            Spec.SEntry None 1000 0]
           (fun d => Qred (inject_Z d / inject_Z 1000))).
  - reflexivity.
  - repeat constructor.
  - repeat constructor; cbn; lia.
Defined.

(** C1 as stated fails on an entry with [r = -2]: [range(r + 1)] is
    empty, so one entry ([N = 1]) whose [r] sums to [R = -2] yields no
    segment, not [N + R = -1] of them. *)
Lemma timeline_count_counterexample :
  map_result Spec.read_S
    (ET.findall (timeline_of [s_element [("d", "4000"); ("r", "-2")]]) (mpd "S"))
  = Ok [Spec.SEntry None 4000 (-2)]
  /\ MPDToHLSConverter.expand_timeline (F := Q_float) 1000 1
       (timeline_of [s_element [("d", "4000"); ("r", "-2")]])
     = Ok []
  /\ Z.of_nat (List.length (@nil MPDToHLSConverter.segment))
     <> Z.of_nat (List.length [Spec.SEntry None 4000 (-2)])
        + Spec.sum_r [Spec.SEntry None 4000 (-2)].
Proof.
  split; [reflexivity |]. split; [reflexivity |]. cbn. lia.
Qed.

(** ** The live window (claims C2 and C9) *)

Section WindowFacts.
Context {F : PyFloat}.
Import MPDToHLSConverter.

(** [total_duration] after the durations [durs] have been added to
    [total], in that order. *)
Definition accumulate (total : float) (durs : list float) : float :=
  fold_left fadd durs total.

(** [total_duration] once the segments of a trailing part of the list
    have been walked, last segment first. *)
Definition walked (trailing : list segment) : float :=
  accumulate (of_int 0) (map seg_duration (List.rev trailing)).

Definition window_reached (total : float) : bool :=
  fleb (of_int LIVE_WINDOW_SECONDS) total.

(** The number of iterations of the walk over [durs]. *)
Fixpoint walk_count (durs : list float) (total : float) : nat :=
  match durs with
  | [] => O
  | d :: rest =>
      if window_reached (fadd total d) then 1%nat
      else S (walk_count rest (fadd total d))
  end.

Lemma live_walk_fst (reversed : list segment) (total : float)
  (live : list segment) :
  fst (live_walk reversed total live)
  = List.rev (firstn (walk_count (map seg_duration reversed) total) reversed)
    +++ live.
Proof.
  revert total live.
  induction reversed as [| seg rest IH]; intros total live; cbn.
  - reflexivity.
  - unfold window_reached.
    destruct (fleb (of_int LIVE_WINDOW_SECONDS) (fadd total (seg_duration seg))).
    + reflexivity.
    + rewrite IH. cbn. rewrite <- app_assoc. reflexivity.
Qed.

Lemma live_walk_snd (reversed : list segment) (total : float)
  (live : list segment) :
  snd (live_walk reversed total live)
  = accumulate total
      (firstn (walk_count (map seg_duration reversed) total)
              (map seg_duration reversed)).
Proof.
  revert total live.
  induction reversed as [| seg rest IH]; intros total live; cbn.
  - reflexivity.
  - unfold window_reached.
    destruct (fleb (of_int LIVE_WINDOW_SECONDS) (fadd total (seg_duration seg))).
    + reflexivity.
    + rewrite IH. reflexivity.
Qed.

Lemma walk_count_le (durs : list float) (total : float) :
  (walk_count durs total <= List.length durs)%nat.
Proof.
  revert total. induction durs as [| d rest IH]; intros total; cbn.
  - lia.
  - destruct (window_reached (fadd total d)); [lia |].
    specialize (IH (fadd total d)). lia.
Qed.

Lemma walk_count_pos (durs : list float) (total : float) :
  durs <> [] -> (1 <= walk_count durs total)%nat.
Proof.
  destruct durs as [| d rest]; [congruence |]. intros _. cbn.
  destruct (window_reached (fadd total d)); lia.
Qed.

(** The walk stops early only where the window is reached. *)
Lemma walk_count_reached (durs : list float) (total : float) :
  (walk_count durs total < List.length durs)%nat ->
  window_reached (accumulate total (firstn (walk_count durs total) durs)) = true.
Proof.
  revert total. induction durs as [| d rest IH]; intros total; cbn.
  - lia.
  - destruct (window_reached (fadd total d)) eqn:E; cbn.
    + intros _. exact E.
    + intros H. apply IH. lia.
Qed.

(** It does not stop before. *)
Lemma walk_count_least (durs : list float) (total : float) (j : nat) :
  (1 <= j < walk_count durs total)%nat ->
  window_reached (accumulate total (firstn j durs)) = false.
Proof.
  revert total j. induction durs as [| d rest IH]; intros total j; cbn.
  - lia.
  - destruct (window_reached (fadd total d)) eqn:E; [lia |].
    intros H. destruct j as [| j]; [lia |]. cbn.
    destruct j as [| j]; [exact E |]. apply IH. lia.
Qed.

(** The number of segments the walk retains. *)
Definition window_size (all : list segment) : nat :=
  walk_count (map seg_duration (List.rev all)) (of_int 0).

Lemma live_window_skipn (all : list segment) :
  live_window all = skipn (List.length all - window_size all) all.
Proof.
  unfold live_window, window_size. rewrite live_walk_fst, app_nil_r.
  rewrite firstn_rev, rev_involutive. reflexivity.
Qed.

Lemma window_size_le (all : list segment) :
  (window_size all <= List.length all)%nat.
Proof.
  unfold window_size.
  pose proof (walk_count_le (map seg_duration (List.rev all)) (of_int 0)) as H.
  rewrite length_map, length_rev in H. exact H.
Qed.

Lemma walked_skipn (all : list segment) (j : nat) :
  walked (skipn j all)
  = accumulate (of_int 0)
      (firstn (List.length all - j) (map seg_duration (List.rev all))).
Proof.
  unfold walked. rewrite firstn_map. f_equal. f_equal.
  rewrite firstn_rev.
  destruct (Nat.le_gt_cases j (List.length all)) as [Hj | Hj].
  - replace (List.length all - (List.length all - j))%nat with j by lia.
    reflexivity.
  - rewrite skipn_all2 by lia.
    replace (List.length all - j)%nat with 0%nat by lia.
    rewrite Nat.sub_0_r, skipn_all. reflexivity.
Qed.

(** The retained window is a trailing part of the list; when a segment is
    left out the walk over the window has reached 30 seconds; and no
    shorter trailing part reaches them. *)
Lemma live_window_trailing (all : list segment) :
  exists dropped : nat,
    live_window all = skipn dropped all
    /\ (dropped <= List.length all)%nat
    /\ (all <> [] -> (dropped < List.length all)%nat)
    /\ ((0 < dropped)%nat ->
        window_reached (walked (live_window all)) = true)
    /\ (forall j, (dropped < j < List.length all)%nat ->
                  window_reached (walked (skipn j all)) = false).
Proof.
  exists (List.length all - window_size all)%nat.
  pose proof (window_size_le all) as Hle.
  split; [apply live_window_skipn |]. split; [lia |]. split; [| split].
  - intros Hne.
    assert (1 <= window_size all)%nat.
    { apply walk_count_pos. intros E. apply map_eq_nil in E.
      apply (f_equal (@List.rev _)) in E. rewrite rev_involutive in E.
      cbn in E. congruence. }
    destruct all; [congruence | cbn [List.length] in *; lia].
  - intros Hpos. rewrite live_window_skipn, walked_skipn.
    replace (List.length all - (List.length all - window_size all))%nat
      with (window_size all) by lia.
    apply walk_count_reached. rewrite length_map, length_rev.
    fold (window_size all). lia.
  - intros j Hj. rewrite walked_skipn. apply walk_count_least.
    fold (window_size all). lia.
Qed.

Lemma live_window_nonempty (all : list segment) :
  all <> [] -> exists first others, live_window all = first :: others.
Proof.
  intros Hne.
  destruct (live_window_trailing all) as (dropped & Hw & _ & Hlt & _).
  specialize (Hlt Hne).
  destruct (live_window all) as [| first others] eqn:E; [| eauto].
  symmetry in Hw. apply skipn_all_iff in Hw. lia.
Qed.

(** [max(...)] returns one of the durations it is given. *)
Lemma max_duration_in (first : segment) (others : list segment) :
  In (max_duration first others) (map seg_duration (first :: others)).
Proof.
  unfold max_duration.
  enough (forall m, In m (map seg_duration (first :: others)) ->
            incl (map seg_duration others) (map seg_duration (first :: others)) ->
            In (fold_left
                  (fun m seg => if fltb m (seg_duration seg)
                                then seg_duration seg else m) others m)
               (map seg_duration (first :: others))) as H.
  { apply H; [left; reflexivity | apply incl_tl, incl_refl]. }
  generalize (map seg_duration (first :: others)) as ds.
  induction others as [| seg rest IH]; intros ds m Hm Hincl; cbn.
  - exact Hm.
  - apply IH.
    + destruct (fltb m (seg_duration seg)); [| exact Hm].
      apply Hincl. left. reflexivity.
    + intros x Hx. apply Hincl. right. exact Hx.
Qed.

(** The live branch of the timeline code, once the timeline is expanded
    into at least one segment: [TARGETDURATION] goes in at index 2 and
    [MEDIA-SEQUENCE] carries the number of the first retained segment. *)
Lemma timeline_branch_live {L : PyLib}
  (rep_id proxy_base params base_url : string) (media : option string)
  (server_side_decryption : bool) (encoded_init_url decryption_params : string)
  (timescale start_number : Z) (segment_timeline : ET.element)
  (lines : list string) (all : list segment) :
  expand_timeline timescale start_number segment_timeline = Ok all ->
  all <> [] ->
  exists first others,
    live_window all = first :: others
    /\ timeline_branch true rep_id proxy_base params base_url media
         server_side_decryption encoded_init_url decryption_params
         timescale start_number segment_timeline lines
       = (seg_lines <- map_result
                         (timeline_segment_lines rep_id proxy_base params
                            base_url media server_side_decryption
                            encoded_init_url decryption_params)
                         (live_window all) ;;
          Ok ((list_insert 2
                 ("#EXT-X-TARGETDURATION:"
                  ++ Py.str_of_int (trunc (max_duration first others) + 1))
                 lines
               +++ ["#EXT-X-MEDIA-SEQUENCE:" ++ Py.str_of_int (seg_number first)])
              +++ List.concat seg_lines)).
Proof.
  intros Hexp Hne.
  destruct (live_window_nonempty all Hne) as (first & others & Hw).
  exists first, others. split; [exact Hw |].
  unfold timeline_branch. rewrite Hexp. cbn [bind].
  destruct all as [| s0 rest]; [congruence |].
  rewrite Hw. cbn [bind]. reflexivity.
Qed.

End WindowFacts.

(** *** The window in exact arithmetic *)

Lemma Q_max_duration_upper (first : MPDToHLSConverter.segment (F := Q_float))
  (others : list MPDToHLSConverter.segment) :
  Forall (fun seg => (MPDToHLSConverter.seg_duration seg
                      <= MPDToHLSConverter.max_duration first others)%Q)
         (first :: others).
Proof.
  unfold MPDToHLSConverter.max_duration.
  enough (forall m : Q,
            (m <= fold_left
                    (fun m seg =>
                       if @fltb Q_float m (MPDToHLSConverter.seg_duration seg)
                       then MPDToHLSConverter.seg_duration seg else m)
                    others m)%Q
            /\ Forall (fun seg =>
                         (MPDToHLSConverter.seg_duration seg
                          <= fold_left
                               (fun m seg =>
                                  if @fltb Q_float m (MPDToHLSConverter.seg_duration seg)
                                  then MPDToHLSConverter.seg_duration seg else m)
                               others m)%Q) others) as H.
  { destruct (H (MPDToHLSConverter.seg_duration first)) as [H1 H2].
    constructor; assumption. }
  induction others as [| seg rest IH]; intros m; cbn [fold_left].
  - split; [apply Qle_refl | constructor].
  - set (m' := if @fltb Q_float m (MPDToHLSConverter.seg_duration seg)
               then MPDToHLSConverter.seg_duration seg else m).
    assert (Hm : (m <= m')%Q /\ (MPDToHLSConverter.seg_duration seg <= m')%Q).
    { subst m'. cbn [fltb Q_float]. unfold QFloat.fltb.
      destruct (Qle_bool (MPDToHLSConverter.seg_duration seg) m) eqn:E; cbn.
      - apply Qle_bool_iff in E. split; [apply Qle_refl | exact E].
      - split; [| apply Qle_refl].
        apply Qlt_le_weak, Qnot_le_lt. intros H.
        apply Qle_bool_iff in H. congruence. }
    destruct (IH m') as [H1 H2]. destruct Hm as [Hm1 Hm2].
    split; [eapply Qle_trans; eassumption |].
    constructor; [eapply Qle_trans; eassumption | exact H2].
Qed.

(** [int(x)] is the floor of a non-negative [x]. *)
Lemma Q_trunc_floor (x : Q) : (0 <= x)%Q -> QFloat.trunc x = Qfloor x.
Proof.
  destruct x as [n d]. unfold Qle, QFloat.trunc, Qfloor. cbn. intros H.
  apply Z.quot_div_nonneg; lia.
Qed.

(** *** The example: a live playlist of 50 segments of 2 seconds *)

Definition example_manifest (mpd_type : string)
  (template_attrs : list (string * string))
  (template_children : list ET.element) : ET.element :=
  ET.Element (mpd "MPD") [("type", mpd_type)] None None
    [ET.Element (mpd "Period") [] None None
       [ET.Element (mpd "AdaptationSet") [("mimeType", "video/mp4")] None None
          [ET.Element (mpd "Representation")
             [("id", "v1"); ("bandwidth", "2000000")] None None
             [ET.Element (mpd "SegmentTemplate") template_attrs None None
                template_children]]]].

(** A parser that knows the texts of a table. *)
Fixpoint example_parser (table : list (string * ET.element)) (text : string)
  : result ET.element :=
  match table with
  | [] => Raise ParseError
  | (known, root) :: rest =>
      if String.eqb text known then Ok root else example_parser rest text
  end.

Definition timeline_50 : ET.element :=
  timeline_of [s_element [("d", "2000"); ("r", "49")]].

Definition live_50_text : string :=
  "<MPD xmlns='urn:mpeg:dash:schema:mpd:2011' type='dynamic'><Period>"
  ++ "<AdaptationSet mimeType='video/mp4'>"
  ++ "<Representation id='v1' bandwidth='2000000'>"
  ++ "<SegmentTemplate timescale='1000' media='seg_$Number$.m4s'>"
  ++ "<SegmentTimeline><S d='2000' r='49'/></SegmentTimeline>"
  ++ "</SegmentTemplate></Representation></AdaptationSet></Period></MPD>".

Definition live_50 : ET.element :=
  example_manifest "dynamic"
    [("timescale", "1000"); ("media", "seg_$Number$.m4s")] [timeline_50].

Definition has_line (lines : list string) (line : string) : bool :=
  existsb (String.eqb line) lines.

Definition count_lines (prefix : string) (lines : list string) : nat :=
  List.length (filter (fun line => Py.startswith line prefix) lines).

Lemma live_50_window (start_number : Z) :
  exists all first others,
    MPDToHLSConverter.expand_timeline (F := Q_float) 1000 start_number timeline_50
    = Ok all
    /\ List.length all = 50%nat
    /\ Forall (fun seg => MPDToHLSConverter.seg_duration seg = (2 # 1)%Q) all
    /\ MPDToHLSConverter.live_window all = skipn 35 all
    /\ MPDToHLSConverter.live_window all = first :: others
    /\ List.length others = 14%nat
    /\ MPDToHLSConverter.seg_number first = start_number + 35
    /\ trunc (MPDToHLSConverter.max_duration first others) + 1 = 3.
Proof.
  pose (seconds := fun d : Z => Qred (inject_Z d / inject_Z 1000)).
  destruct (timeline_expansion_arithmetic (F := Q_float) 1000 start_number
              timeline_50 [Spec.SEntry None 2000 49] seconds)
    as (all & Hexp & Hall & _).
  { reflexivity. }
  { repeat constructor. }
  { repeat constructor. cbn. lia. }
  cbn [Spec.timeline_segments Spec.s_t Spec.s_d Spec.s_r] in Hall.
  rewrite app_nil_r in Hall.
  change (Z.to_nat (49 + 1)) with 50%nat in Hall.
  change (seconds 2000) with (2 # 1)%Q in Hall.
  assert (Hwin : MPDToHLSConverter.live_window all = skipn 35 all).
  { rewrite live_window_skipn.
    replace (window_size all) with 15%nat
      by (subst all; vm_compute; reflexivity).
    subst all. unfold Spec.entry_segments. rewrite length_map, length_seq.
    reflexivity. }
  exists all.
  exists (MPDToHLSConverter.Segment (F := Q_float) (0 + Z.of_nat 35 * 2000)
            (start_number + Z.of_nat 35) (2 # 1)%Q 2000).
  exists (map (fun k => MPDToHLSConverter.Segment (F := Q_float)
                          (0 + Z.of_nat k * 2000)
                          (start_number + Z.of_nat k) (2 # 1)%Q 2000)
              (seq 36 14)).
  split; [exact Hexp |]. split.
  { subst all. unfold Spec.entry_segments. rewrite length_map, length_seq.
    reflexivity. }
  split.
  { subst all. unfold Spec.entry_segments. apply Forall_map, Forall_forall.
    reflexivity. }
  split; [exact Hwin |]. split.
  { rewrite Hwin. subst all. unfold Spec.entry_segments.
    rewrite skipn_map, skipn_seq. reflexivity. }
  split; [rewrite length_map, length_seq; reflexivity |].
  split; [cbn; lia | vm_compute; reflexivity].
Qed.

(** C2, as amended.  For a live manifest whose timeline expands into at
    least one segment: the retained window is a trailing part of the
    expanded list, found by walking the list from its end and adding
    durations until the sum is at least 30 seconds (no shorter trailing
    part reaches them, and the window reaches them whenever a segment is
    left out); [TARGETDURATION] is [int(max retained duration) + 1], put
    in at index 2, where [int] is the floor of a non-negative duration;
    [MEDIA-SEQUENCE] is the number of the first retained segment.  For 50
    segments of 2 seconds the last 15 are retained and [MEDIA-SEQUENCE]
    is [startNumber + 35]: 36 with the default [startNumber] of 1. *)
Theorem live_window_and_media_sequence :
  (forall (F : PyFloat) (L : PyLib)
          (rep_id proxy_base params base_url : string) (media : option string)
          (server_side_decryption : bool)
          (encoded_init_url decryption_params : string)
          (timescale start_number : Z) (segment_timeline : ET.element)
          (lines : list string) (all : list MPDToHLSConverter.segment),
      MPDToHLSConverter.expand_timeline timescale start_number segment_timeline
      = Ok all ->
      all <> [] ->
      exists (dropped : nat) (first : MPDToHLSConverter.segment)
             (others : list MPDToHLSConverter.segment),
        MPDToHLSConverter.live_window all = skipn dropped all
        /\ MPDToHLSConverter.live_window all = first :: others
        /\ ((0 < dropped)%nat ->
            window_reached (walked (MPDToHLSConverter.live_window all)) = true)
        /\ (forall j, (dropped < j < List.length all)%nat ->
                      window_reached (walked (skipn j all)) = false)
        /\ In (MPDToHLSConverter.max_duration first others)
              (map MPDToHLSConverter.seg_duration (first :: others))
        /\ MPDToHLSConverter.timeline_branch true rep_id proxy_base params
             base_url media server_side_decryption encoded_init_url
             decryption_params timescale start_number segment_timeline lines
           = (seg_lines <- map_result
                             (MPDToHLSConverter.timeline_segment_lines rep_id
                                proxy_base params base_url media
                                server_side_decryption encoded_init_url
                                decryption_params)
                             (MPDToHLSConverter.live_window all) ;;
              Ok ((MPDToHLSConverter.list_insert 2
                     ("#EXT-X-TARGETDURATION:"
                      ++ Py.str_of_int
                           (trunc (MPDToHLSConverter.max_duration first others)
                            + 1))
                     lines
                   +++ ["#EXT-X-MEDIA-SEQUENCE:"
                        ++ Py.str_of_int (MPDToHLSConverter.seg_number first)])
                  +++ List.concat seg_lines)))
  /\ (forall (first : MPDToHLSConverter.segment (F := Q_float))
             (others : list MPDToHLSConverter.segment),
         Forall (fun seg => (MPDToHLSConverter.seg_duration seg
                             <= MPDToHLSConverter.max_duration first others)%Q)
                (first :: others)
         /\ ((0 <= MPDToHLSConverter.max_duration first others)%Q ->
             QFloat.trunc (MPDToHLSConverter.max_duration first others)
             = Qfloor (MPDToHLSConverter.max_duration first others)))
  /\ (forall start_number : Z,
         exists all first others,
           MPDToHLSConverter.expand_timeline (F := Q_float) 1000 start_number
             timeline_50 = Ok all
           /\ List.length all = 50%nat
           /\ Forall (fun seg => MPDToHLSConverter.seg_duration seg = (2 # 1)%Q)
                     all
           /\ MPDToHLSConverter.live_window all = skipn 35 all
           /\ MPDToHLSConverter.live_window all = first :: others
           /\ List.length others = 14%nat
           /\ MPDToHLSConverter.seg_number first = start_number + 35
           /\ trunc (MPDToHLSConverter.max_duration first others) + 1 = 3).
Proof.
  split; [| split].
  - intros F L rep_id proxy_base params base_url media ssd enc dp timescale
      start_number segment_timeline lines all Hexp Hne.
    destruct (live_window_trailing all) as (dropped & Hw & _ & _ & Hr & Hleast).
    destruct (timeline_branch_live rep_id proxy_base params base_url media ssd
                enc dp timescale start_number segment_timeline lines all
                Hexp Hne) as (first & others & Hfirst & Hbranch).
    exists dropped, first, others.
    split; [exact Hw |]. split; [exact Hfirst |]. split; [exact Hr |].
    split; [exact Hleast |]. split; [apply max_duration_in | exact Hbranch].
  - intros first others. split; [apply Q_max_duration_upper |].
    apply Q_trunc_floor.
  - apply live_50_window.
Qed.

Definition all_50 : list (MPDToHLSConverter.segment (F := Q_float)) :=
  Spec.entry_segments 0 1 50 2000 (2 # 1)%Q.

Lemma live_window_and_media_sequence_witness :
  exists (dropped : nat) (first : MPDToHLSConverter.segment)
         (others : list MPDToHLSConverter.segment),
    MPDToHLSConverter.live_window all_50 = skipn dropped all_50
    /\ MPDToHLSConverter.live_window all_50 = first :: others
    /\ ((0 < dropped)%nat ->
        window_reached (walked (MPDToHLSConverter.live_window all_50)) = true)
    /\ (forall j, (dropped < j < List.length all_50)%nat ->
                  window_reached (walked (skipn j all_50)) = false)
    /\ In (MPDToHLSConverter.max_duration first others)
          (map MPDToHLSConverter.seg_duration (first :: others))
    /\ MPDToHLSConverter.timeline_branch (L := example_lib (example_parser []))
         true "v1" "http://p" "" "http://o/live/" (Some "seg_$Number$.m4s")
         false "" "" 1000 1 timeline_50
         (MPDToHLSConverter.header_lines true)
       = (seg_lines <- map_result
                         (MPDToHLSConverter.timeline_segment_lines
                            (L := example_lib (example_parser []))
                            "v1" "http://p" "" "http://o/live/"
                            (Some "seg_$Number$.m4s") false "" "")
                         (MPDToHLSConverter.live_window all_50) ;;
          Ok ((MPDToHLSConverter.list_insert 2
                 ("#EXT-X-TARGETDURATION:"
                  ++ Py.str_of_int
                       (trunc (MPDToHLSConverter.max_duration first others) + 1))
                 (MPDToHLSConverter.header_lines true)
               +++ ["#EXT-X-MEDIA-SEQUENCE:"
                    ++ Py.str_of_int (MPDToHLSConverter.seg_number first)])
              +++ List.concat seg_lines)).
Proof.
  apply (proj1 live_window_and_media_sequence Q_float
           (example_lib (example_parser []))
           "v1" "http://p" "" "http://o/live/" (Some "seg_$Number$.m4s")
           false "" "" 1000 1 timeline_50
           (MPDToHLSConverter.header_lines true) all_50).
  - reflexivity.
  - discriminate.
Defined.

(** C2 as stated fails on its own example.  A live manifest of 50
    segments of 2 seconds, whose template leaves [startNumber] to its
    default of 1, keeps the last 15 segments, numbered 36 to 50, and says
    [MEDIA-SEQUENCE:36], not 35. *)
Lemma media_sequence_counterexample :
  exists lines,
    MPDToHLSConverter.convert_media_playlist (F := Q_float)
      (L := example_lib (example_parser [(live_50_text, live_50)]))
      live_50_text "v1" "http://p" "http://o/live/manifest.mpd" "" None
    = Py.join nl lines
    /\ MPDToHLSConverter.is_live live_50 = true
    /\ count_lines "#EXTINF:2.000," lines = 15%nat
    /\ count_lines "http://p/segment/" lines = 15%nat
    /\ has_line lines "http://p/segment/seg_36.m4s?base_url=http%3A%2F%2Fo%2Flive%2Fseg_36.m4s" = true
    /\ has_line lines "http://p/segment/seg_50.m4s?base_url=http%3A%2F%2Fo%2Flive%2Fseg_50.m4s" = true
    /\ has_line lines "#EXT-X-TARGETDURATION:3" = true
    /\ has_line lines "#EXT-X-MEDIA-SEQUENCE:36" = true
    /\ has_line lines "#EXT-X-MEDIA-SEQUENCE:35" = false.
Proof.
  exists (match
             MPDToHLSConverter.playlist_lines (F := Q_float)
               (L := example_lib (example_parser [(live_50_text, live_50)]))
               live_50
               (ET.Element (mpd "Representation")
                  [("id", "v1"); ("bandwidth", "2000000")] None None
                  [ET.Element (mpd "SegmentTemplate")
                     [("timescale", "1000"); ("media", "seg_$Number$.m4s")]
                     None None [timeline_50]])
               live_50 "v1" "http://p" "http://o/live/manifest.mpd" "" None
           with
           | Ok lines => lines
           | Raise _ => []
           end).
  do 8 (split; [vm_compute; reflexivity |]). vm_compute. reflexivity.
Qed.

(** ** A live playlist shorter than the window (claim C9) *)

Section ShortPlaylist.
Context {F : PyFloat}.
Import MPDToHLSConverter.







(** *** Sequence numbers *)







End ShortPlaylist.


Definition timeline_5 : ET.element :=
  timeline_of [s_element [("d", "2000"); ("r", "4")]].



(** The same playlist through the whole converter: five segments, all of
    them kept, numbered from the default [startNumber]. *)
Definition live_5_text : string :=
  "<MPD xmlns='urn:mpeg:dash:schema:mpd:2011' type='dynamic'><Period>"
  ++ "<AdaptationSet mimeType='video/mp4'>"
  ++ "<Representation id='v1' bandwidth='2000000'>"
  ++ "<SegmentTemplate timescale='1000' media='seg_$Number$.m4s'>"
  ++ "<SegmentTimeline><S d='2000' r='4'/></SegmentTimeline>"
  ++ "</SegmentTemplate></Representation></AdaptationSet></Period></MPD>".

Definition live_5 : ET.element :=
  example_manifest "dynamic"
    [("timescale", "1000"); ("media", "seg_$Number$.m4s")] [timeline_5].

Example short_live_playlist_example :
  MPDToHLSConverter.convert_media_playlist (F := Q_float)
    (L := example_lib (example_parser [(live_5_text, live_5)]))
    live_5_text "v1" "http://p" "http://o/live/manifest.mpd" "" None
  = Py.join nl
      ["#EXTM3U"; "#EXT-X-VERSION:7"; "#EXT-X-TARGETDURATION:3";
       "#EXT-X-START:TIME-OFFSET=-3.0,PRECISE=YES";
       "#EXT-X-MEDIA-SEQUENCE:1";
       "#EXTINF:2.000,";
       "http://p/segment/seg_1.m4s?base_url=http%3A%2F%2Fo%2Flive%2Fseg_1.m4s";
       "#EXTINF:2.000,";
       "http://p/segment/seg_2.m4s?base_url=http%3A%2F%2Fo%2Flive%2Fseg_2.m4s";
       "#EXTINF:2.000,";
       "http://p/segment/seg_3.m4s?base_url=http%3A%2F%2Fo%2Flive%2Fseg_3.m4s";
       "#EXTINF:2.000,";
       "http://p/segment/seg_4.m4s?base_url=http%3A%2F%2Fo%2Flive%2Fseg_4.m4s";
       "#EXTINF:2.000,";
       "http://p/segment/seg_5.m4s?base_url=http%3A%2F%2Fo%2Flive%2Fseg_5.m4s"].
Proof. vm_compute. reflexivity. Qed.

(** ** The fixed-duration template (claim C10) *)

Section FixedDuration.
Context {F : PyFloat} {L : PyLib}.
Import MPDToHLSConverter.





End FixedDuration.


Definition fixed_template : ET.element :=
  ET.Element (mpd "SegmentTemplate")
    [("timescale", "1000"); ("duration", "4000"); ("media", "seg_$Number$.m4s")]
    None None [].

Definition vod_fixed : ET.element :=
  example_manifest "static"
    [("timescale", "1000"); ("duration", "4000"); ("media", "seg_$Number$.m4s")]
    [].

Definition vod_fixed_text : string :=
  "<MPD xmlns='urn:mpeg:dash:schema:mpd:2011' type='static'>"
  ++ "<Period duration='PT20S'><AdaptationSet mimeType='video/mp4'>"
  ++ "<Representation id='v1' bandwidth='2000000'>"
  ++ "<SegmentTemplate timescale='1000' duration='4000' media='seg_$Number$.m4s'/>"
  ++ "</Representation></AdaptationSet></Period></MPD>".


(** The fallback through the whole converter: a Period that lasts 20
    seconds, segments of 4 seconds, and still 100 of them; no
    [MEDIA-SEQUENCE] line. *)
Example fixed_duration_example :
  exists lines,
    MPDToHLSConverter.convert_media_playlist (F := Q_float)
      (L := example_lib (example_parser [(vod_fixed_text, vod_fixed)]))
      vod_fixed_text "v1" "http://p" "http://o/vod/manifest.mpd" "" None
    = Py.join nl lines
    /\ firstn 6 lines
       = ["#EXTM3U"; "#EXT-X-VERSION:7"; "#EXT-X-TARGETDURATION:10";
          "#EXT-X-PLAYLIST-TYPE:VOD"; "#EXTINF:4.000000,";
          "http://p/segment/seg_1.m4s?base_url=http%3A%2F%2Fo%2Fvod%2Fseg_1.m4s"]
    /\ count_lines "#EXTINF:4.000000," lines = 100%nat
    /\ has_line lines
         "http://p/segment/seg_100.m4s?base_url=http%3A%2F%2Fo%2Fvod%2Fseg_100.m4s"
       = true
    /\ count_lines "#EXT-X-MEDIA-SEQUENCE" lines = 0%nat
    /\ List.length lines = 205%nat.
Proof.
  exists (match
             MPDToHLSConverter.playlist_lines (F := Q_float)
               (L := example_lib (example_parser [(vod_fixed_text, vod_fixed)]))
               vod_fixed
               (ET.Element (mpd "Representation")
                  [("id", "v1"); ("bandwidth", "2000000")] None None
                  [fixed_template])
               vod_fixed "v1" "http://p" "http://o/vod/manifest.mpd" "" None
           with
           | Ok lines => lines
           | Raise _ => []
           end).
  do 5 (split; [vm_compute; reflexivity |]). vm_compute. reflexivity.
Qed.

(** The same template in a manifest without Period: the error playlist. *)
Definition no_period : ET.element :=
  ET.Element (mpd "MPD") [("type", "static")] None None
    [ET.Element (mpd "AdaptationSet") [("mimeType", "video/mp4")] None None
       [ET.Element (mpd "Representation")
          [("id", "v1"); ("bandwidth", "2000000")] None None
          [fixed_template]]].

Definition no_period_text : string :=
  "<MPD xmlns='urn:mpeg:dash:schema:mpd:2011' type='static'>"
  ++ "<AdaptationSet mimeType='video/mp4'>"
  ++ "<Representation id='v1' bandwidth='2000000'>"
  ++ "<SegmentTemplate timescale='1000' duration='4000' media='seg_$Number$.m4s'/>"
  ++ "</Representation></AdaptationSet></MPD>".

Example no_period_example (message : exn -> string) :
  MPDToHLSConverter.convert_media_playlist (F := Q_float)
    (L := {| urljoin := example_urljoin;
             urlparse_query := fun _ => Ok "";
             fromstring := example_parser [(no_period_text, no_period)];
             tostring := fun _ => "";
             exn_text := message |})
    no_period_text "v1" "http://p" "http://o/vod/manifest.mpd" "" None
  = "#EXTM3U" ++ nl ++ "#EXT-X-ERROR: " ++ message AttributeError.
Proof. reflexivity. Qed.

(** ** The end of the playlist (claim C4) *)

(** *** Facts on strings *)

Lemma append_nil_r (s : string) : s ++ "" = s.
Proof. induction s as [| c t IH]; cbn; [reflexivity | rewrite IH; reflexivity]. Qed.

Lemma append_assoc (a b c : string) : (a ++ b) ++ c = a ++ b ++ c.
Proof. induction a as [| x t IH]; cbn; [reflexivity | rewrite IH; reflexivity]. Qed.

Lemma length_append (a b : string) :
  String.length (a ++ b) = (String.length a + String.length b)%nat.
Proof. induction a as [| x t IH]; cbn; [reflexivity | rewrite IH; reflexivity]. Qed.

Lemma prefix_append (a b : string) : String.prefix a (a ++ b) = true.
Proof.
  induction a as [| x t IH]; cbn [String.append].
  - apply prefix_nil.
  - rewrite prefix_cons, Ascii.eqb_refl. exact IH.
Qed.







(** *** No line of a live playlist is the end tag *)

Section EndList.
Context {F : PyFloat} {L : PyLib}.
Import MPDToHLSConverter.




Lemma map_result_Forall {A B : Type} (f : A -> result B) (P : B -> Prop)
  (l : list A) (out : list B) :
  (forall x y, f x = Ok y -> P y) ->
  map_result f l = Ok out -> Forall P out.
Proof.
  intros Hf H. apply map_result_Forall2 in H.
  induction H as [| x y r ys Hx _ IH]; constructor; eauto.
Qed.

Lemma Forall_list_insert {A : Type} (P : A -> Prop) (i : nat) (x : A)
  (l : list A) :
  P x -> Forall P l -> Forall P (list_insert i x l).
Proof.
  intros Hx Hl. rewrite <- (firstn_skipn i l) in Hl.
  apply Forall_app in Hl as [H1 H2].
  unfold list_insert. apply Forall_app. split; [exact H1 |].
  constructor; assumption.
Qed.







End EndList.






(** ** The namespace guard (claims C8 and C3) *)

Module NamespaceSpec.

(** XML white space. *)
Definition xml_space (c : ascii) : bool :=
  (Ascii.eqb c " " || Ascii.eqb c "009" || Ascii.eqb c "010"
   || Ascii.eqb c "013")%bool.

Fixpoint skip_spaces (s : string) : string :=
  match s with
  | String c t => if xml_space c then skip_spaces t else s
  | EmptyString => s
  end.

(** The words of the specification: the text declares a default
    namespace, that is, it holds an attribute whose name is [xmlns]
    itself -- not [xmlns:prefix]. *)
Fixpoint declares_default_namespace (text : string) : bool :=
  match text with
  | EmptyString => false
  | String c t =>
      (xml_space c && String.prefix "xmlns" t
       && String.prefix "=" (skip_spaces (Py.drop 5 t)))
      || declares_default_namespace t
  end.

End NamespaceSpec.

Lemma contains_here (sub s : string) :
  String.prefix sub s = true -> Py.contains sub s = true.
Proof.
  intros H. destruct s; cbn [Py.contains]; rewrite H; reflexivity.
Qed.

Lemma contains_later (sub : string) (c : ascii) (s : string) :
  Py.contains sub s = true -> Py.contains sub (String c s) = true.
Proof.
  intros H. cbn [Py.contains]. rewrite H. apply orb_true_r.
Qed.

(** A text that declares a default namespace is parsed as it is. *)
Lemma declared_namespace_is_kept (text : string) :
  NamespaceSpec.declares_default_namespace text = true ->
  add_default_namespace text = text.
Proof.
  intros H. unfold add_default_namespace.
  enough (Py.contains "xmlns" text = true) as -> by reflexivity.
  induction text as [| c t IH]; [discriminate |].
  cbn [NamespaceSpec.declares_default_namespace] in H.
  apply contains_later. apply orb_true_iff in H as [H | H]; [| exact (IH H)].
  apply andb_true_iff in H as [H _]. apply andb_true_iff in H as [_ H].
  apply contains_here, H.
Qed.

(** A manifest whose only namespace declaration has a prefix, in a tree
    whose elements are therefore in no namespace. *)
Definition prefixed_only_text : string :=
  "<MPD xmlns:cenc='urn:mpeg:cenc:2013' type='static'><Period>"
  ++ "<AdaptationSet mimeType='video/mp4'>"
  ++ "<Representation id='v1' bandwidth='2000000'>"
  ++ "<SegmentTemplate timescale='1000' duration='4000' media='seg_$Number$.m4s'/>"
  ++ "</Representation></AdaptationSet></Period></MPD>".

Definition prefixed_only : ET.element :=
  ET.Element "MPD" [("type", "static")] None None
    [ET.Element "Period" [] None None
       [ET.Element "AdaptationSet" [("mimeType", "video/mp4")] None None
          [ET.Element "Representation"
             [("id", "v1"); ("bandwidth", "2000000")] None None
             [ET.Element "SegmentTemplate"
                [("timescale", "1000"); ("duration", "4000");
                 ("media", "seg_$Number$.m4s")] None None []]]]].

(** C8 at its failing input.  The text declares no default namespace,
    yet the guard, which looks for the letters [xmlns] anywhere, injects
    nothing; the tree is then in no namespace, the rewriter finds none of
    its SegmentTemplate elements and leaves the [media] reference as it
    was, and the converter finds no Representation. *)
Lemma namespace_guard_misses_prefixed_declaration :
  NamespaceSpec.declares_default_namespace prefixed_only_text = false
  /\ add_default_namespace prefixed_only_text = prefixed_only_text
  /\ ManifestRewriter.rewrite_root
       (L := example_lib (example_parser [(prefixed_only_text, prefixed_only)]))
       prefixed_only "http://o/vod/" "http://p" [] None None
     = Ok prefixed_only
  /\ MPDToHLSConverter.convert_media_playlist (F := Q_float)
       (L := example_lib (example_parser [(prefixed_only_text, prefixed_only)]))
       prefixed_only_text "v1" "http://p" "http://o/vod/manifest.mpd" "" None
     = MPDToHLSConverter.representation_not_found.
Proof.
  do 3 (split; [vm_compute; reflexivity |]). vm_compute. reflexivity.
Qed.

(** The same manifest without any declaration gets the namespace. *)
Example namespace_injection_example :
  add_default_namespace "<MPD type='static'><Period/></MPD>"
  = "<MPD xmlns=" ++ dquote ++ "urn:mpeg:dash:schema:mpd:2011" ++ dquote
    ++ " type='static'><Period/></MPD>".
Proof. reflexivity. Qed.

(** What [rewrite_mpd_manifest] returns: the serialized tree, or, when
    the parse or a later step raises, the text as it stands after the
    namespace guard. *)
Lemma rewrite_mpd_manifest_cases {L : PyLib}
  (manifest_content base_url proxy_base : string)
  (stream_headers : ManifestRewriter.headers)
  (clearkey_param api_password : option string) :
  (exists root root',
      fromstring (add_default_namespace manifest_content) = Ok root
      /\ ManifestRewriter.rewrite_root root base_url proxy_base stream_headers
           clearkey_param api_password = Ok root'
      /\ ManifestRewriter.rewrite_mpd_manifest manifest_content base_url
           proxy_base stream_headers clearkey_param api_password
         = tostring root')
  \/ ((forall root,
          fromstring (add_default_namespace manifest_content) = Ok root ->
          exists e,
            ManifestRewriter.rewrite_root root base_url proxy_base
              stream_headers clearkey_param api_password = Raise e)
      /\ ManifestRewriter.rewrite_mpd_manifest manifest_content base_url
           proxy_base stream_headers clearkey_param api_password
         = add_default_namespace manifest_content).
Proof.
  unfold ManifestRewriter.rewrite_mpd_manifest.
  destruct (fromstring (add_default_namespace manifest_content))
    as [root | e] eqn:Hparse; cbn [bind].
  - destruct (ManifestRewriter.rewrite_root root base_url proxy_base
                stream_headers clearkey_param api_password)
      as [root' | e] eqn:Hrewrite; cbn [bind].
    + left. exists root, root'. repeat split; assumption || reflexivity.
    + right. split; [| reflexivity].
      intros root0 H. injection H as <-. eauto.
  - right. split; [| reflexivity]. intros root0 H. discriminate.
Qed.

(** C3 at its failing input.  A malformed manifest without the letters
    [xmlns]: the parse fails on the text the guard has already changed,
    and it is that text, not the original, that comes back. *)
Lemma rewrite_mpd_returns_the_injected_text :
  ManifestRewriter.rewrite_mpd_manifest
    (L := example_lib (example_parser []))
    "<MPD><Period>" "http://o/vod/" "http://p" [] None None
  = "<MPD xmlns=" ++ dquote ++ "urn:mpeg:dash:schema:mpd:2011" ++ dquote
    ++ "><Period>"
  /\ ManifestRewriter.rewrite_mpd_manifest
       (L := example_lib (example_parser []))
       "<MPD><Period>" "http://o/vod/" "http://p" [] None None
     <> "<MPD><Period>".
Proof.
  split; [reflexivity |]. vm_compute. discriminate.
Qed.

(** ** HLS key lines (claim C5) *)

(** *** Slices and searches *)

Lemma take_append_le (n : nat) (a b : string) :
  (n <= String.length a)%nat -> Py.take n (a ++ b) = Py.take n a.
Proof.
  revert a. induction n as [| n IH]; intros a Hn.
  - destruct a; reflexivity.
  - destruct a as [| c t]; cbn in Hn; [lia |].
    cbn [String.append Py.take]. rewrite IH by lia. reflexivity.
Qed.

Lemma take_take (m n : nat) (s : string) :
  (m <= n)%nat -> Py.take m (Py.take n s) = Py.take m s.
Proof.
  revert n s. induction m as [| m IH]; intros n s Hmn.
  - destruct (Py.take n s); destruct s; reflexivity.
  - destruct n as [| n]; [lia |]. destruct s as [| c t]; [reflexivity |].
    cbn [Py.take]. rewrite IH by lia. reflexivity.
Qed.

Lemma take_all (s : string) : Py.take (String.length s) s = s.
Proof.
  induction s as [| c t IH]; cbn; [reflexivity | rewrite IH; reflexivity].
Qed.

Lemma take_length_append (a b : string) :
  Py.take (String.length a) (a ++ b) = a.
Proof.
  rewrite take_append_le by lia. apply take_all.
Qed.

Lemma drop_length_append (a b : string) :
  Py.drop (String.length a) (a ++ b) = b.
Proof.
  induction a as [| c t IH]; cbn; [destruct b; reflexivity | exact IH].
Qed.

Lemma take_middle (a b r : string) (m n : nat) :
  (m <= n)%nat -> (n <= String.length b)%nat ->
  Py.take m (a ++ b ++ r) = Py.take m (a ++ Py.take n b).
Proof.
  revert m. induction a as [| c t IH]; intros m Hmn Hn.
  - cbn [String.append].
    rewrite take_append_le by lia. rewrite take_take by lia. reflexivity.
  - destruct m as [| m]; [reflexivity |].
    cbn [String.append Py.take]. rewrite IH by lia. reflexivity.
Qed.

Lemma prefix_take (p s : string) :
  String.prefix p s = String.prefix p (Py.take (String.length p) s).
Proof.
  revert s. induction p as [| c t IH]; intros s.
  - rewrite !prefix_nil. reflexivity.
  - destruct s as [| d u]; [reflexivity |].
    cbn [String.length Py.take]. rewrite !prefix_cons, <- IH. reflexivity.
Qed.

Lemma prefix_app_l (p a b : string) :
  String.prefix p a = true -> String.prefix p (a ++ b) = true.
Proof.
  revert a. induction p as [| c t IH]; intros a H.
  - apply prefix_nil.
  - destruct a as [| d u]; [discriminate |].
    cbn [String.append]. rewrite prefix_cons in *.
    apply andb_true_iff in H as [-> H]. cbn. apply IH, H.
Qed.

Lemma contains_middle (x a b : string) : Py.contains x (a ++ x ++ b) = true.
Proof.
  induction a as [| c t IH]; cbn [String.append].
  - apply contains_here, prefix_append.
  - apply contains_later, IH.
Qed.

Lemma index_here (pat s : string) :
  String.prefix pat s = true -> String.index 0 pat s = Some 0%nat.
Proof.
  intros H. destruct s as [| c t]; cbn [String.index].
  - destruct pat; [reflexivity | discriminate].
  - rewrite H. reflexivity.
Qed.

(** The first occurrence of [pat] in [pre ++ pat ++ rest] is at the end
    of [pre] when no occurrence starts earlier. *)
Lemma index_first (pat pre rest : string) :
  Py.contains pat (pre ++ Py.take (String.length pat - 1) pat) = false ->
  String.index 0 pat (pre ++ pat ++ rest) = Some (String.length pre).
Proof.
  induction pre as [| c t IH]; intros H.
  - cbn [String.append String.length]. apply index_here, prefix_append.
  - cbn [String.append Py.contains] in H.
    apply orb_false_iff in H as [Hhere Hlater].
    cbn [String.append String.index String.length].
    replace (String.prefix pat (String c (t ++ pat ++ rest))) with false.
    + rewrite (IH Hlater). reflexivity.
    + rewrite <- Hhere, (prefix_take pat (String c (t ++ pat ++ rest))).
      rewrite (prefix_take pat (String c (t ++ _))).
      destruct (String.length pat) as [| m] eqn:Hlen; [reflexivity |].
      cbn [Py.take]. f_equal. f_equal.
      replace (S m - 1)%nat with m by lia.
      symmetry. apply take_middle; lia.
Qed.

Lemma index_after (pat a b : string) :
  String.index (String.length a) pat (a ++ b)
  = option_map (fun m => (String.length a + m)%nat) (String.index 0 pat b).
Proof.
  induction a as [| c t IH]; cbn [String.append String.length String.index].
  - destruct (String.index 0 pat b); reflexivity.
  - rewrite IH. destruct (String.index 0 pat b); reflexivity.
Qed.

(** *** The rewriting of a tag that holds a URI *)

Section KeyLines.
Context {L : PyLib}.
Import ManifestRewriter.

(** The five characters the code searches for. *)
Definition uri_open : string := "URI=" ++ dquote.

(** In a line [pre URI=<quote> u <quote> post] whose first [URI=<quote>]
    is the one shown, with a non-empty [u], it is [u] that [f] is given
    and its result that takes the place of [u]. *)
Lemma rewrite_uri_spec (pre u post : string) (f : string -> result string) :
  Py.contains uri_open (pre ++ "URI=") = false ->
  u <> "" ->
  Py.contains dquote u = false ->
  rewrite_uri (pre ++ uri_open ++ u ++ dquote ++ post) f
  = (new_url <- f u ;; Ok (pre ++ uri_open ++ new_url ++ dquote ++ post)).
Proof.
  intros Hfirst Hu Hquote. unfold rewrite_uri. fold uri_open.
  assert (Hstart : Py.find (pre ++ uri_open ++ u ++ dquote ++ post) uri_open 0
                   = Z.of_nat (String.length pre)).
  { unfold Py.find. change (Z.to_nat 0) with 0%nat.
    rewrite index_first; [reflexivity | exact Hfirst]. }
  rewrite Hstart.
  assert (Hlen : Z.to_nat (Z.of_nat (String.length pre) + 5)
                 = String.length (pre ++ uri_open)).
  { rewrite length_append. change (String.length uri_open) with 5%nat. lia. }
  assert (Hend : Py.find (pre ++ uri_open ++ u ++ dquote ++ post) dquote
                   (Z.of_nat (String.length pre) + 5)
                 = Z.of_nat (String.length pre) + 5
                   + Z.of_nat (String.length u)).
  { unfold Py.find. rewrite Hlen, <- (append_assoc pre uri_open), index_after.
    rewrite index_first.
    - cbn [option_map]. rewrite length_append.
      change (String.length uri_open) with 5%nat. lia.
    - cbn [String.length Nat.sub Py.take dquote].
      change (Py.take 0 (String "034" "")) with "".
      rewrite append_nil_r. exact Hquote. }
  rewrite Hend.
  assert (Hpos : (0 < String.length u)%nat).
  { destruct u; [congruence | cbn; lia]. }
  replace (4 <? Z.of_nat (String.length pre) + 5) with true
    by (symmetry; apply Z.ltb_lt; lia).
  replace (Z.of_nat (String.length pre) + 5
           <? Z.of_nat (String.length pre) + 5 + Z.of_nat (String.length u))
    with true by (symmetry; apply Z.ltb_lt; lia).
  cbn [andb].
  assert (Hslice : Py.slice (pre ++ uri_open ++ u ++ dquote ++ post)
                     (Z.of_nat (String.length pre) + 5)
                     (Z.of_nat (String.length pre) + 5
                      + Z.of_nat (String.length u)) = u).
  { unfold Py.slice. rewrite Hlen.
    replace (Z.to_nat (Z.of_nat (String.length pre) + 5
                       + Z.of_nat (String.length u)
                       - (Z.of_nat (String.length pre) + 5)))
      with (String.length u) by lia.
    rewrite <- (append_assoc pre uri_open), drop_length_append.
    apply take_length_append. }
  assert (Hto : Py.slice_to (pre ++ uri_open ++ u ++ dquote ++ post)
                  (Z.of_nat (String.length pre) + 5) = pre ++ uri_open).
  { unfold Py.slice_to. rewrite Hlen, <- (append_assoc pre uri_open).
    apply take_length_append. }
  assert (Hfrom : Py.slice_from (pre ++ uri_open ++ u ++ dquote ++ post)
                    (Z.of_nat (String.length pre) + 5
                     + Z.of_nat (String.length u)) = dquote ++ post).
  { unfold Py.slice_from.
    replace (Z.to_nat (Z.of_nat (String.length pre) + 5
                       + Z.of_nat (String.length u)))
      with (String.length ((pre ++ uri_open) ++ u))
      by (rewrite !length_append; change (String.length uri_open) with 5%nat;
          lia).
    rewrite <- (append_assoc pre uri_open), <- (append_assoc (pre ++ uri_open)).
    apply drop_length_append. }
  rewrite Hslice, Hto, Hfrom.
  destruct (f u) as [new_url |]; cbn [bind]; [| reflexivity].
  rewrite !append_assoc. reflexivity.
Qed.

End KeyLines.





(** ** HLS playlists line by line (claim C7) *)

Section PassThrough.
Context {L : PyLib}.
Import ManifestRewriter.





End PassThrough.





(** ** ClearKey injection, run twice (claim C6) *)

(** *** Trees *)

Section ElementInduction.
Variable P : ET.element -> Prop.
Hypothesis step :
  forall t a x tl cs, Forall P cs -> P (ET.Element t a x tl cs).

Fixpoint element_induction (e : ET.element) : P e :=
  match e with
  | ET.Element t a x tl cs =>
      step t a x tl cs
        ((fix all (l : list ET.element) : Forall P l :=
            match l with
            | [] => Forall_nil P
            | c :: r => Forall_cons c (element_induction c) (all r)
            end) cs)
  end.
End ElementInduction.

(** [P] holds of every element below [e]. *)
Fixpoint all_below (P : ET.element -> Prop) (e : ET.element) : Prop :=
  match e with
  | ET.Element _ _ _ _ cs =>
      (fix all (l : list ET.element) : Prop :=
         match l with
         | [] => True
         | c :: r => (P c /\ all_below P c) /\ all r
         end) cs
  end.

Lemma all_below_children (P : ET.element -> Prop) (e : ET.element) :
  all_below P e <-> Forall (fun c => P c /\ all_below P c) (ET.children e).
Proof.
  destruct e as [t a x tl cs]. cbn [all_below ET.children].
  induction cs as [| c r IH].
  - split; [constructor | trivial].
  - split.
    + intros [Hc Hr]. constructor; [exact Hc | apply IH, Hr].
    + intros H. inversion H as [| ? ? Hc Hr]; subst.
      split; [exact Hc | apply IH, Hr].
Qed.

Lemma descendants_children (e : ET.element) :
  ET.descendants e
  = flat_map (fun c => c :: ET.descendants c) (ET.children e).
Proof.
  destruct e as [t a x tl cs]. cbn [ET.descendants ET.children].
  induction cs as [| c r IH]; [reflexivity |].
  cbn [flat_map app]. rewrite <- IH. reflexivity.
Qed.

Lemma all_below_descendants (P : ET.element -> Prop) (e : ET.element) :
  all_below P e <-> Forall P (ET.descendants e).
Proof.
  induction e as [t a x tl cs IH] using element_induction.
  rewrite all_below_children, descendants_children. cbn [ET.children].
  induction IH as [| c r Hc _ IHr]; cbn [flat_map].
  - split; constructor.
  - rewrite Forall_cons_iff, Forall_app, Forall_cons_iff, Hc, IHr. tauto.
Qed.

(** What the properties below look at in an element: its tag and its
    [schemeIdUri]. *)
Definition scheme (e : ET.element) : option string := ET.get e "schemeIdUri".

(** [d'] is [d] with its tag renamed by [q]. *)
Definition same_sig (q : string -> string) (d d' : ET.element) : Prop :=
  ET.tag d' = q (ET.tag d) /\ scheme d' = scheme d.

(** [x'] is [x], and its children are those of [x], up to [q]. *)
Definition alike (q : string -> string) (x x' : ET.element) : Prop :=
  same_sig q x x' /\ Forall2 (same_sig q) (ET.children x) (ET.children x').

(** [e'] has the shape of [e]: the same elements at the same places, with
    tags renamed by [q] and the same [schemeIdUri]; other attributes and
    the texts are free. *)
Fixpoint shape (q : string -> string) (e e' : ET.element) : Prop :=
  match e, e' with
  | ET.Element t a _ _ cs, ET.Element t' a' _ _ cs' =>
      t' = q t
      /\ ET.lookup "schemeIdUri" a' = ET.lookup "schemeIdUri" a
      /\ (fix all (l l' : list ET.element) : Prop :=
            match l, l' with
            | [], [] => True
            | c :: r, c' :: r' => shape q c c' /\ all r r'
            | _, _ => False
            end) cs cs'
  end.

Lemma shape_unfold (q : string -> string) (e e' : ET.element) :
  shape q e e'
  <-> same_sig q e e' /\ Forall2 (shape q) (ET.children e) (ET.children e').
Proof.
  destruct e as [t a x tl cs], e' as [t' a' x' tl' cs'].
  unfold same_sig, scheme, ET.get. cbn [shape ET.tag ET.attrib ET.children].
  enough ((fix all (l l' : list ET.element) : Prop :=
             match l, l' with
             | [], [] => True
             | c :: r, c' :: r' => shape q c c' /\ all r r'
             | _, _ => False
             end) cs cs' <-> Forall2 (shape q) cs cs') as -> by tauto.
  revert cs'. induction cs as [| c r IH]; intros [| c' r'].
  - split; [constructor | trivial].
  - split; [contradiction | intros H; inversion H].
  - split; [contradiction | intros H; inversion H].
  - rewrite IH. split.
    + intros [Hc Hr]. constructor; assumption.
    + intros H. inversion H; subst. split; assumption.
Qed.

Lemma shape_alike (q : string -> string) (e e' : ET.element) :
  shape q e e' -> alike q e e'.
Proof.
  intros H. apply shape_unfold in H as [Hsig Hcs]. split; [exact Hsig |].
  eapply Forall2_impl; [| exact Hcs].
  intros c c' Hc. apply shape_unfold in Hc. tauto.
Qed.

Lemma shape_refl (e : ET.element) : shape (fun t => t) e e.
Proof.
  induction e as [t a x tl cs IH] using element_induction.
  apply shape_unfold. split; [split; reflexivity |]. cbn [ET.children].
  induction IH; constructor; assumption.
Qed.

Lemma shape_trans (q : string -> string) (e1 e2 e3 : ET.element) :
  shape (fun t => t) e1 e2 -> shape q e2 e3 -> shape q e1 e3.
Proof.
  revert e2 e3.
  induction e1 as [t a x tl cs IH] using element_induction.
  intros e2 e3 H12 H23.
  apply shape_unfold in H12 as [[Ht12 Hs12] Hc12].
  apply shape_unfold in H23 as [[Ht23 Hs23] Hc23].
  apply shape_unfold. split.
  - split; [rewrite Ht23, Ht12; reflexivity | rewrite Hs23, Hs12; reflexivity].
  - cbn [ET.children] in *.
    revert Hc23. generalize (ET.children e3) as cs3.
    induction Hc12 as [| c1 c2 r1 r2 Hc _ IHr]; intros cs3 Hc23.
    + inversion Hc23. constructor.
    + inversion Hc23 as [| ? c3 ? r3 Hc3 Hr3]; subst.
      inversion IH as [| ? ? IHc IHrest]; subst.
      constructor; [eapply IHc; eassumption | apply IHr; assumption].
Qed.

(** A property that elements alike hand over goes from a tree to a tree
    of its shape. *)
Lemma shape_all_below (q : string -> string) (P P' : ET.element -> Prop) :
  (forall x x', alike q x x' -> P x -> P' x') ->
  forall e e', shape q e e' -> all_below P e -> all_below P' e'.
Proof.
  intros Hlocal e.
  induction e as [t a x tl cs IH] using element_induction.
  intros e' Hshape Hall.
  apply shape_unfold in Hshape as [_ Hcs].
  apply all_below_children in Hall. apply all_below_children.
  cbn [ET.children] in *.
  induction Hcs as [| c c' r r' Hc _ IHr]; [constructor |].
  inversion IH as [| ? ? IHc IHrest]; subst.
  inversion Hall as [| ? ? [HPc Hbelow] Hrest]; subst.
  constructor; [| apply IHr; assumption].
  split; [| eapply IHc; eassumption].
  eapply Hlocal; [apply shape_alike, Hc | exact HPc].
Qed.

(** *** The passes that leave the shape alone *)

Section Passes.
Context {L : PyLib}.
Import ManifestRewriter.

Local Abbreviation same := (fun t : string => t).

(** [x'] is [x] with attributes other than [schemeIdUri], or its text,
    changed. *)
Definition retouched (x x' : ET.element) : Prop :=
  same_sig same x x' /\ ET.children x' = ET.children x.

Lemma retouched_refl (x : ET.element) : retouched x x.
Proof. repeat split. Qed.

Lemma retouched_shape (x x' : ET.element) : retouched x x' -> shape same x x'.
Proof.
  intros [Hsig Hcs]. apply shape_unfold. split; [exact Hsig |].
  rewrite Hcs. generalize (ET.children x) as cs.
  induction cs; constructor; [apply shape_refl | assumption].
Qed.

Lemma Forall2_map_r {A B : Type} (R : A -> B -> Prop) (f : A -> B)
  (l : list A) :
  (forall x, R x (f x)) -> Forall2 R l (map f l).
Proof.
  intros H. induction l; constructor; auto.
Qed.

(** A pure pass whose function retouches an element and its children has
    the shape of its input. *)
Lemma update_descendants_shape (f : ET.element -> ET.element) :
  (forall x, same_sig same x (f x)
             /\ Forall2 retouched (ET.children x) (ET.children (f x))) ->
  forall e, shape same e (update_descendants f e).
Proof.
  intros Hf e.
  induction e as [t a x tl cs IH] using element_induction.
  cbn [update_descendants]. apply shape_unfold.
  split; [split; reflexivity |]. cbn [ET.children].
  induction IH as [| c r Hc _ IHr]; cbn [map]; constructor; [| exact IHr].
  eapply shape_trans; [exact Hc |].
  destruct (Hf (update_descendants f c)) as [Hsig Hcs].
  apply shape_unfold. split; [exact Hsig |].
  eapply Forall2_impl; [| exact Hcs].
  intros d d'. apply retouched_shape.
Qed.

Lemma try_update_descendants_shape (f : ET.element -> result ET.element) :
  (forall x x', f x = Ok x' -> retouched x x') ->
  forall e e', try_update_descendants f e = Ok e' -> shape same e e'.
Proof.
  intros Hf e.
  induction e as [t a x tl cs IH] using element_induction.
  intros e' H. cbn [try_update_descendants] in H.
  apply bind_ok in H as (cs' & Hcs & H). injection H as <-.
  apply shape_unfold. split; [split; reflexivity |]. cbn [ET.children].
  apply map_result_Forall2 in Hcs.
  induction Hcs as [| c c' r r' Hc _ IHr]; [constructor |].
  inversion IH as [| ? ? IHc IHrest]; subst.
  constructor; [| apply IHr; assumption].
  apply bind_ok in Hc as (c1 & Hc1 & Hc).
  eapply shape_trans; [apply IHc; exact Hc1 |].
  apply retouched_shape, Hf, Hc.
Qed.

Lemma lookup_dict_set_other (k k' v : string) (d : list (string * string)) :
  k <> k' -> ET.lookup k (ET.dict_set k' v d) = ET.lookup k d.
Proof.
  intros Hne. induction d as [| [k0 v0] r IH]; cbn [ET.dict_set ET.lookup].
  - destruct (String.eqb_spec k k'); [contradiction | reflexivity].
  - destruct (String.eqb_spec k' k0) as [-> | Hk0]; cbn [ET.lookup].
    + destruct (String.eqb_spec k k0); [contradiction | reflexivity].
    + rewrite IH. reflexivity.
Qed.

Lemma retouched_set (x : ET.element) (k v : string) :
  "schemeIdUri" <> k -> retouched x (ET.set x k v).
Proof.
  intros Hk. destruct x as [t a tx tl cs]. repeat split.
  unfold scheme, ET.get. cbn [ET.set ET.attrib].
  apply lookup_dict_set_other, Hk.
Qed.

Lemma retouched_set_text (x : ET.element) (v : option string) :
  retouched x (ET.set_text x v).
Proof. destruct x. repeat split. Qed.

Lemma retouched_trans (x y z : ET.element) :
  retouched x y -> retouched y z -> retouched x z.
Proof.
  intros [[Ht1 Hs1] Hc1] [[Ht2 Hs2] Hc2]. repeat split; congruence.
Qed.

Lemma rewrite_attr_retouched (base_url proxy_base header_params attr : string)
  (x x' : ET.element) :
  "schemeIdUri" <> attr ->
  rewrite_attr base_url proxy_base header_params attr x = Ok x' ->
  retouched x x'.
Proof.
  unfold rewrite_attr. intros Hk H.
  destruct (ET.get x attr) as [[| c v] |];
    try (injection H as <-; apply retouched_refl).
  apply bind_ok in H as (u & _ & H). injection H as <-.
  apply retouched_set, Hk.
Qed.

Lemma try_on_tag_retouched (t : string) (h : ET.element -> result ET.element) :
  (forall x x', h x = Ok x' -> retouched x x') ->
  forall x x', try_on_tag t h x = Ok x' -> retouched x x'.
Proof.
  unfold try_on_tag. intros Hh x x' H.
  destruct (ET.has_tag t x); [apply Hh, H |].
  injection H as <-. apply retouched_refl.
Qed.

Lemma rewrite_licenses_shape (proxy_base header_params : string)
  (root : ET.element) :
  shape same root (rewrite_licenses proxy_base header_params root).
Proof.
  unfold rewrite_licenses. apply update_descendants_shape.
  intros x. unfold on_tag. destruct (ET.has_tag (mpd "ContentProtection") x).
  - destruct x as [t a tx tl cs]. split; [split; reflexivity |].
    cbn [ET.set_children ET.children]. apply Forall2_map_r.
    intros d. unfold rewrite_license_child.
    destruct (ET.text d) as [[| c v] |]; try apply retouched_refl.
    destruct (Py.contains "Laurl" (ET.tag d));
      [apply retouched_set_text | apply retouched_refl].
  - split; [split; reflexivity |].
    generalize (ET.children x) as cs.
    induction cs; constructor; [apply retouched_refl | assumption].
Qed.

(** The passes of [rewrite_root] after the injection. *)
Definition url_passes (base_url proxy_base header_params : string)
  (root : ET.element) : result ET.element :=
  root <- try_update_descendants
            (try_on_tag (mpd "SegmentTemplate")
               (rewrite_segment_template base_url proxy_base header_params))
            root ;;
  root <- try_update_descendants
            (try_on_tag (mpd "SegmentURL")
               (rewrite_attr base_url proxy_base header_params "media"))
            root ;;
  try_update_descendants
    (try_on_tag (mpd "BaseURL")
       (rewrite_base_url_tag base_url proxy_base header_params))
    root.

Lemma url_passes_shape (base_url proxy_base header_params : string)
  (root root' : ET.element) :
  url_passes base_url proxy_base header_params root = Ok root' ->
  shape same root root'.
Proof.
  unfold url_passes. intros H.
  apply bind_ok in H as (r1 & H1 & H).
  apply bind_ok in H as (r2 & H2 & H3).
  apply try_update_descendants_shape in H1, H2, H3.
  - eapply shape_trans; [exact H1 |]. eapply shape_trans; eassumption.
  - apply try_on_tag_retouched. intros x x' Hx.
    unfold rewrite_base_url_tag in Hx.
    destruct (ET.text x) as [[| c v] |];
      try (injection Hx as <-; apply retouched_refl).
    apply bind_ok in Hx as (u & _ & Hx). injection Hx as <-.
    apply retouched_set_text.
  - apply try_on_tag_retouched. intros x x'.
    apply rewrite_attr_retouched. discriminate.
  - apply try_on_tag_retouched. intros x x' Hx.
    unfold rewrite_segment_template in Hx.
    apply bind_ok in Hx as (x1 & Hx1 & Hx2).
    apply rewrite_attr_retouched in Hx1, Hx2; try discriminate.
    eapply retouched_trans; eassumption.
Qed.

(** [rewrite_root] is the injection, then passes that keep the shape. *)
Lemma rewrite_root_shape (root root' : ET.element)
  (base_url proxy_base : string) (stream_headers : headers)
  (clearkey_param api_password : option string) :
  rewrite_root root base_url proxy_base stream_headers clearkey_param
    api_password = Ok root' ->
  shape same (inject_clearkey proxy_base clearkey_param api_password root)
    root'.
Proof.
  unfold rewrite_root. intros H.
  fold (url_passes base_url proxy_base
          (header_params stream_headers api_password)
          (rewrite_licenses proxy_base
             (header_params stream_headers api_password)
             (inject_clearkey proxy_base clearkey_param api_password root)))
    in H.
  apply url_passes_shape in H.
  eapply shape_trans; [apply rewrite_licenses_shape | exact H].
Qed.

End Passes.

(** *** Counting ClearKey entries *)

Section Entries.
Import ManifestRewriter.

Local Abbreviation same := (fun t : string => t).

(** A child that the second loop of the injection recognises: a
    ContentProtection of the DASH namespace with the ClearKey scheme. *)
Definition is_entry (c : ET.element) : bool :=
  (is_content_protection c && is_clearkey_entry c)%bool.

(** A child like the element the injection inserts: a ContentProtection
    in no namespace with the ClearKey scheme. *)
Definition is_bare_entry (c : ET.element) : bool :=
  (ET.has_tag "ContentProtection" c && is_clearkey_entry c)%bool.

Definition entries (x : ET.element) : nat :=
  List.length (filter is_entry (ET.children x)).

Definition bare_entries (x : ET.element) : nat :=
  List.length (filter is_bare_entry (ET.children x)).

Definition is_adaptation_set (x : ET.element) : bool :=
  ET.has_tag (mpd "AdaptationSet") x.



Lemma append_inj_l (a s t : string) : a ++ s = a ++ t -> s = t.
Proof.
  induction a as [| c r IH]; cbn; intros H; [exact H |].
  injection H as H. exact (IH H).
Qed.




Lemma is_entry_sig (d d' : ET.element) :
  same_sig same d d' ->
  is_entry d' = is_entry d /\ is_bare_entry d' = is_bare_entry d.
Proof.
  intros [Ht Hs].
  unfold is_entry, is_bare_entry, is_content_protection, is_clearkey_entry,
    ET.has_tag.
  fold (scheme d) (scheme d'). rewrite Hs, Ht. split; reflexivity.
Qed.

Lemma entries_alike (x x' : ET.element) :
  alike same x x' ->
  entries x' = entries x /\ bare_entries x' = bare_entries x
  /\ is_adaptation_set x' = is_adaptation_set x.
Proof.
  intros [[Ht _] Hcs]. unfold entries, bare_entries, is_adaptation_set, ET.has_tag.
  rewrite Ht. split; [| split; [| reflexivity]].
  - induction Hcs as [| d d' r r' Hd _ IH]; [reflexivity |].
    cbn [filter]. destruct (is_entry_sig d d' Hd) as [-> _].
    destruct (is_entry d); cbn [List.length]; rewrite IH; reflexivity.
  - induction Hcs as [| d d' r r' Hd _ IH]; [reflexivity |].
    cbn [filter]. destruct (is_entry_sig d d' Hd) as [_ ->].
    destruct (is_bare_entry d); cbn [List.length]; rewrite IH; reflexivity.
Qed.





End Entries.

(** *** The injection, on a whole tree *)

Section Injection.
Import ManifestRewriter.

Local Abbreviation same := (fun t : string => t).

Lemma update_descendants_alike (f : ET.element -> ET.element)
  (e : ET.element) :
  (forall x, same_sig same x (f x)) ->
  alike same e (update_descendants f e).
Proof.
  intros Hf. destruct e as [t a x tl cs]. cbn [update_descendants].
  split; [split; reflexivity |]. cbn [ET.children].
  apply Forall2_map_r. intros c.
  destruct (Hf (update_descendants f c)) as [Ht Hs].
  destruct c as [t' a' x' tl' cs']. cbn [update_descendants] in *.
  split; [exact Ht | exact Hs].
Qed.

(** A pass whose function keeps tags and schemes: what holds of the
    elements below the result follows from what held below the input,
    element by element. *)
Lemma update_descendants_all_below (f : ET.element -> ET.element)
  (P0 P1 : ET.element -> Prop) :
  (forall x, same_sig same x (f x)) ->
  (forall c x, P0 c -> alike same c x -> all_below P1 x ->
               P1 (f x) /\ all_below P1 (f x)) ->
  forall e, all_below P0 e -> all_below P1 (update_descendants f e).
Proof.
  intros Hsig Hstep e.
  induction e as [t a x tl cs IH] using element_induction.
  intros Hall. apply all_below_children in Hall.
  apply all_below_children. cbn [update_descendants ET.children] in *.
  induction IH as [| c r IHc _ IHr]; cbn [map]; [constructor |].
  inversion Hall as [| ? ? [HPc Hbelow] Hrest]; subst.
  constructor; [| apply IHr, Hrest].
  apply (Hstep c); [exact HPc | | apply IHc, Hbelow].
  apply update_descendants_alike, Hsig.
Qed.

Lemma on_tag_sig (t : string) (cp x : ET.element) :
  same_sig same x (on_tag t (inject_adaptation_set cp) x).
Proof.
  unfold on_tag. destruct (ET.has_tag t x); [| split; reflexivity].
  destruct x. split; reflexivity.
Qed.

Variable ok : nat -> Prop.
Hypothesis ok_one : ok 1%nat.





Lemma Forall_incl {A : Type} (P : A -> Prop) (l l' : list A) :
  incl l' l -> Forall P l -> Forall P l'.
Proof.
  intros Hincl Hl. rewrite Forall_forall in *. auto.
Qed.






End Injection.

(** *** The two runs *)

Section TwoRuns.
Import ManifestRewriter.



Lemma all_below_adaptation_sets (P : ET.element -> Prop) (e : ET.element) :
  all_below (fun x => is_adaptation_set x = true -> P x) e
  <-> Forall P (ET.findall_deep e (mpd "AdaptationSet")).
Proof.
  rewrite all_below_descendants. unfold ET.findall_deep.
  rewrite !Forall_forall. split.
  - intros H x Hx. apply filter_In in Hx as [Hin Htag]. exact (H x Hin Htag).
  - intros H x Hin Htag. apply H, filter_In. split; assumption.
Qed.



Lemma inject_clearkey_split (proxy_base clearkey kid_hex key_hex : string)
  (api_password : option string) (root : ET.element) :
  Py.split ":" clearkey = [kid_hex; key_hex] ->
  inject_clearkey proxy_base (Some clearkey) api_password root
  = update_descendants
      (on_tag (mpd "AdaptationSet")
         (inject_adaptation_set
            (make_cp_element proxy_base clearkey api_password kid_hex)))
      root.
Proof.
  intros Hsplit. unfold inject_clearkey.
  destruct clearkey as [| c rest]; [discriminate |].
  rewrite Hsplit. reflexivity.
Qed.


End TwoRuns.




(** A manifest with two AdaptationSets: one protected by Widevine, one
    that already holds a ClearKey entry. *)
Definition drm_root : ET.element :=
  ET.Element (mpd "MPD") [("type", "static")] None None
    [ET.Element (mpd "Period") [] None None
       [ET.Element (mpd "AdaptationSet") [("mimeType", "video/mp4")] None None
          [ET.Element (mpd "ContentProtection")
             [("schemeIdUri", "urn:uuid:edef8ba9-79d6-4ace-a3c8-27dcd51d21ed")]
             None None [];
           ET.Element (mpd "Representation")
             [("id", "v1"); ("bandwidth", "2000000")] None None
             [ET.Element (mpd "SegmentTemplate")
                [("timescale", "1000"); ("media", "seg_$Number$.m4s")]
                None None []]];
        ET.Element (mpd "AdaptationSet") [("mimeType", "audio/mp4")] None None
          [ET.Element (mpd "ContentProtection")
             [("schemeIdUri", "urn:uuid:e2719d58-a985-b3c9-781a-007147f192ec")]
             None None [];
           ET.Element (mpd "Representation")
             [("id", "a1"); ("bandwidth", "128000")] None None []]]].


Definition drm_clearkey : string :=
  "0123456789abcdef0123456789abcdef:00112233445566778899aabbccddeeff".

(** The tree of the first run, and what the round trip makes of it. *)
Definition drm_once : ET.element :=
  match
    ManifestRewriter.rewrite_root (L := example_lib (example_parser []))
      drm_root "http://o/vod/" "http://p" [] (Some drm_clearkey) None
  with
  | Ok t => t
  | Raise _ => drm_root
  end.




Example drm_once_children :
  map (fun a => map (fun c => (ET.tag c, scheme c)) (ET.children a))
      (ET.findall_deep drm_once (mpd "AdaptationSet"))
  = [[("ContentProtection",
       Some "urn:uuid:e2719d58-a985-b3c9-781a-007147f192ec");
      (mpd "Representation", None)];
     [(mpd "ContentProtection",
       Some "urn:uuid:e2719d58-a985-b3c9-781a-007147f192ec");
      (mpd "Representation", None)]].
Proof. vm_compute. reflexivity. Qed.


(** Without the round trip the second injection does insert again: the
    inserted element has a bare tag, and the test for an existing entry
    only looks at ContentProtection elements of the DASH namespace. *)
Example injection_twice_in_memory :
  map (fun a => (entries a, bare_entries a))
      (ET.findall_deep
         (ManifestRewriter.inject_clearkey "http://p" (Some drm_clearkey) None
            (ManifestRewriter.inject_clearkey "http://p" (Some drm_clearkey)
               None drm_root))
         (mpd "AdaptationSet"))
  = [(0%nat, 2%nat); (1%nat, 0%nat)].
Proof. vm_compute. reflexivity. Qed.

(** * Further properties of the two engines *)

(** ** Percent-encoding in the proxy URLs *)

Section Quoting.

(** Reading back one character of [quote_with]: a proof device, the
    inverse of [Py.quote_char] on the front of a string. *)
Definition hex_value (c : ascii) : option N :=
  let n := Py.code c in
  if Py.isdigit c then Some (n - 48)%N
  else if ((65 <=? n) && (n <=? 70))%N then Some (n - 55)%N
       else None.

Definition unquote_byte (s : string) : option (N * string) :=
  match s with
  | String "%" (String h (String l t)) =>
      match hex_value h, hex_value l with
      | Some a, Some b => Some (16 * a + b, t)%N
      | _, _ => None
      end
  | _ => None
  end.

Definition unquote_head (s : string) : option (ascii * string) :=
  match s with
  | EmptyString => None
  | String "%" _ =>
      match unquote_byte s with
      | Some (b, t) =>
          if (b <? 128)%N then Some (ascii_of_N b, t)
          else match unquote_byte t with
               | Some (b2, t2) =>
                   Some (ascii_of_N ((b - 192) * 64 + (b2 - 128)), t2)
               | None => None
               end
      | None => None
      end
  | String c t => Some (c, t)
  end.

Lemma unquote_quote_all_char (c : ascii) (t : string) :
  unquote_head (Py.quote_char "" c ++ t) = Some (c, t).
Proof.
  destruct c as [[] [] [] [] [] [] [] []]; reflexivity.
Qed.

Lemma quote_all_inj (a b : string) :
  Py.quote_all a = Py.quote_all b -> a = b.
Proof.
  unfold Py.quote_all. revert b.
  induction a as [| c a IH]; intros [| d b] H; cbn [Py.quote_with] in H.
  - reflexivity.
  - apply (f_equal unquote_head) in H.
    rewrite unquote_quote_all_char in H. discriminate.
  - apply (f_equal unquote_head) in H.
    rewrite unquote_quote_all_char in H. discriminate.
  - apply (f_equal unquote_head) in H.
    rewrite !unquote_quote_all_char in H.
    injection H as -> H. f_equal. apply IH, H.
Qed.

Lemma append_inj_r (a b h : string) : a ++ h = b ++ h -> a = b.
Proof.
  revert b. induction a as [| c a IH]; intros [| d b] H.
  - reflexivity.
  - apply (f_equal String.length) in H. cbn in H.
    rewrite length_append in H. lia.
  - apply (f_equal String.length) in H. cbn in H.
    rewrite length_append in H. lia.
  - cbn in H. injection H as -> H. f_equal. apply IH, H.
Qed.

(** Every character of [s] passes [p]. *)
Fixpoint all_chars (p : ascii -> bool) (s : string) : bool :=
  match s with
  | EmptyString => true
  | String c t => p c && all_chars p t
  end.

(** [s.count(c)] for a character [c]. *)
Fixpoint count_char (c : ascii) (s : string) : nat :=
  match s with
  | EmptyString => O
  | String d t => (if Ascii.eqb c d then 1 else 0) + count_char c t
  end.

Lemma all_chars_app (p : ascii -> bool) (a b : string) :
  all_chars p (a ++ b) = (all_chars p a && all_chars p b)%bool.
Proof.
  induction a as [| c a IH]; cbn; [reflexivity |].
  rewrite IH, andb_assoc. reflexivity.
Qed.

Lemma count_char_app (c : ascii) (a b : string) :
  count_char c (a ++ b) = (count_char c a + count_char c b)%nat.
Proof.
  induction a as [| d a IH]; cbn; [reflexivity |]. rewrite IH. lia.
Qed.

Lemma count_char_none (p : ascii -> bool) (c : ascii) (s : string) :
  p c = false -> all_chars p s = true -> count_char c s = 0%nat.
Proof.
  intros Hc. induction s as [| d s IH]; cbn; [reflexivity |].
  intros H. apply andb_true_iff in H as [Hd Hs].
  destruct (Ascii.eqb_spec c d) as [-> | _]; [congruence |].
  rewrite IH by exact Hs. reflexivity.
Qed.

(** The characters [quote(s, safe='')] can produce: letters, digits,
    [_ . - ~] and the percent sign. *)
Definition url_token (c : ascii) : bool :=
  (Py.always_safe c || Ascii.eqb c "%")%bool.

(** The same, with the slash that [quote(s)] keeps. *)
Definition url_path_token (c : ascii) : bool :=
  (url_token c || Ascii.eqb c "/")%bool.

Lemma quote_all_char_token (c : ascii) :
  all_chars url_token (Py.quote_char "" c) = true.
Proof.
  destruct c as [[] [] [] [] [] [] [] []]; reflexivity.
Qed.

Lemma quote_char_path_token (c : ascii) :
  all_chars url_path_token (Py.quote_char "/" c) = true.
Proof.
  destruct c as [[] [] [] [] [] [] [] []]; reflexivity.
Qed.

Lemma quote_all_token (s : string) :
  all_chars url_token (Py.quote_all s) = true.
Proof.
  unfold Py.quote_all. induction s as [| c s IH]; cbn [Py.quote_with].
  - reflexivity.
  - rewrite all_chars_app, quote_all_char_token, IH. reflexivity.
Qed.

Lemma quote_path_token (s : string) :
  all_chars url_path_token (Py.quote s) = true.
Proof.
  unfold Py.quote. induction s as [| c s IH]; cbn [Py.quote_with].
  - reflexivity.
  - rewrite all_chars_app, quote_char_path_token, IH. reflexivity.
Qed.

End Quoting.

(** X1.  [create_proxy_url] tells absolute URLs apart: for the same
    base, proxy and header parameters, two relative URLs get the same
    result exactly when [urljoin] resolves them alike. *)
Theorem create_proxy_url_is_injective {L : PyLib}
  (base_url proxy_base header_params r1 r2 : string) :
  ManifestRewriter.create_proxy_url base_url proxy_base header_params r1
  = ManifestRewriter.create_proxy_url base_url proxy_base header_params r2
  <-> urljoin base_url r1 = urljoin base_url r2.
Proof.
  unfold ManifestRewriter.create_proxy_url. split.
  - destruct (urljoin base_url r1) as [a1 | e1],
             (urljoin base_url r2) as [a2 | e2]; cbn [bind]; intros H;
      try discriminate; [| exact H].
    injection H as H.
    apply append_inj_l in H.
    change ("/proxy/mpd/manifest.m3u8?d=" ++ Py.quote_all a1 ++ header_params
            = "/proxy/mpd/manifest.m3u8?d=" ++ Py.quote_all a2 ++ header_params)
      in H.
    apply append_inj_l, append_inj_r, quote_all_inj in H.
    rewrite H. reflexivity.
  - intros ->. reflexivity.
Qed.

(** X2.  What [create_proxy_url] returns is the proxy base, the path
    [/proxy/mpd/manifest.m3u8?d=], an encoded URL and the header
    parameters, and the encoded URL is made of letters, digits,
    [_ . - ~] and percent signs only: it holds no [&], [=], [?], [#],
    slash or quote, whatever the manifest wrote. *)
Theorem create_proxy_url_parameter_is_opaque {L : PyLib}
  (base_url proxy_base header_params relative_url proxy_url : string) :
  ManifestRewriter.create_proxy_url base_url proxy_base header_params
    relative_url = Ok proxy_url ->
  exists encoded_url,
    proxy_url = proxy_base ++ "/proxy/mpd/manifest.m3u8?d=" ++ encoded_url
                ++ header_params
    /\ all_chars url_token encoded_url = true
    /\ Forall (fun c => count_char c encoded_url = 0%nat)
              ["&"; "="; "?"; "#"; "/"; "034"; " "; ":"]%char.
Proof.
  unfold ManifestRewriter.create_proxy_url. intros H.
  apply bind_ok in H as (absolute_url & _ & H). injection H as <-.
  exists (Py.quote_all absolute_url).
  split; [reflexivity |]. split; [apply quote_all_token |].
  repeat constructor;
    apply (count_char_none url_token); try reflexivity; apply quote_all_token.
Qed.

Lemma create_proxy_url_parameter_is_opaque_witness :
  exists encoded_url,
    "http://p/proxy/mpd/manifest.m3u8?d=http%3A%2F%2Fo%2Fa%2Fs.m4s&h_x=y"
    = "http://p" ++ "/proxy/mpd/manifest.m3u8?d=" ++ encoded_url ++ "&h_x=y"
    /\ all_chars url_token encoded_url = true
    /\ Forall (fun c => count_char c encoded_url = 0%nat)
              ["&"; "="; "?"; "#"; "/"; "034"; " "; ":"]%char.
Proof.
  apply (create_proxy_url_parameter_is_opaque
           (L := example_lib (example_parser []))
           "http://o/a/" "http://p" "&h_x=y" "s.m4s").
  reflexivity.
Defined.

(** X3.  The header parameters hold one [&] and one [=] for each
    header, whatever the header names and values contain: [quote]
    encodes both characters. *)
Theorem header_parameters_are_delimited
  (stream_headers : ManifestRewriter.headers) :
  count_char "&" (ManifestRewriter.h_params stream_headers)
  = List.length stream_headers
  /\ count_char "=" (ManifestRewriter.h_params stream_headers)
     = List.length stream_headers.
Proof.
  unfold ManifestRewriter.h_params.
  assert (Hconcat : forall c l,
             count_char c (String.concat "" l)
             = fold_right (fun s n => (count_char c s + n)%nat) 0%nat l).
  { intros c l. induction l as [| s [| s' r] IH]; [reflexivity | |].
    - cbn. lia.
    - change (String.concat "" (s :: s' :: r))
        with (s ++ "" ++ String.concat "" (s' :: r)).
      rewrite !count_char_app, IH. reflexivity. }
  rewrite !Hconcat.
  induction stream_headers as [| [k v] r [IH1 IH2]]; [split; reflexivity |].
  cbn [map fold_right fst snd List.length].
  rewrite IH1, IH2.
  change ("&h_" ++ Py.quote k ++ "=" ++ Py.quote v)
    with ("&h_" ++ (Py.quote k ++ "=" ++ Py.quote v)).
  rewrite !count_char_app.
  rewrite !(count_char_none url_path_token "&" (Py.quote _) eq_refl
              (quote_path_token _)).
  rewrite !(count_char_none url_path_token "=" (Py.quote _) eq_refl
              (quote_path_token _)).
  split; reflexivity.
Qed.

(** ** More on [rewrite_manifest_urls] *)

Section HlsLines.
Context {L : PyLib}.
Import ManifestRewriter.

Lemma prefix_split (p s : string) :
  String.prefix p s = true -> s = p ++ Py.drop (String.length p) s.
Proof.
  revert s. induction p as [| c p IH]; intros s H.
  - destruct s; reflexivity.
  - destruct s as [| d s]; [discriminate |].
    rewrite prefix_cons in H. apply andb_true_iff in H as [Hc Hp].
    apply Ascii.eqb_eq in Hc. subst d.
    cbn [String.length Py.drop String.append]. f_equal. apply IH, Hp.
Qed.

Lemma prefix_prefix (a b c : string) :
  String.prefix (a ++ b) (a ++ b ++ c) = true.
Proof.
  rewrite <- append_assoc. apply prefix_append.
Qed.

Lemma rewrite_uri_keeps_hash (line out : string)
  (f : string -> result string) :
  Py.startswith line "#" = true ->
  rewrite_uri line f = Ok out ->
  Py.startswith out "#" = true.
Proof.
  unfold rewrite_uri, Py.startswith, Py.slice_to. intros Hline.
  match goal with
  | |- context [4 <? ?start] => generalize start
  end.
  intros uri_start H.
  destruct (4 <? uri_start) eqn:Hstart; cbn [andb] in H;
    [| injection H as <-; exact Hline].
  destruct (uri_start <? Py.find line dquote uri_start);
    [| injection H as <-; exact Hline].
  apply Z.ltb_lt in Hstart.
  apply bind_ok in H as (new_url & _ & H). injection H as <-.
  destruct (Z.to_nat uri_start) as [| k] eqn:Hk; [lia |].
  destruct line as [| c t]; [discriminate |].
  rewrite prefix_cons, prefix_nil in Hline.
  cbn [Py.take String.append]. rewrite prefix_cons, prefix_nil.
  exact Hline.
Qed.

Lemma startswith_hash (tag line : string) :
  Py.startswith line (String "#" tag) = true -> Py.startswith line "#" = true.
Proof.
  unfold Py.startswith. destruct line as [| c t]; [discriminate |].
  rewrite !prefix_cons, prefix_nil.
  intros H. apply andb_true_iff in H as [-> _]. reflexivity.
Qed.

(** A line of the output of the standard path, for a stream that is not
    DLHD: empty, a tag or a comment, or a URL of the proxy. *)
Definition proxied_line (proxy_base new_line : string) : Prop :=
  new_line = ""
  \/ Py.startswith new_line "#" = true
  \/ Py.startswith new_line (proxy_base ++ "/proxy/") = true.

Lemma rewrite_line_proxied (kind : stream_kind) (base_url proxy_base : string)
  (stream_headers : headers) (original_channel_url : string)
  (api_password : option string) (base_query line new_line : string) :
  kind <> DLHD ->
  rewrite_line kind base_url proxy_base stream_headers original_channel_url
    api_password base_query line = Ok new_line ->
  proxied_line proxy_base new_line.
Proof.
  intros Hkind. unfold rewrite_line, proxied_line.
  destruct (Py.startswith (Py.strip line) "#EXT-X-KEY:") eqn:Hkey; cbn [andb].
  { destruct (Py.contains "URI=" (Py.strip line)).
    - intros H. right; left.
      eapply rewrite_uri_keeps_hash; [| exact H].
      eapply startswith_hash, Hkey.
    - cbn [andb].
      destruct (Py.startswith (Py.strip line) "#EXT-X-MEDIA:") eqn:Hmedia;
        [apply prefix_split in Hkey, Hmedia; rewrite Hkey in Hmedia;
         discriminate |].
      destruct (Py.startswith (Py.strip line) "#EXT-X-MAP:") eqn:Hmap;
        [apply prefix_split in Hkey, Hmap; rewrite Hkey in Hmap;
         discriminate |].
      cbn [andb].
      rewrite (startswith_hash _ _ Hkey), andb_false_r.
      intros H. injection H as <-. right; left.
      eapply startswith_hash, Hkey. }
  destruct (Py.startswith (Py.strip line) "#EXT-X-MEDIA:"
            && Py.contains "URI=" (Py.strip line))%bool eqn:Hmedia.
  { apply andb_true_iff in Hmedia as [Hmedia _].
    intros H. right; left.
    eapply rewrite_uri_keeps_hash; [| exact H].
    eapply startswith_hash, Hmedia. }
  destruct (Py.startswith (Py.strip line) "#EXT-X-MAP:"
            && Py.contains "URI=" (Py.strip line))%bool eqn:Hmap.
  { apply andb_true_iff in Hmap as [Hmap _].
    intros H. right; left.
    eapply rewrite_uri_keeps_hash; [| exact H].
    eapply startswith_hash, Hmap. }
  destruct (String.eqb_spec (Py.strip line) "") as [Hempty | Hempty];
    cbn [negb andb].
  { intros H. injection H as <-. left. exact Hempty. }
  destruct (Py.startswith (Py.strip line) "#") eqn:Hhash; cbn [negb].
  { intros H. injection H as <-. right; left. exact Hhash. }
  unfold rewrite_url_line. intros H.
  apply bind_ok in H as (absolute_url & _ & H).
  right; right. unfold Py.startswith.
  destruct kind; try congruence;
    match type of H with
    | (if ?c then _ else _) = _ => destruct c
    end; injection H as <-.
  - exact (prefix_prefix proxy_base "/proxy/" _).
  - exact (prefix_prefix proxy_base "/proxy/" _).
  - exact (prefix_prefix proxy_base "/proxy/" _).
  - exact (prefix_prefix proxy_base "/proxy/" _).
Qed.

(** *** Lines that hold [URI=] but no quoted URI *)

Lemma index_absent (pat s : string) (n : nat) :
  Py.contains pat s = false -> String.index n pat s = None.
Proof.
  revert n. induction s as [| c t IH]; intros n H.
  - destruct n; [| reflexivity]. cbn in H |- *.
    destruct pat; [discriminate | reflexivity].
  - cbn [Py.contains] in H. apply orb_false_iff in H as [Hhere Hlater].
    destruct n as [| n]; cbn [String.index].
    + rewrite Hhere, (IH 0%nat Hlater). reflexivity.
    + rewrite (IH n Hlater). reflexivity.
Qed.

Lemma rewrite_uri_unquoted (line : string) (f : string -> result string) :
  Py.contains ("URI=" ++ dquote) line = false ->
  rewrite_uri line f = Ok line.
Proof.
  intros H. unfold rewrite_uri, Py.find.
  rewrite (index_absent _ _ _ H). reflexivity.
Qed.

(** *** The VixSrc branch *)

Lemma highest_quality_first_largest (others pre mid : list stream)
  (best : stream) :
  Forall (fun s => bandwidth s < bandwidth best) pre ->
  Forall (fun s => bandwidth s <= bandwidth best) mid ->
  exists pre' post,
    pre +++ best :: mid +++ others
    = pre' +++ highest_quality best others :: post
    /\ Forall (fun s => bandwidth s < bandwidth (highest_quality best others))
              pre'
    /\ Forall (fun s => bandwidth s <= bandwidth (highest_quality best others))
              post.
Proof.
  unfold highest_quality. revert pre mid best.
  induction others as [| x r IH]; intros pre mid best Hpre Hmid.
  - exists pre, mid. rewrite app_nil_r. cbn. auto.
  - cbn [fold_left]. destruct (bandwidth best <? bandwidth x) eqn:Hlt.
    + apply Z.ltb_lt in Hlt.
      destruct (IH (pre +++ best :: mid) [] x) as (pre' & post & E & H1 & H2).
      * apply Forall_app. split.
        -- eapply Forall_impl; [| exact Hpre]. cbv beta. intros; lia.
        -- constructor; [exact Hlt |].
           eapply Forall_impl; [| exact Hmid]. cbv beta. intros; lia.
      * constructor.
      * exists pre', post. split; [| auto].
        rewrite <- E. cbn [app]. rewrite <- app_assoc. reflexivity.
    + apply Z.ltb_ge in Hlt.
      destruct (IH pre (mid +++ [x]) best Hpre) as (pre' & post & E & H1 & H2).
      * apply Forall_app. split; [exact Hmid | constructor; [exact Hlt | constructor]].
      * exists pre', post. split; [| auto].
        rewrite <- E, <- app_assoc. reflexivity.
Qed.

(** Where an entry of [streams] comes from. *)
Definition stream_of_lines (lines : list string) (s : stream) : Prop :=
  Py.startswith (inf s) "#EXT-X-STREAM-INF:" = true
  /\ (exists digits, search_bandwidth (inf s) = Some digits
                     /\ int (Some digits) = Ok (bandwidth s))
  /\ exists before after, lines = before +++ inf s :: url s :: after.

Lemma collect_streams_sound (lines : list string) (streams : list stream) :
  collect_streams lines = Ok streams ->
  Forall (stream_of_lines lines) streams.
Proof.
  revert streams. induction lines as [| line rest IH]; intros streams H.
  - injection H as <-. constructor.
  - assert (Hrest : forall ss, Forall (stream_of_lines rest) ss ->
                               Forall (stream_of_lines (line :: rest)) ss).
    { intros ss Hss. eapply Forall_impl; [| exact Hss].
      intros s (H1 & H2 & before & after & E).
      split; [exact H1 |]. split; [exact H2 |].
      exists (line :: before), after. rewrite E. reflexivity. }
    cbn [collect_streams] in H.
    destruct (Py.startswith line "#EXT-X-STREAM-INF:") eqn:Hinf;
      [| apply Hrest, IH, H].
    destruct (search_bandwidth line) as [digits |] eqn:Hdigits;
      [| apply Hrest, IH, H].
    apply bind_ok in H as (bw & Hbw & H).
    apply bind_ok in H as (next & Hnext & H).
    apply bind_ok in H as (others & Hothers & H).
    injection H as <-.
    constructor; [| apply Hrest, IH, Hothers].
    destruct rest as [| next' rest']; [discriminate |].
    injection Hnext as ->.
    split; [exact Hinf |]. split; [exists digits; auto |].
    exists [], rest'. reflexivity.
Qed.

(** *** [int] of the digits of a bandwidth *)

Lemma digit_not_space (c : ascii) : Py.isdigit c = true -> Py.isspace c = false.
Proof.
  destruct c as [[] [] [] [] [] [] [] []]; cbn; congruence.
Qed.

Lemma rstrip_digits (s : string) :
  all_chars Py.isdigit s = true -> Py.rstrip s = s.
Proof.
  induction s as [| c t IH]; cbn [all_chars Py.rstrip]; [reflexivity |].
  intros H. apply andb_true_iff in H as [Hc Ht].
  rewrite (IH Ht). destruct t; [| reflexivity].
  rewrite (digit_not_space c Hc). reflexivity.
Qed.

Lemma digits_value_digits (s : string) (acc : Z) :
  all_chars Py.isdigit s = true ->
  exists n, Py.digits_value s acc true = Some n.
Proof.
  revert acc. induction s as [| c t IH]; intros acc H; cbn.
  - eauto.
  - cbn in H. apply andb_true_iff in H as [Hc Ht]. rewrite Hc.
    apply IH, Ht.
Qed.

Lemma int_of_digits (s : string) :
  s <> "" -> all_chars Py.isdigit s = true -> exists n, int (Some s) = Ok n.
Proof.
  intros Hne H. unfold int, Py.int_of_str, Py.strip.
  destruct s as [| c t]; [congruence |].
  pose proof H as Hall. cbn [all_chars] in H.
  apply andb_true_iff in H as [Hc Ht].
  cbn [Py.lstrip]. rewrite (digit_not_space c Hc), (rstrip_digits _ Hall).
  destruct (digits_value_digits t (10 * 0 + Z.of_N (Py.code c - 48)) Ht)
    as (n & Hn).
  exists n.
  assert (E : Py.digits_value (String c t) 0 false = Some n).
  { cbn [Py.digits_value]. rewrite Hc. exact Hn. }
  destruct c as [[] [] [] [] [] [] [] []]; try discriminate Hc;
    rewrite E; reflexivity.
Qed.

Lemma leading_digits_digits (s : string) :
  all_chars Py.isdigit (leading_digits s) = true.
Proof.
  induction s as [| c t IH]; cbn; [reflexivity |].
  destruct (Py.isdigit c) eqn:Hc; [| reflexivity].
  cbn. rewrite Hc. exact IH.
Qed.

Lemma search_bandwidth_digits (line digits : string) :
  search_bandwidth line = Some digits ->
  digits <> "" /\ all_chars Py.isdigit digits = true.
Proof.
  induction line as [| c t IH]; cbn [search_bandwidth].
  - destruct (String.prefix "BANDWIDTH=" ""); [| discriminate].
    destruct (leading_digits (Py.drop 10 "")) eqn:E; [discriminate |].
    intros H. injection H as <-. split; [discriminate |].
    rewrite <- E. apply leading_digits_digits.
  - destruct (String.prefix "BANDWIDTH=" (String c t)); [| exact IH].
    destruct (leading_digits (Py.drop 10 (String c t))) eqn:E; [exact IH |].
    intros H. injection H as <-. split; [discriminate |].
    rewrite <- E. apply leading_digits_digits.
Qed.

Lemma collect_streams_trailing (before : list string) (last : string) :
  Py.startswith last "#EXT-X-STREAM-INF:" = true ->
  search_bandwidth last <> None ->
  collect_streams (before +++ [last]) = Raise IndexError.
Proof.
  intros Hinf Hbw. induction before as [| line rest IH]; cbn [app collect_streams].
  - rewrite Hinf. destruct (search_bandwidth last) as [digits |] eqn:E;
      [| congruence].
    destruct (search_bandwidth_digits _ _ E) as [Hne Hall].
    destruct (int_of_digits digits Hne Hall) as (n & ->). reflexivity.
  - rewrite IH.
    destruct (Py.startswith line "#EXT-X-STREAM-INF:"); [| reflexivity].
    destruct (search_bandwidth line) as [digits |] eqn:E; [| reflexivity].
    destruct (search_bandwidth_digits _ _ E) as [Hne Hall].
    destruct (int_of_digits digits Hne Hall) as (n & ->). cbn [bind].
    destruct rest; reflexivity.
Qed.

Lemma collect_streams_none (lines : list string) :
  Forall (fun line => Py.startswith line "#EXT-X-STREAM-INF:" = false
                      \/ search_bandwidth line = None) lines ->
  collect_streams lines = Ok [].
Proof.
  induction 1 as [| line rest [H | H] _ IH]; cbn [collect_streams].
  - reflexivity.
  - rewrite H. exact IH.
  - rewrite H. destruct (Py.startswith line "#EXT-X-STREAM-INF:"); exact IH.
Qed.

Lemma map_result_ext {A B : Type} (f g : A -> result B) (l : list A) :
  (forall x, f x = g x) -> map_result f l = map_result g l.
Proof.
  intros H. induction l as [| x r IH]; cbn; [reflexivity |].
  rewrite H, IH. reflexivity.
Qed.

End HlsLines.

(** X4.  For a stream that is neither VixSrc nor DLHD, the output has one
    line for each line of the input, and each of them is empty, starts
    with [#], or starts with [{proxy_base}/proxy/]: no URL of the origin
    is left as a line of its own. *)
Theorem rewritten_lines_go_through_the_proxy {L : PyLib}
  (manifest_content base_url proxy_base : string)
  (stream_headers : ManifestRewriter.headers) (original_channel_url : string)
  (api_password : option string) (output : string) :
  ManifestRewriter.rewrite_manifest_urls manifest_content base_url proxy_base
    stream_headers original_channel_url api_password ManifestRewriter.Generic
  = Ok output ->
  exists rewritten_lines,
    output = Py.join nl rewritten_lines
    /\ List.length rewritten_lines
       = List.length (Py.split "010" manifest_content)
    /\ Forall (proxied_line proxy_base) rewritten_lines.
Proof.
  unfold ManifestRewriter.rewrite_manifest_urls.
  cbn [ManifestRewriter.vixsrc_collapse bind]. intros H.
  apply bind_ok in H as (base_query & _ & H).
  apply bind_ok in H as (rewritten_lines & Hmap & H). injection H as <-.
  exists rewritten_lines. split; [reflexivity |].
  split; [eapply map_result_length; exact Hmap |].
  apply map_result_Forall2 in Hmap.
  induction Hmap as [| line new_line lines news Hline _ IH]; constructor.
  - eapply rewrite_line_proxied; [| exact Hline]. discriminate.
  - exact IH.
Qed.

Definition media_playlist_text : string :=
  "#EXTM3U" ++ nl ++ "#EXTINF:4.0," ++ nl ++ "seg1.ts" ++ nl
  ++ "https://cdn.example/live/next.m3u8" ++ nl.

Lemma rewritten_lines_go_through_the_proxy_witness :
  exists rewritten_lines,
    "#EXTM3U" ++ nl ++ "#EXTINF:4.0," ++ nl
    ++ "http://p/proxy/hls/segment.mp4?d=http%3A%2F%2Fo%2Flive%2Fseg1.ts&h_Referer=http%3A//o/"
    ++ nl
    ++ "http://p/proxy/manifest.m3u8?url=https%3A%2F%2Fcdn.example%2Flive%2Fnext.m3u8&h_Referer=http%3A//o/"
    ++ nl
    = Py.join nl rewritten_lines
    /\ List.length rewritten_lines
       = List.length (Py.split "010" media_playlist_text)
    /\ Forall (proxied_line "http://p") rewritten_lines.
Proof.
  apply (rewritten_lines_go_through_the_proxy
           (L := example_lib (example_parser []))
           media_playlist_text "http://o/live/" "http://p"
           [("Referer", "http://o/")] "" None).
  vm_compute. reflexivity.
Defined.

(** X5.  A tag line of [#EXT-X-MEDIA] or [#EXT-X-MAP] that, stripped,
    reads [pre URI=<quote> u <quote> post], the [URI=<quote>] being the
    first of the line and [u] not empty, is emitted with [u] replaced:
    for a DLHD stream by [urljoin(base_url, u)] itself, for any other
    stream by the proxy URL of it, on the manifest endpoint for a media
    tag and on the segment endpoint for a map tag. *)
Theorem media_and_map_uris_are_rewritten {L : PyLib}
  (kind : ManifestRewriter.stream_kind) (base_url proxy_base : string)
  (stream_headers : ManifestRewriter.headers) (original_channel_url : string)
  (api_password : option string)
  (base_query line tag endpoint pre u post absolute : string) :
  In (tag, endpoint)
     [("#EXT-X-MEDIA:", "/proxy/hls/manifest.m3u8?d=");
      ("#EXT-X-MAP:", "/proxy/hls/segment.mp4?d=")] ->
  Py.strip line = pre ++ uri_open ++ u ++ dquote ++ post ->
  Py.startswith pre tag = true ->
  Py.contains uri_open (pre ++ "URI=") = false ->
  u <> "" ->
  Py.contains dquote u = false ->
  urljoin base_url u = Ok absolute ->
  ManifestRewriter.rewrite_line kind base_url proxy_base stream_headers
    original_channel_url api_password base_query line
  = Ok (pre ++ uri_open
        ++ match kind with
           | ManifestRewriter.DLHD => absolute
           | _ => proxy_base ++ endpoint ++ Py.quote_all absolute
                  ++ ManifestRewriter.header_params stream_headers api_password
           end
        ++ dquote ++ post).
Proof.
  intros Htag Hline Hpre Hfirst Hu Hquote Hjoin.
  unfold ManifestRewriter.rewrite_line. rewrite Hline.
  assert (Huri : Py.contains "URI=" (pre ++ uri_open ++ u ++ dquote ++ post)
                 = true).
  { change uri_open with ("URI=" ++ dquote).
    rewrite (append_assoc "URI=" dquote). apply contains_middle. }
  rewrite Huri, !andb_true_r.
  pose proof (prefix_app_l _ _ (uri_open ++ u ++ dquote ++ post) Hpre) as Hhere.
  pose proof (prefix_split _ _ Hpre) as Esplit.
  assert (Hspec := rewrite_uri_spec pre u post
                     (ManifestRewriter.proxy_tag_url kind endpoint base_url
                        proxy_base
                        (ManifestRewriter.header_params stream_headers
                           api_password))
                     Hfirst Hu Hquote).
  unfold ManifestRewriter.proxy_tag_url in Hspec at 2.
  rewrite Hjoin in Hspec. cbn [bind] in Hspec.
  destruct Htag as [E | [E | []]]; injection E as <- <-.
  - replace (Py.startswith (pre ++ uri_open ++ u ++ dquote ++ post)
               "#EXT-X-KEY:") with false
      by (rewrite Esplit; reflexivity).
    unfold Py.startswith at 1. rewrite Hhere. exact Hspec.
  - replace (Py.startswith (pre ++ uri_open ++ u ++ dquote ++ post)
               "#EXT-X-KEY:") with false
      by (rewrite Esplit; reflexivity).
    replace (Py.startswith (pre ++ uri_open ++ u ++ dquote ++ post)
               "#EXT-X-MEDIA:") with false
      by (rewrite Esplit; reflexivity).
    unfold Py.startswith at 1. rewrite Hhere. exact Hspec.
Qed.

Definition subtitles_line : string :=
  "#EXT-X-MEDIA:TYPE=SUBTITLES,GROUP-ID=" ++ dquote ++ "subs" ++ dquote
  ++ ",URI=" ++ dquote ++ "subs_it.m3u8" ++ dquote ++ ",DEFAULT=NO".

Lemma media_and_map_uris_are_rewritten_witness :
  ManifestRewriter.rewrite_line (L := example_lib (example_parser []))
    ManifestRewriter.DLHD "http://o/live/" "http://p" [] "" None ""
    ("  " ++ subtitles_line ++ " ")
  = Ok ("#EXT-X-MEDIA:TYPE=SUBTITLES,GROUP-ID=" ++ dquote ++ "subs" ++ dquote
        ++ ",URI=" ++ dquote ++ "http://o/live/subs_it.m3u8" ++ dquote
        ++ ",DEFAULT=NO").
Proof.
  apply (media_and_map_uris_are_rewritten (L := example_lib (example_parser []))
           ManifestRewriter.DLHD "http://o/live/" "http://p" [] "" None ""
           ("  " ++ subtitles_line ++ " ")
           "#EXT-X-MEDIA:" "/proxy/hls/manifest.m3u8?d="
           ("#EXT-X-MEDIA:TYPE=SUBTITLES,GROUP-ID=" ++ dquote ++ "subs"
            ++ dquote ++ ",")
           "subs_it.m3u8" ",DEFAULT=NO" "http://o/live/subs_it.m3u8").
  - left. reflexivity.
  - vm_compute. reflexivity.
  - vm_compute. reflexivity.
  - vm_compute. reflexivity.
  - discriminate.
  - vm_compute. reflexivity.
  - vm_compute. reflexivity.
Defined.

(** X6.  A tag or comment line that holds no [URI=<double quote>] is
    emitted as it is, stripped: a key, media or map tag whose URI is
    written without quotes, or in single quotes, is not rewritten, and
    the key of such a line is not proxied. *)
Theorem unquoted_uri_is_not_rewritten {L : PyLib}
  (kind : ManifestRewriter.stream_kind) (base_url proxy_base : string)
  (stream_headers : ManifestRewriter.headers) (original_channel_url : string)
  (api_password : option string) (base_query line : string) :
  Py.startswith (Py.strip line) "#" = true ->
  Py.contains uri_open (Py.strip line) = false ->
  ManifestRewriter.rewrite_line kind base_url proxy_base stream_headers
    original_channel_url api_password base_query line
  = Ok (Py.strip line).
Proof.
  intros Hhash Hnone. unfold ManifestRewriter.rewrite_line.
  rewrite !(rewrite_uri_unquoted _ _ Hnone), Hhash.
  cbn [negb]. rewrite andb_false_r.
  repeat match goal with
         | |- (if ?c then _ else _) = _ => destruct c
         end; reflexivity.
Qed.

Lemma unquoted_uri_is_not_rewritten_witness :
  ManifestRewriter.rewrite_line (L := example_lib (example_parser []))
    ManifestRewriter.Generic "http://o/live/" "http://p" [] "" None ""
    "#EXT-X-KEY:METHOD=AES-128,URI=key.bin"
  = Ok "#EXT-X-KEY:METHOD=AES-128,URI=key.bin".
Proof.
  apply (unquoted_uri_is_not_rewritten (L := example_lib (example_parser []))
           ManifestRewriter.Generic "http://o/live/" "http://p" [] "" None ""
           "#EXT-X-KEY:METHOD=AES-128,URI=key.bin").
  - vm_compute. reflexivity.
  - vm_compute. reflexivity.
Defined.

(** X7.  When the VixSrc branch finds variants, the playlist it returns
    is [#EXTM3U], the [#EXT-X-MEDIA] lines of the input, and one variant:
    the first of those with the largest BANDWIDTH.  Its two lines are a
    [#EXT-X-STREAM-INF] line of the input and the line that follows it,
    both as they were written: the URL is not proxied. *)
Theorem vixsrc_keeps_the_highest_bandwidth {L : PyLib}
  (manifest_content base_url proxy_base : string)
  (stream_headers : ManifestRewriter.headers) (original_channel_url : string)
  (api_password : option string)
  (first : ManifestRewriter.stream) (others : list ManifestRewriter.stream) :
  let lines := Py.split "010" manifest_content in
  ManifestRewriter.collect_streams lines = Ok (first :: others) ->
  exists best before after,
    ManifestRewriter.rewrite_manifest_urls manifest_content base_url
      proxy_base stream_headers original_channel_url api_password
      ManifestRewriter.VixSrc
    = Ok (Py.join nl
            ("#EXTM3U"
             :: filter (fun line => Py.startswith line "#EXT-X-MEDIA:") lines
             +++ [ManifestRewriter.inf best; ManifestRewriter.url best]))
    /\ first :: others = before +++ best :: after
    /\ Forall (fun s => ManifestRewriter.bandwidth s
                        < ManifestRewriter.bandwidth best) before
    /\ Forall (fun s => ManifestRewriter.bandwidth s
                        <= ManifestRewriter.bandwidth best) after
    /\ stream_of_lines lines best.
Proof.
  intros lines Hstreams.
  destruct (highest_quality_first_largest others [] [] first)
    as (before & after & E & Hbefore & Hafter); [constructor | constructor |].
  exists (ManifestRewriter.highest_quality first others), before, after.
  split; [| split; [exact E | split; [exact Hbefore | split; [exact Hafter |]]]].
  - unfold ManifestRewriter.rewrite_manifest_urls,
      ManifestRewriter.vixsrc_collapse.
    fold lines. rewrite Hstreams. reflexivity.
  - pose proof (collect_streams_sound _ _ Hstreams) as Hsound.
    rewrite Forall_forall in Hsound. apply Hsound.
    cbn [app] in E. rewrite E. apply in_elt.
Qed.

Definition master_text : string :=
  "#EXTM3U" ++ nl
  ++ "#EXT-X-MEDIA:TYPE=AUDIO,GROUP-ID=a,NAME=it" ++ nl
  ++ "#EXT-X-STREAM-INF:BANDWIDTH=800000,RESOLUTION=640x360" ++ nl
  ++ "low.m3u8" ++ nl
  ++ "#EXT-X-STREAM-INF:BANDWIDTH=2400000,RESOLUTION=1280x720" ++ nl
  ++ "high.m3u8" ++ nl
  ++ "#EXT-X-STREAM-INF:BANDWIDTH=2400000,RESOLUTION=1920x1080" ++ nl
  ++ "higher.m3u8".

Lemma vixsrc_keeps_the_highest_bandwidth_witness :
  exists best before after,
    ManifestRewriter.rewrite_manifest_urls
      (L := example_lib (example_parser []))
      master_text "http://o/" "http://p" [] "" None ManifestRewriter.VixSrc
    = Ok (Py.join nl
            ("#EXTM3U"
             :: filter (fun line => Py.startswith line "#EXT-X-MEDIA:")
                  (Py.split "010" master_text)
             +++ [ManifestRewriter.inf best; ManifestRewriter.url best]))
    /\ [ManifestRewriter.Stream 800000
          "#EXT-X-STREAM-INF:BANDWIDTH=800000,RESOLUTION=640x360" "low.m3u8";
        ManifestRewriter.Stream 2400000
          "#EXT-X-STREAM-INF:BANDWIDTH=2400000,RESOLUTION=1280x720" "high.m3u8";
        ManifestRewriter.Stream 2400000
          "#EXT-X-STREAM-INF:BANDWIDTH=2400000,RESOLUTION=1920x1080"
          "higher.m3u8"]
       = before +++ best :: after
    /\ Forall (fun s => ManifestRewriter.bandwidth s
                        < ManifestRewriter.bandwidth best) before
    /\ Forall (fun s => ManifestRewriter.bandwidth s
                        <= ManifestRewriter.bandwidth best) after
    /\ stream_of_lines (Py.split "010" master_text) best.
Proof.
  apply (vixsrc_keeps_the_highest_bandwidth
           (L := example_lib (example_parser []))
           master_text "http://o/" "http://p" [] "" None).
  vm_compute. reflexivity.
Defined.

Example vixsrc_example :
  ManifestRewriter.rewrite_manifest_urls (L := example_lib (example_parser []))
    master_text "http://o/" "http://p" [] "" None ManifestRewriter.VixSrc
  = Ok ("#EXTM3U" ++ nl
        ++ "#EXT-X-MEDIA:TYPE=AUDIO,GROUP-ID=a,NAME=it" ++ nl
        ++ "#EXT-X-STREAM-INF:BANDWIDTH=2400000,RESOLUTION=1280x720" ++ nl
        ++ "high.m3u8").
Proof. vm_compute. reflexivity. Qed.

(** X8.  A VixSrc playlist whose last line is an [#EXT-X-STREAM-INF] tag
    with a BANDWIDTH makes [rewrite_manifest_urls] raise [IndexError]:
    the loop reads the line after each such tag, and nothing catches the
    exception.  (The lines are taken short enough for [int] to accept
    the digits of every BANDWIDTH.) *)
Theorem vixsrc_trailing_variant_raises {L : PyLib}
  (manifest_content base_url proxy_base : string)
  (stream_headers : ManifestRewriter.headers) (original_channel_url : string)
  (api_password : option string) (before : list string) (last : string) :
  Py.split "010" manifest_content = before +++ [last] ->
  Py.startswith last "#EXT-X-STREAM-INF:" = true ->
  ManifestRewriter.search_bandwidth last <> None ->
  Forall (fun line => Py.len line <= 4300) (before +++ [last]) ->
  ManifestRewriter.rewrite_manifest_urls manifest_content base_url proxy_base
    stream_headers original_channel_url api_password ManifestRewriter.VixSrc
  = Raise IndexError.
Proof.
  intros Hsplit Hinf Hbw _.
  unfold ManifestRewriter.rewrite_manifest_urls,
    ManifestRewriter.vixsrc_collapse.
  rewrite Hsplit, (collect_streams_trailing before last Hinf Hbw).
  reflexivity.
Qed.

Lemma vixsrc_trailing_variant_raises_witness :
  ManifestRewriter.rewrite_manifest_urls (L := example_lib (example_parser []))
    ("#EXTM3U" ++ nl ++ "#EXT-X-STREAM-INF:BANDWIDTH=800000")
    "http://o/" "http://p" [] "" None ManifestRewriter.VixSrc
  = Raise IndexError.
Proof.
  apply (vixsrc_trailing_variant_raises (L := example_lib (example_parser []))
           ("#EXTM3U" ++ nl ++ "#EXT-X-STREAM-INF:BANDWIDTH=800000")
           "http://o/" "http://p" [] "" None
           ["#EXTM3U"] "#EXT-X-STREAM-INF:BANDWIDTH=800000").
  - vm_compute. reflexivity.
  - vm_compute. reflexivity.
  - vm_compute. discriminate.
  - apply Forall_cons; [| apply Forall_cons; [| apply Forall_nil]];
      vm_compute; discriminate.
Defined.

(** X9.  A VixSrc playlist without a variant -- no [#EXT-X-STREAM-INF]
    line that holds [BANDWIDTH=] and a digit -- is rewritten as the
    playlist of any other proxied stream: a media playlist of VixSrc
    goes through the proxy line by line. *)
Theorem vixsrc_without_variants_is_rewritten_as_usual {L : PyLib}
  (manifest_content base_url proxy_base : string)
  (stream_headers : ManifestRewriter.headers) (original_channel_url : string)
  (api_password : option string) :
  Forall (fun line => Py.startswith line "#EXT-X-STREAM-INF:" = false
                      \/ ManifestRewriter.search_bandwidth line = None)
         (Py.split "010" manifest_content) ->
  ManifestRewriter.rewrite_manifest_urls manifest_content base_url proxy_base
    stream_headers original_channel_url api_password ManifestRewriter.VixSrc
  = ManifestRewriter.rewrite_manifest_urls manifest_content base_url
      proxy_base stream_headers original_channel_url api_password
      ManifestRewriter.Generic.
Proof.
  intros H. unfold ManifestRewriter.rewrite_manifest_urls,
    ManifestRewriter.vixsrc_collapse.
  rewrite (collect_streams_none _ H). cbn [bind].
  destruct (urlparse_query base_url) as [base_query |]; cbn [bind];
    [| reflexivity].
  erewrite map_result_ext; [reflexivity |]. intros line. reflexivity.
Qed.

Lemma vixsrc_without_variants_is_rewritten_as_usual_witness :
  ManifestRewriter.rewrite_manifest_urls (L := example_lib (example_parser []))
    media_playlist_text "http://o/live/" "http://p" [] "" None
    ManifestRewriter.VixSrc
  = ManifestRewriter.rewrite_manifest_urls
      (L := example_lib (example_parser []))
      media_playlist_text "http://o/live/" "http://p" [] "" None
      ManifestRewriter.Generic.
Proof.
  apply (vixsrc_without_variants_is_rewritten_as_usual
           (L := example_lib (example_parser []))
           media_playlist_text "http://o/live/" "http://p" [] "" None).
  repeat constructor.
Defined.

(** ** What [rewrite_mpd_manifest] changes, and what it leaves *)

Section Effect.
Context {L : PyLib}.
Import ManifestRewriter.
Variables base_url proxy_base header_params : string.

(** What the rewriter makes of a value it tests with [if value:]:
    [None] and the empty string stay, anything else becomes what
    [create_proxy_url] returns for it. *)
Definition url_value (v v' : option string) : Prop :=
  match v with
  | Some (String _ _ as s) =>
      exists u, v' = Some u
                /\ create_proxy_url base_url proxy_base header_params s = Ok u
  | _ => v' = v
  end.

(** The same for the text of a licence URL. *)
Definition license_value (v v' : option string) : Prop :=
  match v with
  | Some (String _ _ as s) =>
      v' = Some (proxy_base ++ "/license?url=" ++ Py.quote_all s
                 ++ header_params)
  | _ => v' = v
  end.

(** The attributes that hold a URL: [media] and [initialization] of a
    SegmentTemplate, [media] of a SegmentURL.  The flags say which of
    the two passes has run. *)
Definition url_attr (st su : bool) (tag k : string) : bool :=
  (st && String.eqb tag (mpd "SegmentTemplate")
   && (String.eqb k "media" || String.eqb k "initialization"))
  || (su && String.eqb tag (mpd "SegmentURL") && String.eqb k "media").

(** An element [x] and what it has become after the passes the flags
    name; [under_cp] says that its parent is a ContentProtection of the
    DASH namespace. *)
Definition staged (lic st su bu under_cp : bool) (x x' : ET.element) : Prop :=
  ET.tag x' = ET.tag x
  /\ ET.tail x' = ET.tail x
  /\ map fst (ET.attrib x') = map fst (ET.attrib x)
  /\ (forall k, if url_attr st su (ET.tag x) k
                then url_value (ET.get x k) (ET.get x' k)
                else ET.get x' k = ET.get x k)
  /\ (if bu && String.eqb (ET.tag x) (mpd "BaseURL")
      then url_value (ET.text x) (ET.text x')
      else if lic && under_cp && Py.contains "Laurl" (ET.tag x)
           then license_value (ET.text x) (ET.text x')
           else ET.text x' = ET.text x).

(** The elements below [e'] are those below [e], place by place, each
    related to its original by [R]. *)
Fixpoint related (R : bool -> ET.element -> ET.element -> Prop)
  (under_cp : bool) (e e' : ET.element) : Prop :=
  match e, e' with
  | ET.Element _ _ _ _ cs, ET.Element _ _ _ _ cs' =>
      (fix all (l l' : list ET.element) : Prop :=
         match l, l' with
         | [], [] => True
         | c :: r, c' :: r' =>
             (R under_cp c c' /\ related R (is_content_protection c) c c')
             /\ all r r'
         | _, _ => False
         end) cs cs'
  end.

Lemma related_unfold (R : bool -> ET.element -> ET.element -> Prop)
  (b : bool) (e e' : ET.element) :
  related R b e e'
  <-> Forall2 (fun c c' => R b c c' /\ related R (is_content_protection c) c c')
              (ET.children e) (ET.children e').
Proof.
  destruct e as [t a x tl cs], e' as [t' a' x' tl' cs'].
  cbn [related ET.children]. revert cs'.
  induction cs as [| c r IH]; intros [| c' r'].
  - split; [constructor | trivial].
  - split; [contradiction | intros H; inversion H].
  - split; [contradiction | intros H; inversion H].
  - split.
    + intros [Hc Hr]. constructor; [exact Hc | apply IH, Hr].
    + intros H. inversion H as [| ? ? ? ? Hc Hr]; subst.
      split; [exact Hc | apply IH, Hr].
Qed.

(** The fields of an element other than its children. *)
Definition same_fields (x y : ET.element) : Prop :=
  ET.tag y = ET.tag x /\ ET.attrib y = ET.attrib x
  /\ ET.text y = ET.text x /\ ET.tail y = ET.tail x.

Lemma staged_fields (lic st su bu b : bool) (x0 x y : ET.element) :
  staged lic st su bu b x0 x -> same_fields x y -> staged lic st su bu b x0 y.
Proof.
  unfold staged, same_fields, ET.get.
  intros (H1 & H2 & H3 & H4 & H5) (E1 & E2 & E3 & E4).
  rewrite E1, E2, E3, E4. auto.
Qed.

Lemma staged_refl (b : bool) (x : ET.element) :
  staged false false false false b x x.
Proof.
  unfold staged. cbn [andb orb url_attr]. repeat split.
Qed.

Lemma update_descendants_fields (f : ET.element -> ET.element)
  (e : ET.element) : same_fields e (update_descendants f e).
Proof. destruct e. repeat split. Qed.

Lemma try_update_descendants_fields (g : ET.element -> result ET.element)
  (e e' : ET.element) :
  try_update_descendants g e = Ok e' -> same_fields e e'.
Proof.
  destruct e as [t a x tl cs]. cbn [try_update_descendants]. intros H.
  apply bind_ok in H as (cs' & _ & H). injection H as <-. repeat split.
Qed.

(** *** The licence pass *)

Lemma rewrite_licenses_related (e : ET.element) :
  let f := on_tag (mpd "ContentProtection")
             (fun cp => ET.set_children cp
                          (map (rewrite_license_child proxy_base header_params)
                               (ET.children cp))) in
  related (staged true false false false) false e (update_descendants f e)
  /\ related (staged true false false false) (is_content_protection e) e
       (f (update_descendants f e)).
Proof.
  intros f.
  induction e as [t a x tl cs IH] using element_induction.
  assert (Hplain :
            Forall2 (fun c c' =>
                       staged true false false false false c c'
                       /\ related (staged true false false false)
                            (is_content_protection c) c c')
                    cs (map (fun c => f (update_descendants f c)) cs)).
  { induction IH as [| c r [_ Hc] _ IHr]; cbn [map]; constructor;
      [| exact IHr].
    split; [| exact Hc].
    apply (staged_fields _ _ _ _ _ c c); [| ].
    - unfold staged. cbn [andb orb url_attr]. repeat split.
    - subst f. unfold on_tag.
      destruct (ET.has_tag (mpd "ContentProtection") (update_descendants _ c)).
      + destruct c. repeat split.
      + apply update_descendants_fields. }
  split.
  - apply related_unfold. cbn [update_descendants ET.children]. exact Hplain.
  - subst f. unfold on_tag at 1.
    change (ET.has_tag (mpd "ContentProtection")
              (update_descendants _ (ET.Element t a x tl cs)))
      with (is_content_protection (ET.Element t a x tl cs)).
    destruct (is_content_protection (ET.Element t a x tl cs)).
    + apply related_unfold.
      cbn [update_descendants ET.set_children ET.children].
      clear IH.
      induction Hplain as [| c c' r r' [Hc Hbelow] _ IHr]; cbn [map];
        constructor; [| exact IHr].
      destruct Hc as (H1 & H2 & H3 & H4 & H5). cbn [andb] in H5.
      unfold rewrite_license_child.
      destruct (ET.text c') as [[| ch v] |] eqn:Htext.
      * split; [| exact Hbelow]. unfold staged. cbn [andb].
        repeat split; try assumption.
        destruct (Py.contains "Laurl" (ET.tag c)); [| congruence].
        rewrite <- H5. cbn. congruence.
      * rewrite H1.
        destruct (Py.contains "Laurl" (ET.tag c)) eqn:Hlaurl.
        -- split.
           ++ destruct c' as [t' a' x' tl' cs'].
              unfold staged. cbn [andb ET.set_text ET.tag ET.tail ET.attrib
                                    ET.text ET.get] in *.
              repeat split; try assumption.
              rewrite Hlaurl, <- H5. subst x'. reflexivity.
           ++ apply related_unfold. apply related_unfold in Hbelow.
              destruct c'. exact Hbelow.
        -- split; [| exact Hbelow]. unfold staged. cbn [andb].
           repeat split; try assumption. rewrite Hlaurl. congruence.
      * split; [| exact Hbelow]. unfold staged. cbn [andb].
        repeat split; try assumption.
        destruct (Py.contains "Laurl" (ET.tag c)); [| congruence].
        rewrite <- H5. cbn. congruence.
    + apply related_unfold. cbn [update_descendants ET.children].
      exact Hplain.
Qed.

(** *** A pass over the elements of one tag *)

Lemma try_pass_related (R R' : bool -> ET.element -> ET.element -> Prop)
  (t : string) (h : ET.element -> result ET.element) :
  (forall b x0 x y, R b x0 x -> same_fields x y -> R b x0 y) ->
  (forall x x', h x = Ok x' -> ET.children x' = ET.children x) ->
  (forall b x0 x x',
      R b x0 x -> ET.has_tag t x = true -> h x = Ok x' -> R' b x0 x') ->
  (forall b x0 x, R b x0 x -> ET.has_tag t x = false -> R' b x0 x) ->
  forall e0 b e e',
    related R b e0 e ->
    try_update_descendants (try_on_tag t h) e = Ok e' ->
    related R' b e0 e'.
Proof.
  intros Hfields Hkeep Hhit Hmiss e0.
  induction e0 as [t0 a0 x0 tl0 cs0 IH] using element_induction.
  intros b e e' Hrel H.
  apply related_unfold in Hrel. apply related_unfold.
  destruct e as [t1 a1 x1 tl1 cs]. cbn [try_update_descendants] in H.
  apply bind_ok in H as (cs' & Hcs & H). injection H as <-.
  cbn [ET.children] in *.
  apply map_result_Forall2 in Hcs. revert cs' Hcs.
  induction Hrel as [| c0 c r0 r [Hc Hbelow] _ IHr]; intros cs' Hcs.
  - inversion Hcs; subst. constructor.
  - inversion Hcs as [| ? c'' ? r' Hc'' Hrest]; subst.
    inversion IH as [| ? ? IHc IHrest]; subst.
    constructor; [| apply IHr; assumption].
    apply bind_ok in Hc'' as (c1 & Hc1 & Hc'').
    pose proof (try_update_descendants_fields _ _ _ Hc1) as Hsame.
    pose proof (Hfields _ _ _ _ Hc Hsame) as Hc1R.
    pose proof (IHc _ _ _ Hbelow Hc1) as Hbelow1.
    unfold try_on_tag in Hc''.
    destruct (ET.has_tag t c1) eqn:Htag.
    + split; [eapply Hhit; eassumption |].
      apply related_unfold. apply related_unfold in Hbelow1.
      rewrite (Hkeep _ _ Hc''). exact Hbelow1.
    + injection Hc'' as <-. split; [apply Hmiss; assumption | exact Hbelow1].
Qed.

(** *** What [rewrite_attr] and [rewrite_base_url_tag] do to an element *)

Lemma lookup_dict_set_same (k v : string) (d : list (string * string)) :
  ET.lookup k (ET.dict_set k v d) = Some v.
Proof.
  induction d as [| [k0 v0] r IH]; cbn [ET.dict_set ET.lookup].
  - rewrite String.eqb_refl. reflexivity.
  - destruct (String.eqb_spec k k0) as [-> | Hne]; cbn [ET.lookup].
    + rewrite String.eqb_refl. reflexivity.
    + destruct (String.eqb_spec k k0); [contradiction | exact IH].
Qed.

Lemma dict_set_keys (k v v0 : string) (d : list (string * string)) :
  ET.lookup k d = Some v0 -> map fst (ET.dict_set k v d) = map fst d.
Proof.
  induction d as [| [k1 v1] r IH]; cbn [ET.dict_set ET.lookup map fst];
    [discriminate |].
  destruct (String.eqb_spec k k1) as [-> | Hne]; cbn [map fst].
  - reflexivity.
  - intros H. rewrite (IH H). reflexivity.
Qed.

Lemma rewrite_attr_effect (attr : string) (x x' : ET.element) :
  rewrite_attr base_url proxy_base header_params attr x = Ok x' ->
  ET.tag x' = ET.tag x /\ ET.tail x' = ET.tail x /\ ET.text x' = ET.text x
  /\ ET.children x' = ET.children x
  /\ map fst (ET.attrib x') = map fst (ET.attrib x)
  /\ url_value (ET.get x attr) (ET.get x' attr)
  /\ (forall k, k <> attr -> ET.get x' k = ET.get x k).
Proof.
  unfold rewrite_attr. intros H.
  destruct (ET.get x attr) as [[| c v] |] eqn:Hget;
    try (injection H as <-; rewrite Hget; cbn; repeat split; reflexivity).
  apply bind_ok in H as (u & Hu & H). injection H as <-.
  destruct x as [t a tx tl cs]. unfold ET.get in *.
  cbn [ET.set ET.tag ET.tail ET.text ET.children ET.attrib] in *.
  repeat split.
  - eapply dict_set_keys, Hget.
  - cbn. exists u. split; [apply lookup_dict_set_same | exact Hu].
  - intros k Hk. apply lookup_dict_set_other, Hk.
Qed.

Lemma url_value_same (v v' w : option string) :
  w = v -> url_value w v' -> url_value v v'.
Proof. intros ->. trivial. Qed.

Lemma segment_template_pass (b : bool) (x0 x x' : ET.element) :
  staged true false false false b x0 x ->
  ET.has_tag (mpd "SegmentTemplate") x = true ->
  rewrite_segment_template base_url proxy_base header_params x = Ok x' ->
  staged true true false false b x0 x'.
Proof.
  intros (H1 & H2 & H3 & H4 & H5) Htag H.
  unfold rewrite_segment_template in H.
  apply bind_ok in H as (x1 & Hm & Hi).
  apply rewrite_attr_effect in Hm as (M1 & M2 & M3 & _ & M5 & M6 & M7).
  apply rewrite_attr_effect in Hi as (I1 & I2 & I3 & _ & I5 & I6 & I7).
  unfold ET.has_tag in Htag. apply String.eqb_eq in Htag.
  cbn [url_attr andb orb] in H4.
  unfold staged. cbn [andb] in *.
  split; [congruence |]. split; [congruence |]. split; [congruence |].
  split; [| rewrite I3, M3; exact H5].
  intros k. unfold url_attr. cbn [andb orb].
  rewrite <- H1, Htag, String.eqb_refl. cbn [andb].
  destruct (String.eqb_spec k "media") as [-> | Hmedia]; cbn [orb].
  - rewrite (I7 "media") by discriminate.
    eapply url_value_same; [apply H4 | exact M6].
  - rewrite orb_false_r.
    destruct (String.eqb_spec k "initialization") as [-> | Hinit].
    + eapply url_value_same; [| exact I6].
      rewrite (M7 "initialization") by discriminate. apply H4.
    + rewrite (I7 k Hinit), (M7 k Hmedia). apply H4.
Qed.

Lemma segment_url_pass (b : bool) (x0 x x' : ET.element) :
  staged true true false false b x0 x ->
  ET.has_tag (mpd "SegmentURL") x = true ->
  rewrite_attr base_url proxy_base header_params "media" x = Ok x' ->
  staged true true true false b x0 x'.
Proof.
  intros (H1 & H2 & H3 & H4 & H5) Htag H.
  apply rewrite_attr_effect in H as (M1 & M2 & M3 & _ & M5 & M6 & M7).
  unfold ET.has_tag in Htag. apply String.eqb_eq in Htag.
  unfold staged. cbn [andb] in *.
  split; [congruence |]. split; [congruence |]. split; [congruence |].
  split; [| rewrite M3; exact H5].
  intros k. specialize (H4 k). unfold url_attr in *. cbn [andb orb] in *.
  rewrite <- H1, Htag in *.
  change (String.eqb (mpd "SegmentURL") (mpd "SegmentTemplate")) with false
    in *.
  rewrite String.eqb_refl. cbn [andb orb] in *.
  destruct (String.eqb_spec k "media") as [-> | Hmedia].
  - eapply url_value_same; [exact H4 | exact M6].
  - rewrite (M7 k Hmedia). exact H4.
Qed.

Lemma base_url_pass (b : bool) (x0 x x' : ET.element) :
  staged true true true false b x0 x ->
  ET.has_tag (mpd "BaseURL") x = true ->
  rewrite_base_url_tag base_url proxy_base header_params x = Ok x' ->
  staged true true true true b x0 x'.
Proof.
  intros (H1 & H2 & H3 & H4 & H5) Htag H.
  unfold ET.has_tag in Htag. apply String.eqb_eq in Htag.
  rewrite <- H1, Htag in H5. cbn [andb] in H5.
  change (Py.contains "Laurl" (mpd "BaseURL")) with false in H5.
  rewrite andb_false_r in H5.
  assert (Hx' : ET.tag x' = ET.tag x /\ ET.tail x' = ET.tail x
                /\ ET.attrib x' = ET.attrib x
                /\ url_value (ET.text x) (ET.text x')).
  { unfold rewrite_base_url_tag in H.
    destruct (ET.text x) as [[| c v] |] eqn:Htext;
      try (injection H as <-; rewrite Htext; repeat split; reflexivity).
    apply bind_ok in H as (u & Hu & H). injection H as <-.
    destruct x. repeat split. cbn. eauto. }
  destruct Hx' as (T1 & T2 & T3 & T4).
  unfold staged, ET.get in *. rewrite T3.
  split; [congruence |]. split; [congruence |]. split; [congruence |].
  split; [exact H4 |].
  rewrite <- H1, Htag, String.eqb_refl. cbn [andb].
  rewrite <- H5. exact T4.
Qed.

Lemma staged_miss (lic st su bu st' su' bu' b : bool) (t : string)
  (x0 x : ET.element) :
  staged lic st su bu b x0 x ->
  ET.has_tag t x = false ->
  (forall k, url_attr st' su' (ET.tag x0) k = url_attr st su (ET.tag x0) k) ->
  (bu' && String.eqb (ET.tag x0) (mpd "BaseURL")
   = bu && String.eqb (ET.tag x0) (mpd "BaseURL"))%bool ->
  staged lic st' su' bu' b x0 x.
Proof.
  intros (H1 & H2 & H3 & H4 & H5) _ Hattr Hbu. unfold staged.
  rewrite Hbu. repeat split; try assumption.
  intros k. rewrite Hattr. apply H4.
Qed.

End Effect.

(** An element of the manifest and what [rewrite_mpd_manifest] makes of
    it: the tag, the tail and the names of the attributes stay; the
    [media] and [initialization] values of a SegmentTemplate and the
    [media] value of a SegmentURL become proxy URLs, every other
    attribute keeps its value; the text of a BaseURL becomes a proxy URL,
    the text of a child of a ContentProtection whose tag holds [Laurl]
    becomes a licence URL of the proxy, every other text stays. *)
Definition rewritten_element {L : PyLib}
  (base_url proxy_base header_params : string) (under_cp : bool)
  (x x' : ET.element) : Prop :=
  ET.tag x' = ET.tag x
  /\ ET.tail x' = ET.tail x
  /\ map fst (ET.attrib x') = map fst (ET.attrib x)
  /\ (forall k, if url_attr true true (ET.tag x) k
                then url_value base_url proxy_base header_params
                       (ET.get x k) (ET.get x' k)
                else ET.get x' k = ET.get x k)
  /\ (if String.eqb (ET.tag x) (mpd "BaseURL")
      then url_value base_url proxy_base header_params (ET.text x) (ET.text x')
      else if under_cp && Py.contains "Laurl" (ET.tag x)
           then license_value proxy_base header_params (ET.text x) (ET.text x')
           else ET.text x' = ET.text x).

(** X10.  When [rewrite_mpd_manifest] gets through, the tree it
    serializes is the parsed tree after the ClearKey injection, with the
    same elements at the same places and the root as it was; below the
    root every element is a [rewritten_element] of its original: URLs
    become proxy URLs and nothing else changes.  A [clearkey] that is
    absent, empty or not of the form [kid:key] leaves the parsed tree
    without injection. *)
Theorem mpd_rewrite_changes_urls_only {L : PyLib}
  (root root' : ET.element) (base_url proxy_base : string)
  (stream_headers : ManifestRewriter.headers)
  (clearkey_param api_password : option string) :
  ManifestRewriter.rewrite_root root base_url proxy_base stream_headers
    clearkey_param api_password = Ok root' ->
  let injected :=
    ManifestRewriter.inject_clearkey proxy_base clearkey_param api_password
      root in
  let header_params :=
    ManifestRewriter.header_params stream_headers api_password in
  same_fields root root'
  /\ related (rewritten_element base_url proxy_base header_params) false
       injected root'
  /\ (match clearkey_param with
      | Some param => List.length (Py.split ":" param) <> 2%nat
      | None => True
      end -> injected = root).
Proof.
  intros H injected header_params.
  unfold ManifestRewriter.rewrite_root in H.
  fold injected header_params in H.
  apply bind_ok in H as (r2 & H2 & H).
  apply bind_ok in H as (r3 & H3 & H4).
  pose proof (proj1 (rewrite_licenses_related base_url proxy_base
                       header_params injected)) as H1.
  cbv zeta in H1.
  fold (ManifestRewriter.rewrite_licenses proxy_base header_params injected)
    in H1.
  split; [| split].
  - pose proof (try_update_descendants_fields _ _ _ H2) as (A1 & A2 & A3 & A4).
    pose proof (try_update_descendants_fields _ _ _ H3) as (B1 & B2 & B3 & B4).
    pose proof (try_update_descendants_fields _ _ _ H4) as (C1 & C2 & C3 & C4).
    assert (Hinj : same_fields root injected).
    { subst injected. unfold ManifestRewriter.inject_clearkey.
      destruct clearkey_param as [[| c p] |]; try (repeat split; reflexivity).
      destruct (Py.split ":" (String c p)) as [| k1 [| k2 [| k3 r]]];
        try (repeat split; reflexivity).
      apply update_descendants_fields. }
    destruct Hinj as (I1 & I2 & I3 & I4).
    unfold ManifestRewriter.rewrite_licenses in *.
    destruct (update_descendants_fields
                (ManifestRewriter.on_tag (mpd "ContentProtection")
                   (fun cp => ET.set_children cp
                      (map (ManifestRewriter.rewrite_license_child proxy_base
                              header_params) (ET.children cp))))
                injected) as (L1 & L2 & L3 & L4).
    repeat split; congruence.
  - assert (R2 : related (staged base_url proxy_base header_params
                            true true false false) false injected r2).
    { eapply try_pass_related
        with (R := staged base_url proxy_base header_params
                     true false false false);
        [| | | | exact H1 | exact H2].
      - intros b x0 x y. apply staged_fields.
      - intros x x' Hh.
        unfold ManifestRewriter.rewrite_segment_template in Hh.
        apply bind_ok in Hh as (x1 & Hm & Hi).
        apply rewrite_attr_effect in Hm as (_ & _ & _ & Hc1 & _).
        apply rewrite_attr_effect in Hi as (_ & _ & _ & Hc2 & _).
        congruence.
      - intros b x0 x x'. apply segment_template_pass.
      - intros b x0 x Hx Htag.
        eapply staged_miss; [exact Hx | exact Htag | | reflexivity].
        intros k. unfold url_attr. cbn [andb orb].
        pose proof Hx as (X1 & _). unfold ET.has_tag in Htag.
        rewrite X1 in Htag. rewrite Htag. reflexivity. }
    assert (R3 : related (staged base_url proxy_base header_params
                            true true true false) false injected r3).
    { eapply try_pass_related
        with (R := staged base_url proxy_base header_params
                     true true false false);
        [| | | | exact R2 | exact H3].
      - intros b x0 x y. apply staged_fields.
      - intros x x' Hh.
        apply rewrite_attr_effect in Hh as (_ & _ & _ & Hc & _). exact Hc.
      - intros b x0 x x'. apply segment_url_pass.
      - intros b x0 x Hx Htag.
        eapply staged_miss; [exact Hx | exact Htag | | reflexivity].
        intros k. unfold url_attr. cbn [andb orb].
        pose proof Hx as (X1 & _). unfold ET.has_tag in Htag.
        rewrite X1 in Htag. rewrite Htag. reflexivity. }
    eapply try_pass_related
      with (R := staged base_url proxy_base header_params
                   true true true false);
      [| | | | exact R3 | exact H4].
    + intros b x0 x y. apply staged_fields.
    + intros x x' Hh. unfold ManifestRewriter.rewrite_base_url_tag in Hh.
      destruct (ET.text x) as [[| c v] |]; try (injection Hh as <-; reflexivity).
      apply bind_ok in Hh as (u & _ & Hh). injection Hh as <-.
      destruct x; reflexivity.
    + intros b x0 x x'. apply base_url_pass.
    + intros b x0 x Hx Htag.
      pose proof Hx as (X1 & X2 & X3 & X4 & X5).
      unfold ET.has_tag in Htag. rewrite X1 in Htag.
      unfold rewritten_element. rewrite Htag.
      rewrite Htag in X5. cbn [andb] in X5.
      repeat split; assumption.
  - subst injected. unfold ManifestRewriter.inject_clearkey.
    destruct clearkey_param as [[| c p] |]; try reflexivity.
    destruct (Py.split ":" (String c p)) as [| k1 [| k2 [| k3 r]]];
      try reflexivity.
    cbn. intros Hlen. congruence.
Qed.

Lemma mpd_rewrite_changes_urls_only_witness :
  same_fields drm_root drm_once
  /\ related (rewritten_element (L := example_lib (example_parser []))
                "http://o/vod/" "http://p" "")
       false
       (ManifestRewriter.inject_clearkey "http://p" (Some drm_clearkey) None
          drm_root)
       drm_once
  /\ (List.length (Py.split ":" drm_clearkey) <> 2%nat ->
      ManifestRewriter.inject_clearkey "http://p" (Some drm_clearkey) None
        drm_root = drm_root).
Proof.
  apply (mpd_rewrite_changes_urls_only (L := example_lib (example_parser []))
           drm_root drm_once "http://o/vod/" "http://p" []
           (Some drm_clearkey) None).
  vm_compute. reflexivity.
Defined.

(** *** When the rewriting gets through *)

Section Totality.
Context {L : PyLib}.
Import ManifestRewriter.




End Totality.




(** *** The other DRM systems *)

Section OtherDrm.
Import ManifestRewriter.

Local Abbreviation same := (fun t : string => t).

(** A ContentProtection child with the ClearKey scheme, in the DASH
    namespace or bare as the injection writes it. *)
Definition is_clearkey_child (c : ET.element) : bool :=
  ((is_content_protection c || ET.has_tag "ContentProtection" c)
   && is_clearkey_entry c)%bool.

(** An AdaptationSet as the injection leaves it. *)
Definition clearkey_only (x : ET.element) : Prop :=
  Forall (fun c => is_content_protection c = true -> names_clearkey c = true)
         (ET.children x)
  /\ Exists (fun c => is_clearkey_child c = true) (ET.children x).

Lemma all_below_trivial (e : ET.element) : all_below (fun _ => True) e.
Proof.
  apply all_below_descendants, Forall_forall. trivial.
Qed.

Lemma inject_adaptation_set_clearkey_only (cp x : ET.element) :
  is_content_protection cp = false ->
  is_clearkey_child cp = true ->
  clearkey_only (inject_adaptation_set cp x).
Proof.
  intros Hcp Hchild. destruct x as [t a tx tl cs].
  unfold inject_adaptation_set, clearkey_only.
  cbn [ET.children ET.set_children].
  set (kept := filter (fun c => negb (is_content_protection c
                                      && negb (names_clearkey c))) cs).
  assert (Hkept : Forall (fun c => is_content_protection c = true ->
                                   names_clearkey c = true) kept).
  { apply Forall_forall. intros c Hc. apply filter_In in Hc as [_ Hc].
    intros Hp. rewrite Hp in Hc. cbn in Hc.
    apply negb_true_iff, negb_false_iff in Hc. exact Hc. }
  destruct (existsb (fun c => is_content_protection c && is_clearkey_entry c)
                    kept) eqn:Hexists; cbn [negb].
  - split; [exact Hkept |].
    apply existsb_exists in Hexists as (c & Hin & Hc).
    apply Exists_exists. exists c. split; [exact Hin |].
    apply andb_true_iff in Hc as [Hc1 Hc2].
    unfold is_clearkey_child. rewrite Hc1, Hc2. reflexivity.
  - split.
    + constructor; [rewrite Hcp; discriminate | exact Hkept].
    + apply Exists_cons_hd, Hchild.
Qed.

Lemma Forall2_Forall {A B : Type} (R : A -> B -> Prop) (P : A -> Prop)
  (Q : B -> Prop) (l : list A) (l' : list B) :
  (forall a b, R a b -> P a -> Q b) ->
  Forall2 R l l' -> Forall P l -> Forall Q l'.
Proof.
  intros H. induction 1 as [| a b r r' Hab _ IH]; intros Hl; [constructor |].
  inversion Hl; subst. constructor; eauto.
Qed.

Lemma Forall2_Exists {A B : Type} (R : A -> B -> Prop) (P : A -> Prop)
  (Q : B -> Prop) (l : list A) (l' : list B) :
  (forall a b, R a b -> P a -> Q b) ->
  Forall2 R l l' -> Exists P l -> Exists Q l'.
Proof.
  intros H. induction 1 as [| a b r r' Hab _ IH]; intros Hl;
    inversion Hl; subst; [apply Exists_cons_hd | apply Exists_cons_tl]; eauto.
Qed.

Lemma clearkey_only_alike (x x' : ET.element) :
  alike same x x' -> clearkey_only x -> clearkey_only x'.
Proof.
  intros [_ Hcs] [Hall Hex]. unfold clearkey_only.
  assert (Hsig : forall d d', same_sig same d d' ->
             is_content_protection d' = is_content_protection d
             /\ names_clearkey d' = names_clearkey d
             /\ is_clearkey_child d' = is_clearkey_child d).
  { intros d d' [Ht Hs].
    unfold is_clearkey_child, is_content_protection, names_clearkey,
      is_clearkey_entry, ET.get_default, ET.has_tag.
    fold (scheme d) (scheme d'). rewrite Hs, Ht. auto. }
  split.
  - eapply Forall2_Forall; [| exact Hcs | exact Hall].
    intros d d' Hd. destruct (Hsig d d' Hd) as (-> & -> & _). trivial.
  - eapply Forall2_Exists; [| exact Hcs | exact Hex].
    intros d d' Hd. destruct (Hsig d d' Hd) as (_ & _ & ->). trivial.
Qed.

End OtherDrm.

(** X12.  After a rewriting with a [clearkey] of the form [kid:key],
    every AdaptationSet holds a ContentProtection with the ClearKey
    scheme URI, and the ContentProtection children it holds in the DASH
    namespace all name the ClearKey UUID in their [schemeIdUri]: those
    of Widevine, PlayReady and any other system are removed. *)
Theorem clearkey_injection_removes_other_drm {L : PyLib}
  (root root' : ET.element) (base_url proxy_base : string)
  (stream_headers : ManifestRewriter.headers)
  (clearkey kid_hex key_hex : string) (api_password : option string) :
  Py.split ":" clearkey = [kid_hex; key_hex] ->
  ManifestRewriter.rewrite_root root base_url proxy_base stream_headers
    (Some clearkey) api_password = Ok root' ->
  Forall clearkey_only (ET.findall_deep root' (mpd "AdaptationSet")).
Proof.
  intros Hsplit Hrun.
  apply rewrite_root_shape in Hrun.
  rewrite (inject_clearkey_split _ _ _ _ _ root Hsplit) in Hrun.
  apply all_below_adaptation_sets.
  eapply (shape_all_below _
            (fun y => is_adaptation_set y = true -> clearkey_only y)
            (fun y => is_adaptation_set y = true -> clearkey_only y));
    [| exact Hrun |].
  - intros x x' Halike Hx Htag.
    destruct (entries_alike x x' Halike) as (_ & _ & Has).
    rewrite Has in Htag. eapply clearkey_only_alike; eauto.
  - apply (update_descendants_all_below _ (fun _ => True));
      [apply on_tag_sig | | apply all_below_trivial].
    intros c x _ _ Hbelow. unfold ManifestRewriter.on_tag.
    fold (is_adaptation_set x).
    destruct (is_adaptation_set x) eqn:Hx; [| split; [congruence | exact Hbelow]].
    split.
    + intros _. apply inject_adaptation_set_clearkey_only; reflexivity.
    + apply all_below_children. apply all_below_children in Hbelow.
      destruct x as [t a tx tl cs].
      unfold ManifestRewriter.inject_adaptation_set.
      cbn [ET.children ET.set_children] in *.
      set (kept := filter _ cs).
      assert (Hkept : Forall (fun c =>
                  (is_adaptation_set c = true -> clearkey_only c)
                  /\ all_below (fun y => is_adaptation_set y = true ->
                                         clearkey_only y) c) kept).
      { eapply Forall_incl; [| exact Hbelow].
        intros d Hd. apply filter_In in Hd. tauto. }
      destruct (negb _); [| exact Hkept].
      constructor; [| exact Hkept].
      split; [intros Hset; discriminate Hset |].
      cbn. repeat split; try congruence; try (intros Hset; discriminate Hset).
Qed.

Lemma clearkey_injection_removes_other_drm_witness :
  Forall clearkey_only (ET.findall_deep drm_once (mpd "AdaptationSet")).
Proof.
  apply (clearkey_injection_removes_other_drm
           (L := example_lib (example_parser []))
           drm_root drm_once "http://o/vod/" "http://p" [] drm_clearkey
           "0123456789abcdef0123456789abcdef"
           "00112233445566778899aabbccddeeff" None).
  - reflexivity.
  - vm_compute. reflexivity.
Defined.

(** * The master playlist: [convert_master_playlist]

    The other method of [MPDToHLSConverter] in [utils/mpd_converter.py]. *)

Module MasterPlaylist.

Section Converter.
Context {L : PyLib}.

(** [f"{v}"] for a value that [element.get] returned: [None] is
    written out. *)
Definition fstr (v : option string) : string :=
  match v with
  | Some s => s
  | None => "None"
  end.

(** ['video' in mime_type or 'video' in content_type], and the same for
    ['audio']. *)
Definition mentions (kind : string) (adaptation_set : ET.element) : bool :=
  (Py.contains kind (ET.get_default adaptation_set "mimeType" "")
   || Py.contains kind (ET.get_default adaptation_set "contentType" ""))%bool.

(** The body of the first loop, on [(video_sets, audio_sets)]. *)
Definition detect_by_type (sets : list ET.element * list ET.element)
  (adaptation_set : ET.element) : list ET.element * list ET.element :=
  let '(video_sets, audio_sets) := sets in
  if mentions "video" adaptation_set
  then (video_sets +++ [adaptation_set], audio_sets)
  else if mentions "audio" adaptation_set
       then (video_sets, audio_sets +++ [adaptation_set])
       else sets.

(** [adaptation_set.find('mpd:Representation[@mimeType="..."]', self.ns)
    is not None] *)
Definition has_representation (mime : string) (adaptation_set : ET.element)
  : bool :=
  match ET.find_with_attr adaptation_set (mpd "Representation") "mimeType" mime
  with
  | Some _ => true
  | None => false
  end.

(** The body of the fallback loop. *)
Definition detect_by_representation (sets : list ET.element * list ET.element)
  (adaptation_set : ET.element) : list ET.element * list ET.element :=
  let '(video_sets, audio_sets) := sets in
  if has_representation "video/mp4" adaptation_set
  then (video_sets +++ [adaptation_set], audio_sets)
  else if has_representation "audio/mp4" adaptation_set
       then (video_sets, audio_sets +++ [adaptation_set])
       else sets.

(** The two loops: the second runs [if not video_sets and not
    audio_sets]. *)
Definition detect (adaptation_sets : list ET.element)
  : list ET.element * list ET.element :=
  match fold_left detect_by_type adaptation_sets ([], []) with
  | ([], []) => fold_left detect_by_representation adaptation_sets ([], [])
  | sets => sets
  end.

Definition audio_group_id : string := "audio".

(** [media_url], the same expression in the audio and in the video loop. *)
Definition media_url (proxy_base original_url params : string)
  (representation : ET.element) : string :=
  proxy_base ++ "/proxy/hls/manifest.m3u8?d=" ++ Py.quote_all original_url
  ++ "&format=hls&rep_id=" ++ fstr (ET.get representation "id") ++ params.

(** The [#EXT-X-MEDIA] line of an audio Representation. *)
Definition ext_x_media (proxy_base original_url params : string)
  (has_audio : bool) (adaptation_set representation : ET.element) : string :=
  let bandwidth := ET.get_default representation "bandwidth" "128000" in
  let lang := ET.get_default adaptation_set "lang" "und" in
  let name := "Audio " ++ lang ++ " (" ++ bandwidth ++ ")" in
  let default_attr := if negb has_audio then "YES" else "NO" in
  "#EXT-X-MEDIA:TYPE=AUDIO,GROUP-ID=" ++ dquote ++ audio_group_id ++ dquote
  ++ ",NAME=" ++ dquote ++ name ++ dquote
  ++ ",LANGUAGE=" ++ dquote ++ lang ++ dquote
  ++ ",DEFAULT=" ++ default_attr ++ ",AUTOSELECT=YES,URI=" ++ dquote
  ++ media_url proxy_base original_url params representation ++ dquote.

(** The body of the inner audio loop, on [(lines, has_audio)]. *)
Definition audio_step (proxy_base original_url params : string)
  (adaptation_set : ET.element) (st : list string * bool)
  (representation : ET.element) : list string * bool :=
  let '(lines, has_audio) := st in
  (lines +++ [ext_x_media proxy_base original_url params has_audio
                adaptation_set representation],
   true).

Definition audio_loop (proxy_base original_url params : string)
  (audio_sets : list ET.element) (st : list string * bool)
  : list string * bool :=
  fold_left
    (fun st adaptation_set =>
       fold_left (audio_step proxy_base original_url params adaptation_set)
         (ET.findall adaptation_set (mpd "Representation")) st)
    audio_sets st.

(** The [#EXT-X-STREAM-INF] line of a video Representation. *)
Definition ext_x_stream_inf (has_audio : bool) (representation : ET.element)
  : string :=
  let bandwidth := ET.get representation "bandwidth" in
  let width := ET.get representation "width" in
  let height := ET.get representation "height" in
  let frame_rate := ET.get representation "frameRate" in
  let codecs := ET.get representation "codecs" in
  let inf := "#EXT-X-STREAM-INF:BANDWIDTH=" ++ fstr bandwidth in
  let inf := if (Py.truthy width && Py.truthy height)%bool
             then inf ++ ",RESOLUTION=" ++ fstr width ++ "x" ++ fstr height
             else inf in
  let inf := if Py.truthy frame_rate
             then inf ++ ",FRAME-RATE=" ++ fstr frame_rate else inf in
  let inf := if Py.truthy codecs
             then inf ++ ",CODECS=" ++ dquote ++ fstr codecs ++ dquote
             else inf in
  if has_audio then inf ++ ",AUDIO=" ++ dquote ++ audio_group_id ++ dquote
  else inf.

(** The body of the inner video loop. *)
Definition video_step (proxy_base original_url params : string)
  (has_audio : bool) (lines : list string) (representation : ET.element)
  : list string :=
  lines +++ [ext_x_stream_inf has_audio representation;
             media_url proxy_base original_url params representation].

Definition video_loop (proxy_base original_url params : string)
  (has_audio : bool) (video_sets : list ET.element) (lines : list string)
  : list string :=
  fold_left
    (fun lines adaptation_set =>
       fold_left (video_step proxy_base original_url params has_audio)
         (ET.findall adaptation_set (mpd "Representation")) lines)
    video_sets lines.

(** The lines of the playlist, from the parsed root. *)
Definition master_lines (root : ET.element)
  (proxy_base original_url params : string) : list string :=
  let '(video_sets, audio_sets) :=
    detect (ET.findall_deep root (mpd "AdaptationSet")) in
  let '(lines, has_audio) :=
    audio_loop proxy_base original_url params audio_sets
      (["#EXTM3U"; "#EXT-X-VERSION:3"], false) in
  video_loop proxy_base original_url params has_audio video_sets lines.

(** [convert_master_playlist(manifest_content, proxy_base, original_url,
    params)] *)
Definition convert_master_playlist (manifest_content proxy_base original_url
  params : string) : string :=
  match fromstring (add_default_namespace manifest_content) with
  | Ok root => Py.join nl (master_lines root proxy_base original_url params)
  | Raise e => "#EXTM3U" ++ nl ++ "#EXT-X-ERROR: " ++ exn_text e
  end.

End Converter.

End MasterPlaylist.

(** ** The layout of the master playlist *)

Section MasterLayout.
Context {L : PyLib}.
Import MasterPlaylist.

(** The sets the detection keeps, as two selections of the
    AdaptationSets in document order: by the type the set declares when
    any set declares one, by the type of its Representations otherwise.
    Video is tested first. *)
Definition video_sets_of (adaptation_sets : list ET.element)
  : list ET.element :=
  if existsb (fun a => mentions "video" a || mentions "audio" a)
       adaptation_sets
  then filter (mentions "video") adaptation_sets
  else filter (has_representation "video/mp4") adaptation_sets.

Definition audio_sets_of (adaptation_sets : list ET.element)
  : list ET.element :=
  if existsb (fun a => mentions "video" a || mentions "audio" a)
       adaptation_sets
  then filter (fun a => negb (mentions "video" a) && mentions "audio" a)
         adaptation_sets
  else filter (fun a => negb (has_representation "video/mp4" a)
                        && has_representation "audio/mp4" a)
         adaptation_sets.

(** The Representations of a list of sets, each with its set. *)
Definition representations_of (sets : list ET.element)
  : list (ET.element * ET.element) :=
  flat_map (fun a => map (pair a) (ET.findall a (mpd "Representation"))) sets.

(** The audio lines: the first is the default rendition. *)
Definition audio_lines (proxy_base original_url params : string)
  (reps : list (ET.element * ET.element)) : list string :=
  match reps with
  | [] => []
  | (a, r) :: rest =>
      ext_x_media proxy_base original_url params false a r
      :: map (fun ar => ext_x_media proxy_base original_url params true
                          (fst ar) (snd ar)) rest
  end.

(** The video lines: a tag and a URL for each Representation. *)
Definition video_lines (proxy_base original_url params : string)
  (has_audio : bool) (reps : list (ET.element * ET.element)) : list string :=
  flat_map (fun ar => [ext_x_stream_inf has_audio (snd ar);
                       media_url proxy_base original_url params (snd ar)])
           reps.

Lemma fold_selection (pv pa : ET.element -> bool)
  (step : list ET.element * list ET.element -> ET.element
          -> list ET.element * list ET.element) :
  (forall v a x, step (v, a) x
                 = if pv x then (v +++ [x], a)
                   else if pa x then (v, a +++ [x]) else (v, a)) ->
  forall sets v a,
    fold_left step sets (v, a)
    = (v +++ filter pv sets,
       a +++ filter (fun x => negb (pv x) && pa x) sets).
Proof.
  intros Hstep sets. induction sets as [| x r IH]; intros v a; cbn [fold_left filter].
  - rewrite !app_nil_r. reflexivity.
  - rewrite Hstep. destruct (pv x); cbn [negb andb].
    + rewrite IH, <- app_assoc. reflexivity.
    + destruct (pa x); rewrite IH; [rewrite <- app_assoc |]; reflexivity.
Qed.

Lemma filter_nil_existsb {A : Type} (p : A -> bool) (l : list A) :
  filter p l = [] <-> existsb p l = false.
Proof.
  induction l as [| x r IH]; cbn; [tauto |].
  destruct (p x); cbn; [split; discriminate | exact IH].
Qed.

Lemma detect_selection (adaptation_sets : list ET.element) :
  detect adaptation_sets
  = (video_sets_of adaptation_sets, audio_sets_of adaptation_sets).
Proof.
  unfold detect, video_sets_of, audio_sets_of.
  rewrite (fold_selection (mentions "video") (mentions "audio"))
    by reflexivity.
  rewrite (fold_selection (has_representation "video/mp4")
             (has_representation "audio/mp4")) by reflexivity.
  cbn [app].
  destruct (existsb (fun a => mentions "video" a || mentions "audio" a)
              adaptation_sets) eqn:Hany.
  - destruct (filter (mentions "video") adaptation_sets) as [| v vs] eqn:Hv;
      [| reflexivity].
    destruct (filter (fun x => negb (mentions "video" x) && mentions "audio" x)
                adaptation_sets) as [| a0 as_] eqn:Ha; [| reflexivity].
    exfalso. apply filter_nil_existsb in Hv, Ha.
    apply existsb_exists in Hany as (x & Hin & Hx).
    assert (Hvx : mentions "video" x = false).
    { destruct (mentions "video" x) eqn:E; [| reflexivity].
      rewrite <- Hv. symmetry. apply existsb_exists. eauto. }
    rewrite Hvx in Hx. cbn [orb] in Hx.
    assert (existsb (fun x => negb (mentions "video" x) && mentions "audio" x)
              adaptation_sets = true).
    { apply existsb_exists. exists x. rewrite Hvx, Hx. auto. }
    congruence.
  - assert (Hv : filter (mentions "video") adaptation_sets = []).
    { apply filter_nil_existsb.
      destruct (existsb (mentions "video") adaptation_sets) eqn:E;
        [| reflexivity].
      apply existsb_exists in E as (x & Hin & Hx).
      rewrite <- Hany. symmetry. apply existsb_exists. exists x.
      rewrite Hx. auto. }
    assert (Ha : filter (fun x => negb (mentions "video" x)
                                  && mentions "audio" x) adaptation_sets = []).
    { apply filter_nil_existsb.
      destruct (existsb (fun x => negb (mentions "video" x)
                                  && mentions "audio" x) adaptation_sets)
        eqn:E; [| reflexivity].
      apply existsb_exists in E as (x & Hin & Hx).
      apply andb_true_iff in Hx as [_ Hx].
      rewrite <- Hany. symmetry. apply existsb_exists. exists x.
      rewrite Hx, orb_true_r. auto. }
    rewrite Hv, Ha. reflexivity.
Qed.

Lemma fold_left_flat_map {A B S : Type} (f : S -> B -> S) (g : A -> list B)
  (l : list A) (st : S) :
  fold_left (fun st x => fold_left f (g x) st) l st
  = fold_left f (flat_map g l) st.
Proof.
  revert st. induction l as [| x r IH]; intros st; cbn [fold_left flat_map].
  - reflexivity.
  - rewrite fold_left_app. apply IH.
Qed.

Lemma audio_loop_lines (proxy_base original_url params : string)
  (audio_sets : list ET.element) (lines : list string) :
  audio_loop proxy_base original_url params audio_sets (lines, false)
  = (lines +++ audio_lines proxy_base original_url params
                 (representations_of audio_sets),
     negb (Nat.eqb (List.length (representations_of audio_sets)) 0)).
Proof.
  unfold audio_loop.
  assert (Hpairs : forall sets st,
             fold_left
               (fun st a =>
                  fold_left (audio_step proxy_base original_url params a)
                    (ET.findall a (mpd "Representation")) st) sets st
             = fold_left
                 (fun st ar => audio_step proxy_base original_url params
                                 (fst ar) st (snd ar))
                 (representations_of sets) st).
  { intros sets. unfold representations_of.
    induction sets as [| a r IH]; intros st; cbn [fold_left flat_map];
      [reflexivity |].
    rewrite fold_left_app, IH. f_equal.
    generalize (ET.findall a (mpd "Representation")) as reps. clear.
    intros reps. revert st.
    induction reps as [| x r IH]; intros st; cbn [fold_left map];
      [reflexivity | apply IH]. }
  rewrite Hpairs. generalize (representations_of audio_sets) as reps.
  assert (Hrest : forall reps lines0,
             fold_left
               (fun st ar => audio_step proxy_base original_url params
                               (fst ar) st (snd ar)) reps (lines0, true)
             = (lines0 +++ map (fun ar => ext_x_media proxy_base original_url
                                            params true (fst ar) (snd ar)) reps,
                true)).
  { induction reps as [| [a r] rest IH]; intros lines0; cbn [fold_left map].
    - rewrite app_nil_r. reflexivity.
    - cbn [audio_step fst snd]. rewrite IH, <- app_assoc. reflexivity. }
  intros [| [a r] rest]; cbn [fold_left audio_lines List.length Nat.eqb negb].
  - rewrite app_nil_r. reflexivity.
  - cbn [audio_step fst snd]. rewrite Hrest, <- app_assoc. reflexivity.
Qed.

Lemma video_loop_lines (proxy_base original_url params : string)
  (has_audio : bool) (video_sets : list ET.element) (lines : list string) :
  video_loop proxy_base original_url params has_audio video_sets lines
  = lines +++ video_lines proxy_base original_url params has_audio
                (representations_of video_sets).
Proof.
  unfold video_loop, video_lines, representations_of. revert lines.
  induction video_sets as [| a r IH]; intros lines; cbn [fold_left flat_map].
  - rewrite app_nil_r. reflexivity.
  - rewrite IH, flat_map_app, app_assoc. f_equal.
    generalize (ET.findall a (mpd "Representation")) as reps.
    intros reps. revert lines.
    induction reps as [| x rest IHr]; intros lines; cbn [fold_left map flat_map].
    + rewrite app_nil_r. reflexivity.
    + rewrite IHr. unfold video_step. rewrite <- app_assoc. reflexivity.
Qed.

Lemma master_lines_layout (root : ET.element)
  (proxy_base original_url params : string) :
  let sets := ET.findall_deep root (mpd "AdaptationSet") in
  let audio := representations_of (audio_sets_of sets) in
  let video := representations_of (video_sets_of sets) in
  master_lines root proxy_base original_url params
  = ["#EXTM3U"; "#EXT-X-VERSION:3"]
    +++ audio_lines proxy_base original_url params audio
    +++ video_lines proxy_base original_url params
          (negb (Nat.eqb (List.length audio) 0)) video.
Proof.
  intros sets audio video. unfold master_lines. fold sets.
  rewrite detect_selection, audio_loop_lines, video_loop_lines.
  rewrite <- app_assoc. reflexivity.
Qed.

End MasterLayout.

(** X13.  When the manifest parses, the master playlist is [#EXTM3U],
    [#EXT-X-VERSION:3], one [#EXT-X-MEDIA] line for each Representation
    of the audio sets -- the first with [DEFAULT=YES], the others with
    [DEFAULT=NO] -- and then, for each Representation of the video sets,
    an [#EXT-X-STREAM-INF] line and the URL of its media playlist; the
    video lines name the audio group exactly when there is an audio
    line.  The sets are taken in document order, by the type they
    declare if any set declares one, by the type of their
    Representations otherwise, video first.  Nothing but the parse can
    fail. *)
Theorem master_playlist_layout {L : PyLib}
  (manifest_content proxy_base original_url params : string)
  (root : ET.element) :
  fromstring (add_default_namespace manifest_content) = Ok root ->
  let sets := ET.findall_deep root (mpd "AdaptationSet") in
  let audio := representations_of (audio_sets_of sets) in
  let video := representations_of (video_sets_of sets) in
  let has_audio := negb (Nat.eqb (List.length audio) 0) in
  MasterPlaylist.convert_master_playlist manifest_content proxy_base
    original_url params
  = Py.join nl
      (["#EXTM3U"; "#EXT-X-VERSION:3"]
       +++ audio_lines proxy_base original_url params audio
       +++ video_lines proxy_base original_url params has_audio video)
  /\ List.length
       (MasterPlaylist.master_lines root proxy_base original_url params)
     = (2 + List.length audio + 2 * List.length video)%nat.
Proof.
  intros Hparse sets audio video has_audio.
  assert (Hlines :
            MasterPlaylist.master_lines root proxy_base original_url params
            = ["#EXTM3U"; "#EXT-X-VERSION:3"]
              +++ audio_lines proxy_base original_url params audio
              +++ video_lines proxy_base original_url params has_audio video).
  { apply master_lines_layout. }
  split.
  - unfold MasterPlaylist.convert_master_playlist.
    rewrite Hparse, Hlines. reflexivity.
  - rewrite Hlines, !length_app. cbn [List.length].
    assert (Ha : List.length (audio_lines proxy_base original_url params audio)
                 = List.length audio).
    { destruct audio as [| [a r] rest]; [reflexivity |].
      cbn [audio_lines List.length]. rewrite length_map. reflexivity. }
    assert (Hv : List.length
                   (video_lines proxy_base original_url params has_audio video)
                 = (2 * List.length video)%nat).
    { unfold video_lines. generalize video as reps.
      induction reps as [| x r IH]; [reflexivity |].
      cbn [flat_map app List.length]. rewrite IH. lia. }
    rewrite Ha, Hv. lia.
Qed.

(** A manifest with one video set of two Representations and two audio
    sets; the second audio Representation has no [id]. *)
Definition two_audio_root : ET.element :=
  ET.Element (mpd "MPD") [("type", "static")] None None
    [ET.Element (mpd "Period") [] None None
       [ET.Element (mpd "AdaptationSet")
          [("mimeType", "video/mp4")] None None
          [ET.Element (mpd "Representation")
             [("id", "v1"); ("bandwidth", "800000"); ("width", "640");
              ("height", "360"); ("codecs", "avc1.4d401e")] None None [];
           ET.Element (mpd "Representation")
             [("id", "v2"); ("bandwidth", "2400000"); ("frameRate", "25")]
             None None []];
        ET.Element (mpd "AdaptationSet")
          [("contentType", "audio"); ("lang", "it")] None None
          [ET.Element (mpd "Representation")
             [("id", "a1"); ("bandwidth", "96000")] None None []];
        ET.Element (mpd "AdaptationSet")
          [("mimeType", "audio/mp4")] None None
          [ET.Element (mpd "Representation") [] None None []]]].

Definition two_audio_text : string :=
  "<MPD xmlns='urn:mpeg:dash:schema:mpd:2011' type='static'><Period>"
  ++ "<AdaptationSet mimeType='video/mp4'>"
  ++ "<Representation id='v1' bandwidth='800000' width='640' height='360' codecs='avc1.4d401e'/>"
  ++ "<Representation id='v2' bandwidth='2400000' frameRate='25'/>"
  ++ "</AdaptationSet>"
  ++ "<AdaptationSet contentType='audio' lang='it'>"
  ++ "<Representation id='a1' bandwidth='96000'/></AdaptationSet>"
  ++ "<AdaptationSet mimeType='audio/mp4'><Representation/></AdaptationSet>"
  ++ "</Period></MPD>".

Definition two_audio_lib : PyLib :=
  example_lib (example_parser [(two_audio_text, two_audio_root)]).

Definition two_audio_master : string :=
  "#EXTM3U" ++ nl ++ "#EXT-X-VERSION:3" ++ nl
  ++ "#EXT-X-MEDIA:TYPE=AUDIO,GROUP-ID=" ++ dquote ++ "audio" ++ dquote
  ++ ",NAME=" ++ dquote ++ "Audio it (96000)" ++ dquote
  ++ ",LANGUAGE=" ++ dquote ++ "it" ++ dquote
  ++ ",DEFAULT=YES,AUTOSELECT=YES,URI=" ++ dquote
  ++ "http://p/proxy/hls/manifest.m3u8?d=http%3A%2F%2Fo%2Fa.mpd&format=hls&rep_id=a1&k=1"
  ++ dquote ++ nl
  ++ "#EXT-X-MEDIA:TYPE=AUDIO,GROUP-ID=" ++ dquote ++ "audio" ++ dquote
  ++ ",NAME=" ++ dquote ++ "Audio und (128000)" ++ dquote
  ++ ",LANGUAGE=" ++ dquote ++ "und" ++ dquote
  ++ ",DEFAULT=NO,AUTOSELECT=YES,URI=" ++ dquote
  ++ "http://p/proxy/hls/manifest.m3u8?d=http%3A%2F%2Fo%2Fa.mpd&format=hls&rep_id=None&k=1"
  ++ dquote ++ nl
  ++ "#EXT-X-STREAM-INF:BANDWIDTH=800000,RESOLUTION=640x360,CODECS="
  ++ dquote ++ "avc1.4d401e" ++ dquote ++ ",AUDIO=" ++ dquote ++ "audio"
  ++ dquote ++ nl
  ++ "http://p/proxy/hls/manifest.m3u8?d=http%3A%2F%2Fo%2Fa.mpd&format=hls&rep_id=v1&k=1"
  ++ nl
  ++ "#EXT-X-STREAM-INF:BANDWIDTH=2400000,FRAME-RATE=25,AUDIO=" ++ dquote
  ++ "audio" ++ dquote ++ nl
  ++ "http://p/proxy/hls/manifest.m3u8?d=http%3A%2F%2Fo%2Fa.mpd&format=hls&rep_id=v2&k=1".

Example master_playlist_example :
  MasterPlaylist.convert_master_playlist (L := two_audio_lib) two_audio_text
    "http://p" "http://o/a.mpd" "&k=1"
  = two_audio_master.
Proof. vm_compute. reflexivity. Qed.

Lemma master_playlist_layout_witness :
  let sets := ET.findall_deep two_audio_root (mpd "AdaptationSet") in
  let audio := representations_of (audio_sets_of sets) in
  let video := representations_of (video_sets_of sets) in
  let has_audio := negb (Nat.eqb (List.length audio) 0) in
  MasterPlaylist.convert_master_playlist (L := two_audio_lib) two_audio_text
    "http://p" "http://o/a.mpd" "&k=1"
  = Py.join nl
      (["#EXTM3U"; "#EXT-X-VERSION:3"]
       +++ audio_lines "http://p" "http://o/a.mpd" "&k=1" audio
       +++ video_lines "http://p" "http://o/a.mpd" "&k=1" has_audio video)
  /\ List.length
       (MasterPlaylist.master_lines two_audio_root "http://p" "http://o/a.mpd"
          "&k=1")
     = (2 + List.length audio + 2 * List.length video)%nat.
Proof.
  apply (master_playlist_layout (L := two_audio_lib) two_audio_text
           "http://p" "http://o/a.mpd" "&k=1" two_audio_root).
  vm_compute. reflexivity.
Defined.

(** ** Both converters answer with a playlist *)

Section Headed.
Context {F : PyFloat} {L : PyLib}.
Import MPDToHLSConverter.

(** The lines of a media playlist begin as [header_lines] does. *)
Definition headed (lines : list string) : Prop :=
  exists rest, lines = "#EXTM3U" :: "#EXT-X-VERSION:7" :: rest.

Lemma headed_app (lines more : list string) :
  headed lines -> headed (lines +++ more).
Proof. intros (rest & ->). exists (rest +++ more). reflexivity. Qed.

Lemma headed_insert (x : string) (lines : list string) :
  headed lines -> headed (list_insert 2 x lines).
Proof. intros (rest & ->). exists (x :: rest). reflexivity. Qed.

Lemma timeline_branch_headed (live : bool)
  (rep_id proxy_base params base_url : string) (media : option string)
  (ssd : bool) (enc dp : string) (timescale start_number : Z)
  (segment_timeline : ET.element) (lines out : list string) :
  timeline_branch live rep_id proxy_base params base_url media ssd enc dp
    timescale start_number segment_timeline lines = Ok out ->
  headed lines -> headed out.
Proof.
  unfold timeline_branch. intros H Hlines.
  apply bind_ok in H as (all & _ & H).
  apply bind_ok in H as ([segs lines'] & Hhead & H).
  apply bind_ok in H as (seg_lines & _ & H). injection H as <-.
  apply headed_app.
  destruct live, all as [| s0 rest];
    try (injection Hhead as _ <-; apply headed_app, Hlines).
  destruct (live_window (s0 :: rest)) as [| first others]; [discriminate |].
  injection Hhead as _ <-. apply headed_app, headed_insert, Hlines.
Qed.

Lemma template_branch_headed (live : bool)
  (root segment_template : ET.element)
  (rep_id proxy_base original_url params : string) (ssd : bool) (dp : string)
  (lines out : list string) :
  template_branch live root segment_template rep_id proxy_base original_url
    params ssd dp lines = Ok out ->
  headed lines -> headed out.
Proof.
  unfold template_branch. intros H Hlines.
  apply bind_ok in H as (timescale & _ & H).
  apply bind_ok in H as (start_number & _ & H).
  apply bind_ok in H as (base_url & _ & H).
  apply bind_ok in H as ([enc lines'] & Hinit & H).
  assert (Hlines' : headed lines').
  { destruct (ET.get segment_template "initialization") as [[| c t] |];
      try (injection Hinit as _ <-; exact Hlines).
    apply bind_ok in Hinit as (full_init_url & _ & Hinit).
    injection Hinit as _ <-.
    destruct ssd; cbn [negb]; [exact Hlines | apply headed_app, Hlines]. }
  destruct (ET.find segment_template (mpd "SegmentTimeline")).
  - eapply timeline_branch_headed; eassumption.
  - unfold duration_branch in H.
    apply bind_ok in H as (duration & _ & H).
    destruct (0 <? duration); [| injection H as <-; exact Hlines'].
    apply bind_ok in H as (period & _ & H).
    apply bind_ok in H as (duration_sec & _ & H).
    apply bind_ok in H as (seg_lines & _ & H). injection H as <-.
    apply headed_app, Hlines'.
Qed.

Lemma playlist_lines_headed (root representation adaptation_set : ET.element)
  (rep_id proxy_base original_url params : string)
  (clearkey_param : option string) (lines : list string) :
  playlist_lines root representation adaptation_set rep_id proxy_base
    original_url params clearkey_param = Ok lines ->
  headed lines.
Proof.
  unfold playlist_lines. intros H.
  destruct (parse_clearkey clearkey_param) as [ssd dp].
  apply bind_ok in H as (body & Hbody & H). injection H as <-.
  assert (Hheader : headed (header_lines (is_live root))).
  { destruct (is_live root); eexists; reflexivity. }
  assert (Hbody' : headed body).
  { destruct (match ET.find representation (mpd "SegmentTemplate") with
              | Some t => Some t
              | None => ET.find adaptation_set (mpd "SegmentTemplate")
              end) as [segment_template |].
    - eapply template_branch_headed; eassumption.
    - injection Hbody as <-. exact Hheader. }
  destruct (negb (is_live root)); [apply headed_app |]; exact Hbody'.
Qed.

Lemma headed_join (lines : list string) :
  headed lines ->
  exists rest, Py.join nl lines
               = "#EXTM3U" ++ nl ++ "#EXT-X-VERSION:7" ++ rest.
Proof.
  intros (rest & ->). unfold Py.join. destruct rest as [| x r].
  - exists "". reflexivity.
  - exists (nl ++ String.concat nl (x :: r)). reflexivity.
Qed.

Lemma find_representation_some (adaptation_sets : list ET.element)
  (aset rep : ET.element) (rep_id : string) :
  In aset adaptation_sets ->
  In rep (ET.findall aset (mpd "Representation")) ->
  ET.get rep "id" = Some rep_id ->
  exists rep' aset',
    find_representation adaptation_sets rep_id = Some (rep', aset')
    /\ ET.get rep' "id" = Some rep_id
    /\ In aset' adaptation_sets
    /\ In rep' (ET.findall aset' (mpd "Representation")).
Proof.
  intros Hin Hrep Hid.
  induction adaptation_sets as [| a r IH]; [contradiction |].
  cbn [find_representation]. unfold ET.find_with_attr.
  destruct (filter _ (ET.findall a (mpd "Representation")))
    as [| rep' others] eqn:Hfilter; cbn [hd_error].
  - destruct Hin as [-> | Hin].
    + exfalso.
      assert (Hmem : In rep (filter
                (fun c => match ET.get c "id" with
                          | Some v' => String.eqb v' rep_id
                          | None => false
                          end) (ET.findall aset (mpd "Representation")))).
      { apply filter_In. split; [exact Hrep |].
        rewrite Hid. apply String.eqb_refl. }
      rewrite Hfilter in Hmem. contradiction.
    + destruct (IH Hin) as (rep' & aset' & E & H1 & H2 & H3).
      exists rep', aset'. repeat split; try assumption. right. exact H2.
  - exists rep', a.
    assert (Hmem : In rep' (rep' :: others)) by (left; reflexivity).
    rewrite <- Hfilter in Hmem. apply filter_In in Hmem as [Hmem Hsel].
    repeat split; [| left; reflexivity | exact Hmem].
    destruct (ET.get rep' "id") as [v |]; [| discriminate].
    apply String.eqb_eq in Hsel. congruence.
Qed.

End Headed.

(** X14.  Every answer of the two converters begins with the line
    [#EXTM3U]: the playlist itself, the playlist that reports a missing
    Representation and the playlist that reports an exception. *)
Theorem converters_answer_with_a_playlist {F : PyFloat} {L : PyLib}
  (manifest_content rep_id proxy_base original_url params : string)
  (clearkey_param : option string) :
  Py.startswith
    (MPDToHLSConverter.convert_media_playlist manifest_content rep_id
       proxy_base original_url params clearkey_param)
    ("#EXTM3U" ++ nl) = true
  /\ Py.startswith
       (MasterPlaylist.convert_master_playlist manifest_content proxy_base
          original_url params)
       ("#EXTM3U" ++ nl) = true.
Proof.
  split.
  - unfold MPDToHLSConverter.convert_media_playlist.
    destruct (fromstring (add_default_namespace manifest_content))
      as [root |]; cbn [bind]; [| reflexivity].
    unfold MPDToHLSConverter.convert_root.
    destruct (MPDToHLSConverter.find_representation _ rep_id)
      as [[representation adaptation_set] |]; [| reflexivity].
    destruct (MPDToHLSConverter.playlist_lines root representation
                adaptation_set rep_id proxy_base original_url params
                clearkey_param) as [lines |] eqn:Hlines; cbn [bind];
      [| reflexivity].
    destruct (headed_join _ (playlist_lines_headed _ _ _ _ _ _ _ _ _ Hlines))
      as (rest & ->).
    reflexivity.
  - destruct (fromstring (add_default_namespace manifest_content))
      as [root |] eqn:Hparse.
    + unfold MasterPlaylist.convert_master_playlist.
      rewrite Hparse, master_lines_layout.
      cbn [app]. unfold Py.join.
      match goal with
      | |- context [String.concat nl (_ :: _ :: ?l)] => destruct l
      end; reflexivity.
    + unfold MasterPlaylist.convert_master_playlist. rewrite Hparse.
      reflexivity.
Qed.

(** X15.  The master playlist and the media playlist agree on the
    Representations: for every Representation the master playlist
    lists, of an audio or of a video set, [convert_media_playlist] called
    with its [id] finds a Representation of that [id] and does not
    answer that the Representation is not found.  (The [id] holds no
    double quote, which would end the value in the path expression.) *)
Theorem advertised_representations_are_found {F : PyFloat} {L : PyLib}
  (root aset rep : ET.element)
  (rep_id proxy_base original_url params : string)
  (clearkey_param : option string) :
  let sets := ET.findall_deep root (mpd "AdaptationSet") in
  In (aset, rep)
     (representations_of (audio_sets_of sets)
      +++ representations_of (video_sets_of sets)) ->
  ET.get rep "id" = Some rep_id ->
  Py.contains dquote rep_id = false ->
  (exists rep' aset',
      MPDToHLSConverter.find_representation sets rep_id = Some (rep', aset')
      /\ ET.get rep' "id" = Some rep_id)
  /\ MPDToHLSConverter.convert_root root rep_id proxy_base original_url
       params clearkey_param
     <> Ok MPDToHLSConverter.representation_not_found.
Proof.
  intros sets Hin Hid _.
  assert (Hsets : In aset sets /\ In rep (ET.findall aset (mpd "Representation"))).
  { assert (Hsub : forall selected,
               incl selected sets ->
               In (aset, rep) (representations_of selected) ->
               In aset sets
               /\ In rep (ET.findall aset (mpd "Representation"))).
    { intros selected Hincl H. unfold representations_of in H.
      apply in_flat_map in H as (a & Ha & H).
      apply in_map_iff in H as (r & E & Hr). injection E as -> ->.
      split; [apply Hincl, Ha | exact Hr]. }
    apply in_app_or in Hin as [Hin | Hin]; (eapply Hsub; [| exact Hin]).
    - unfold audio_sets_of. destruct (existsb _ sets);
        intros a Ha; apply filter_In in Ha; tauto.
    - unfold video_sets_of. destruct (existsb _ sets);
        intros a Ha; apply filter_In in Ha; tauto. }
  destruct Hsets as [Haset Hrep].
  destruct (find_representation_some sets aset rep rep_id Haset Hrep Hid)
    as (rep' & aset' & Hfind & Hid' & _ & _).
  split; [eauto |].
  unfold MPDToHLSConverter.convert_root. fold sets. rewrite Hfind.
  destruct (MPDToHLSConverter.playlist_lines root rep' aset' rep_id proxy_base
              original_url params clearkey_param) as [lines |] eqn:Hlines;
    cbn [bind]; [| discriminate].
  destruct (headed_join _ (playlist_lines_headed _ _ _ _ _ _ _ _ _ Hlines))
    as (rest & ->).
  discriminate.
Qed.

Lemma advertised_representations_are_found_witness :
  (exists rep' aset',
      MPDToHLSConverter.find_representation
        (ET.findall_deep two_audio_root (mpd "AdaptationSet")) "a1"
      = Some (rep', aset')
      /\ ET.get rep' "id" = Some "a1")
  /\ MPDToHLSConverter.convert_root (F := Q_float) (L := two_audio_lib)
       two_audio_root "a1" "http://p" "http://o/a.mpd" "&k=1" None
     <> Ok MPDToHLSConverter.representation_not_found.
Proof.
  apply (advertised_representations_are_found (F := Q_float)
           (L := two_audio_lib) two_audio_root
           (ET.Element (mpd "AdaptationSet")
              [("contentType", "audio"); ("lang", "it")] None None
              [ET.Element (mpd "Representation")
                 [("id", "a1"); ("bandwidth", "96000")] None None []])
           (ET.Element (mpd "Representation")
              [("id", "a1"); ("bandwidth", "96000")] None None [])
           "a1" "http://p" "http://o/a.mpd" "&k=1" None).
  - vm_compute. left. reflexivity.
  - reflexivity.
  - reflexivity.
Defined.

(** ** Edges of [convert_media_playlist] *)

Section MediaEdges.
Context {F : PyFloat} {L : PyLib}.
Import MPDToHLSConverter.

(** [segment_template] as the code looks it up: in the Representation,
    else in its AdaptationSet. *)
Definition template_of (representation adaptation_set : ET.element)
  : option ET.element :=
  match ET.find representation (mpd "SegmentTemplate") with
  | Some t => Some t
  | None => ET.find adaptation_set (mpd "SegmentTemplate")
  end.

Definition error_playlist (e : exn) : string :=
  "#EXTM3U" ++ nl ++ "#EXT-X-ERROR: " ++ exn_text e.

Lemma convert_media_playlist_raise
  (manifest_content rep_id proxy_base original_url params : string)
  (clearkey_param : option string)
  (root representation adaptation_set : ET.element) (e : exn) :
  fromstring (add_default_namespace manifest_content) = Ok root ->
  find_representation (ET.findall_deep root (mpd "AdaptationSet")) rep_id
  = Some (representation, adaptation_set) ->
  playlist_lines root representation adaptation_set rep_id proxy_base
    original_url params clearkey_param = Raise e ->
  convert_media_playlist manifest_content rep_id proxy_base original_url
    params clearkey_param = error_playlist e.
Proof.
  intros Hparse Hfind Hlines.
  unfold convert_media_playlist, convert_root.
  rewrite Hparse. cbn [bind]. rewrite Hfind, Hlines. reflexivity.
Qed.

Lemma playlist_lines_template (root representation adaptation_set : ET.element)
  (rep_id proxy_base original_url params : string)
  (clearkey_param : option string) (template : ET.element) :
  template_of representation adaptation_set = Some template ->
  playlist_lines root representation adaptation_set rep_id proxy_base
    original_url params clearkey_param
  = (lines <- template_branch (is_live root) root template rep_id proxy_base
                original_url params (fst (parse_clearkey clearkey_param))
                (snd (parse_clearkey clearkey_param))
                (header_lines (is_live root)) ;;
     Ok (if negb (is_live root) then lines +++ ["#EXT-X-ENDLIST"] else lines)).
Proof.
  unfold template_of, playlist_lines. intros Htemplate.
  destruct (parse_clearkey clearkey_param) as [ssd dp]. cbn [fst snd].
  rewrite Htemplate. reflexivity.
Qed.

Lemma raise_bind {A B : Type} (m : result A) (k : A -> result B) :
  (forall a, m = Ok a -> exists e, k a = Raise e) ->
  exists e, bind m k = Raise e.
Proof.
  intros H. destruct m as [a | e]; cbn [bind]; [apply H; reflexivity | eauto].
Qed.

Lemma template_branch_zero_timescale (live : bool)
  (root template : ET.element)
  (rep_id proxy_base original_url params : string) (ssd : bool) (dp : string)
  (lines : list string) :
  (forall a, truediv a 0 = Raise ZeroDivisionError) ->
  int (Some (ET.get_default template "timescale" "1")) = Ok 0 ->
  match ET.find template (mpd "SegmentTimeline") with
  | Some timeline => ET.findall timeline (mpd "S") <> []
  | None => exists d, int (Some (ET.get_default template "duration" "0")) = Ok d
                      /\ 0 < d
  end ->
  exists e,
    template_branch live root template rep_id proxy_base original_url params
      ssd dp lines = Raise e.
Proof.
  intros Hdiv Hscale Hsegments. unfold template_branch.
  rewrite Hscale. cbn [bind].
  apply raise_bind. intros start_number _.
  apply raise_bind. intros base_url _.
  apply raise_bind. intros [enc lines'] _.
  destruct (ET.find template (mpd "SegmentTimeline")) as [timeline |].
  - assert (Hstep : forall st s, exists e, timeline_step 0 st s = Raise e).
    { intros st s. unfold timeline_step.
      do 3 (apply raise_bind; intros ? _).
      rewrite Hdiv. cbn [bind]. eauto. }
    unfold timeline_branch, expand_timeline.
    destruct (ET.findall timeline (mpd "S")) as [| s rest]; [congruence |].
    cbn [for_each].
    destruct (Hstep (TimelineState [] 0 start_number) s) as (e & ->).
    cbn [bind]. eauto.
  - destruct Hsegments as (d & Hd & Hpos). unfold duration_branch.
    rewrite Hd. cbn [bind].
    apply Z.ltb_lt in Hpos. rewrite Hpos.
    apply raise_bind. intros period _.
    rewrite Hdiv. cbn [bind]. eauto.
Qed.

(** A tag or comment line other than [#EXT-X-MAP]. *)
Definition tag_but_map (line : string) : Prop :=
  Py.startswith line "#" = true /\ Py.startswith line "#EXT-X-MAP" = false.

(** A line of a playlist whose segments are decrypted by the server. *)
Definition decrypted_line (proxy_base params kid_hex key_hex line : string)
  : Prop :=
  tag_but_map line
  \/ exists encoded_seg_url encoded_init_url,
       line = proxy_base ++ "/decrypt/segment.mp4?url=" ++ encoded_seg_url
              ++ "&init_url=" ++ encoded_init_url
              ++ ("&key=" ++ key_hex ++ "&key_id=" ++ kid_hex) ++ params.

(** A line of a playlist of the fixed-duration branch. *)
Definition plain_line (proxy_base line : string) : Prop :=
  tag_but_map line
  \/ Py.startswith line (proxy_base ++ "/segment/seg_") = true.

Lemma template_branch_decrypted (live : bool) (root template : ET.element)
  (rep_id proxy_base original_url params kid_hex key_hex : string)
  (lines out : list string) :
  template_branch live root template rep_id proxy_base original_url params
    true ("&key=" ++ key_hex ++ "&key_id=" ++ kid_hex) lines = Ok out ->
  match ET.find template (mpd "SegmentTimeline") with
  | Some _ =>
      Forall (decrypted_line proxy_base params kid_hex key_hex) lines ->
      Forall (decrypted_line proxy_base params kid_hex key_hex) out
  | None =>
      Forall (plain_line proxy_base) lines ->
      Forall (plain_line proxy_base) out
  end.
Proof.
  unfold template_branch. intros H.
  apply bind_ok in H as (timescale & _ & H).
  apply bind_ok in H as (start_number & _ & H).
  apply bind_ok in H as (base_url & _ & H).
  apply bind_ok in H as ([enc lines'] & Hinit & H).
  assert (Hsame : lines' = lines).
  { destruct (ET.get template "initialization") as [[| c t] |];
      try (injection Hinit as _ <-; reflexivity).
    apply bind_ok in Hinit as (full_init_url & _ & Hinit).
    injection Hinit as _ <-. reflexivity. }
  subst lines'.
  destruct (ET.find template (mpd "SegmentTimeline")) as [timeline |].
  - intros Hlines. unfold timeline_branch in H.
    apply bind_ok in H as (all & _ & H).
    apply bind_ok in H as ([segs lines'] & Hhead & H).
    apply bind_ok in H as (seg_lines & Hsegs & H). injection H as <-.
    apply Forall_app. split.
    + assert (Hzero : Forall (decrypted_line proxy_base params kid_hex key_hex)
                        (lines +++ ["#EXT-X-MEDIA-SEQUENCE:0"])).
      { apply Forall_app. split; [exact Hlines |].
        constructor; [left; split; reflexivity | constructor]. }
      destruct live, all as [| s0 rest];
        try (injection Hhead as _ <-; exact Hzero).
      destruct (live_window (s0 :: rest)) as [| first others];
        [discriminate |].
      injection Hhead as _ <-. apply Forall_app. split.
      * apply Forall_list_insert; [left; split; reflexivity | exact Hlines].
      * constructor; [left; split; reflexivity | constructor].
    + apply Forall_concat. eapply map_result_Forall; [| exact Hsegs].
      intros seg pair Hpair. unfold timeline_segment_lines in Hpair.
      apply bind_ok in Hpair as (pattern & _ & Hpair).
      apply bind_ok in Hpair as (full_seg_url & _ & Hpair).
      injection Hpair as <-.
      constructor; [left; split; reflexivity |].
      constructor; [| constructor].
      right. eexists _, _. reflexivity.
  - intros Hlines. unfold duration_branch in H.
    apply bind_ok in H as (duration & _ & H).
    destruct (0 <? duration); [| injection H as <-; exact Hlines].
    apply bind_ok in H as (period & _ & H).
    apply bind_ok in H as (duration_sec & _ & H).
    apply bind_ok in H as (seg_lines & Hsegs & H). injection H as <-.
    apply Forall_app. split; [exact Hlines |].
    apply Forall_concat. eapply map_result_Forall; [| exact Hsegs].
    intros i pair Hpair. unfold duration_segment_lines in Hpair.
    apply bind_ok in Hpair as (pattern & _ & Hpair).
    apply bind_ok in Hpair as (full_seg_url & _ & Hpair).
    injection Hpair as <-.
    constructor; [left; split; reflexivity |].
    constructor; [| constructor].
    right. apply (prefix_prefix proxy_base "/segment/seg_").
Qed.

End MediaEdges.



(** X17.  A [BaseURL] child of the root without text makes the
    conversion of every Representation that has a SegmentTemplate fail:
    the answer is the playlist that reports an exception, never a
    playlist with segments. *)
Theorem empty_base_url_fails {F : PyFloat} {L : PyLib}
  (manifest_content rep_id proxy_base original_url params : string)
  (clearkey_param : option string)
  (root representation adaptation_set template base_url_tag : ET.element) :
  fromstring (add_default_namespace manifest_content) = Ok root ->
  MPDToHLSConverter.find_representation
    (ET.findall_deep root (mpd "AdaptationSet")) rep_id
  = Some (representation, adaptation_set) ->
  template_of representation adaptation_set = Some template ->
  ET.find root (mpd "BaseURL") = Some base_url_tag ->
  ET.text base_url_tag = None ->
  exists e,
    MPDToHLSConverter.convert_media_playlist manifest_content rep_id
      proxy_base original_url params clearkey_param
    = error_playlist e.
Proof.
  intros Hparse Hfind Htemplate Hbase Htext.
  assert (Hraise : exists e,
             MPDToHLSConverter.playlist_lines root representation
               adaptation_set rep_id proxy_base original_url params
               clearkey_param = Raise e).
  { rewrite (playlist_lines_template _ _ _ _ _ _ _ _ _ Htemplate).
    apply raise_bind. intros lines Hlines. exfalso.
    unfold MPDToHLSConverter.template_branch in Hlines.
    apply bind_ok in Hlines as (timescale & _ & Hlines).
    apply bind_ok in Hlines as (start_number & _ & Hlines).
    apply bind_ok in Hlines as (base_url & Hurl & _).
    rewrite Hbase, Htext in Hurl. discriminate. }
  destruct Hraise as (e & Hraise). exists e.
  eapply convert_media_playlist_raise; eassumption.
Qed.

Definition empty_base_root : ET.element :=
  ET.Element (mpd "MPD") [("type", "static")] None None
    [ET.Element (mpd "BaseURL") [] None None [];
     ET.Element (mpd "Period") [] None None
       [ET.Element (mpd "AdaptationSet") [("mimeType", "video/mp4")] None None
          [ET.Element (mpd "Representation")
             [("id", "v1"); ("bandwidth", "2000000")] None None
             [ET.Element (mpd "SegmentTemplate")
                [("timescale", "1000"); ("media", "seg_$Number$.m4s");
                 ("duration", "4000")] None None []]]]].

Definition empty_base_text : string :=
  "<MPD xmlns='urn:mpeg:dash:schema:mpd:2011' type='static'><BaseURL/><Period>"
  ++ "<AdaptationSet mimeType='video/mp4'>"
  ++ "<Representation id='v1' bandwidth='2000000'>"
  ++ "<SegmentTemplate timescale='1000' media='seg_$Number$.m4s' duration='4000'/>"
  ++ "</Representation></AdaptationSet></Period></MPD>".

Definition named_exceptions (e : exn) : string :=
  match e with
  | AttributeError => "'NoneType' object has no attribute 'endswith'"
  | ZeroDivisionError => "division by zero"
  | _ => "error"
  end.

Definition empty_base_lib : PyLib := {|
  urljoin := example_urljoin;
  urlparse_query := fun _ => Ok "";
  fromstring := example_parser [(empty_base_text, empty_base_root)];
  tostring := fun _ => "";
  exn_text := named_exceptions
|}.

Lemma empty_base_url_fails_witness :
  exists e,
    MPDToHLSConverter.convert_media_playlist (F := Q_float)
      (L := empty_base_lib) empty_base_text "v1" "http://p"
      "http://o/vod/manifest.mpd" "" None
    = error_playlist (L := empty_base_lib) e.
Proof.
  apply (empty_base_url_fails (F := Q_float) (L := empty_base_lib)
           empty_base_text "v1" "http://p" "http://o/vod/manifest.mpd" ""
           None empty_base_root
           (ET.Element (mpd "Representation")
              [("id", "v1"); ("bandwidth", "2000000")] None None
              [ET.Element (mpd "SegmentTemplate")
                 [("timescale", "1000"); ("media", "seg_$Number$.m4s");
                  ("duration", "4000")] None None []])
           (ET.Element (mpd "AdaptationSet") [("mimeType", "video/mp4")]
              None None
              [ET.Element (mpd "Representation")
                 [("id", "v1"); ("bandwidth", "2000000")] None None
                 [ET.Element (mpd "SegmentTemplate")
                    [("timescale", "1000"); ("media", "seg_$Number$.m4s");
                     ("duration", "4000")] None None []]])
           (ET.Element (mpd "SegmentTemplate")
              [("timescale", "1000"); ("media", "seg_$Number$.m4s");
               ("duration", "4000")] None None [])
           (ET.Element (mpd "BaseURL") [] None None [])).
  - reflexivity.
  - reflexivity.
  - reflexivity.
  - reflexivity.
  - reflexivity.
Defined.

Example empty_base_url_example :
  MPDToHLSConverter.convert_media_playlist (F := Q_float)
    (L := empty_base_lib) empty_base_text "v1" "http://p"
    "http://o/vod/manifest.mpd" "" None
  = "#EXTM3U" ++ nl
    ++ "#EXT-X-ERROR: 'NoneType' object has no attribute 'endswith'".
Proof. vm_compute. reflexivity. Qed.

(** X18.  With [timescale="0"] no segment is produced: when the
    template holds a timeline with at least one [<S>], or no timeline and
    a positive [duration], the conversion ends in an exception and the
    answer is the playlist that reports it.  (Division of an [int] by
    zero raises, as it does for Python numbers.) *)
Theorem zero_timescale_fails {F : PyFloat} {L : PyLib}
  (manifest_content rep_id proxy_base original_url params : string)
  (clearkey_param : option string)
  (root representation adaptation_set template : ET.element) :
  (forall a, truediv a 0 = Raise ZeroDivisionError) ->
  fromstring (add_default_namespace manifest_content) = Ok root ->
  MPDToHLSConverter.find_representation
    (ET.findall_deep root (mpd "AdaptationSet")) rep_id
  = Some (representation, adaptation_set) ->
  template_of representation adaptation_set = Some template ->
  int (Some (ET.get_default template "timescale" "1")) = Ok 0 ->
  match ET.find template (mpd "SegmentTimeline") with
  | Some timeline => ET.findall timeline (mpd "S") <> []
  | None => exists d, int (Some (ET.get_default template "duration" "0")) = Ok d
                      /\ 0 < d
  end ->
  exists e,
    MPDToHLSConverter.convert_media_playlist manifest_content rep_id
      proxy_base original_url params clearkey_param
    = error_playlist e.
Proof.
  intros Hdiv Hparse Hfind Htemplate Hscale Hsegments.
  assert (Hraise : exists e,
             MPDToHLSConverter.playlist_lines root representation
               adaptation_set rep_id proxy_base original_url params
               clearkey_param = Raise e).
  { rewrite (playlist_lines_template _ _ _ _ _ _ _ _ _ Htemplate).
    destruct (template_branch_zero_timescale
                (MPDToHLSConverter.is_live root) root template rep_id
                proxy_base original_url params
                (fst (MPDToHLSConverter.parse_clearkey clearkey_param))
                (snd (MPDToHLSConverter.parse_clearkey clearkey_param))
                (MPDToHLSConverter.header_lines (MPDToHLSConverter.is_live root))
                Hdiv Hscale Hsegments) as (e & ->).
    cbn [bind]. eauto. }
  destruct Hraise as (e & Hraise). exists e.
  eapply convert_media_playlist_raise; eassumption.
Qed.

Definition zero_timescale_root : ET.element :=
  example_manifest "static"
    [("timescale", "0"); ("media", "seg_$Number$.m4s")]
    [timeline_of [s_element [("d", "4000")]]].

Definition zero_timescale_text : string :=
  "<MPD xmlns='urn:mpeg:dash:schema:mpd:2011' type='static'><Period>"
  ++ "<AdaptationSet mimeType='video/mp4'>"
  ++ "<Representation id='v1' bandwidth='2000000'>"
  ++ "<SegmentTemplate timescale='0' media='seg_$Number$.m4s'>"
  ++ "<SegmentTimeline><S d='4000'/></SegmentTimeline>"
  ++ "</SegmentTemplate></Representation></AdaptationSet></Period></MPD>".

Definition zero_timescale_lib : PyLib := {|
  urljoin := example_urljoin;
  urlparse_query := fun _ => Ok "";
  fromstring := example_parser [(zero_timescale_text, zero_timescale_root)];
  tostring := fun _ => "";
  exn_text := named_exceptions
|}.

Lemma zero_timescale_fails_witness :
  exists e,
    MPDToHLSConverter.convert_media_playlist (F := Q_float)
      (L := zero_timescale_lib) zero_timescale_text "v1" "http://p"
      "http://o/vod/manifest.mpd" "" None
    = error_playlist (L := zero_timescale_lib) e.
Proof.
  apply (zero_timescale_fails (F := Q_float) (L := zero_timescale_lib)
           zero_timescale_text "v1" "http://p" "http://o/vod/manifest.mpd" ""
           None zero_timescale_root
           (ET.Element (mpd "Representation")
              [("id", "v1"); ("bandwidth", "2000000")] None None
              [ET.Element (mpd "SegmentTemplate")
                 [("timescale", "0"); ("media", "seg_$Number$.m4s")]
                 None None [timeline_of [s_element [("d", "4000")]]]])
           (ET.Element (mpd "AdaptationSet") [("mimeType", "video/mp4")]
              None None
              [ET.Element (mpd "Representation")
                 [("id", "v1"); ("bandwidth", "2000000")] None None
                 [ET.Element (mpd "SegmentTemplate")
                    [("timescale", "0"); ("media", "seg_$Number$.m4s")]
                    None None [timeline_of [s_element [("d", "4000")]]]]])
           (ET.Element (mpd "SegmentTemplate")
              [("timescale", "0"); ("media", "seg_$Number$.m4s")]
              None None [timeline_of [s_element [("d", "4000")]]])).
  - intros a. reflexivity.
  - reflexivity.
  - reflexivity.
  - reflexivity.
  - reflexivity.
  - cbn. discriminate.
Defined.

Example zero_timescale_example :
  MPDToHLSConverter.convert_media_playlist (F := Q_float)
    (L := zero_timescale_lib) zero_timescale_text "v1" "http://p"
    "http://o/vod/manifest.mpd" "" None
  = "#EXTM3U" ++ nl ++ "#EXT-X-ERROR: division by zero".
Proof. vm_compute. reflexivity. Qed.

(** X19.  A live manifest whose timeline holds no [<S>] gets a playlist
    without [#EXT-X-TARGETDURATION] and without segments: the three
    header lines of a live playlist, the [#EXT-X-MAP] line if there is
    one, and [#EXT-X-MEDIA-SEQUENCE:0]. *)
Theorem live_playlist_of_an_empty_timeline {F : PyFloat} {L : PyLib}
  (root representation adaptation_set template timeline : ET.element)
  (rep_id proxy_base original_url params : string)
  (clearkey_param : option string) (lines : list string) :
  MPDToHLSConverter.is_live root = true ->
  template_of representation adaptation_set = Some template ->
  ET.find template (mpd "SegmentTimeline") = Some timeline ->
  ET.findall timeline (mpd "S") = [] ->
  MPDToHLSConverter.playlist_lines root representation adaptation_set rep_id
    proxy_base original_url params clearkey_param = Ok lines ->
  (exists map_lines,
      lines = ["#EXTM3U"; "#EXT-X-VERSION:7";
               "#EXT-X-START:TIME-OFFSET=-3.0,PRECISE=YES"]
              +++ map_lines +++ ["#EXT-X-MEDIA-SEQUENCE:0"]
      /\ (map_lines = []
          \/ exists u, map_lines = ["#EXT-X-MAP:URI=" ++ dquote ++ u ++ dquote]))
  /\ count_lines "#EXT-X-TARGETDURATION" lines = 0%nat
  /\ count_lines "#EXTINF" lines = 0%nat.
Proof.
  intros Hlive Htemplate Htimeline Hempty H.
  rewrite (playlist_lines_template _ _ _ _ _ _ _ _ _ Htemplate), Hlive in H.
  cbn [negb] in H.
  apply bind_ok in H as (out & H & Hout). injection Hout as <-.
  unfold MPDToHLSConverter.template_branch in H.
  apply bind_ok in H as (timescale & _ & H).
  apply bind_ok in H as (start_number & _ & H).
  apply bind_ok in H as (base_url & _ & H).
  apply bind_ok in H as ([enc lines'] & Hinit & H).
  rewrite Htimeline in H.
  unfold MPDToHLSConverter.timeline_branch,
    MPDToHLSConverter.expand_timeline in H.
  rewrite Hempty in H. cbn in H. injection H as <-.
  assert (Hmap : exists map_lines,
             lines' = MPDToHLSConverter.header_lines true +++ map_lines
             /\ (map_lines = []
                 \/ exists u,
                      map_lines = ["#EXT-X-MAP:URI=" ++ dquote ++ u ++ dquote])).
  { destruct (ET.get template "initialization") as [[| c t] |];
      try (injection Hinit as _ <-; exists []; split; auto).
    apply bind_ok in Hinit as (full_init_url & _ & Hinit).
    injection Hinit as _ <-.
    destruct (negb (fst (MPDToHLSConverter.parse_clearkey clearkey_param)));
      [| exists []; split; auto].
    eexists. split; [reflexivity |]. right.
    exists (proxy_base ++ "/segment/init.mp4?base_url="
            ++ Py.quote_all full_init_url ++ params).
    rewrite !append_assoc. reflexivity. }
  destruct Hmap as (map_lines & -> & Hmap).
  split; [| split].
  - exists map_lines. split; [| exact Hmap].
    rewrite app_nil_r, <- app_assoc. reflexivity.
  - destruct Hmap as [-> | (u & ->)]; reflexivity.
  - destruct Hmap as [-> | (u & ->)]; reflexivity.
Qed.

Definition live_empty_root : ET.element :=
  example_manifest "dynamic"
    [("timescale", "1000"); ("media", "seg_$Number$.m4s");
     ("initialization", "init.mp4")]
    [timeline_of []].

Definition live_empty_text : string :=
  "<MPD xmlns='urn:mpeg:dash:schema:mpd:2011' type='dynamic'><Period>"
  ++ "<AdaptationSet mimeType='video/mp4'>"
  ++ "<Representation id='v1' bandwidth='2000000'>"
  ++ "<SegmentTemplate timescale='1000' media='seg_$Number$.m4s' initialization='init.mp4'>"
  ++ "<SegmentTimeline></SegmentTimeline>"
  ++ "</SegmentTemplate></Representation></AdaptationSet></Period></MPD>".

Definition live_empty_lines : list string :=
  ["#EXTM3U"; "#EXT-X-VERSION:7"; "#EXT-X-START:TIME-OFFSET=-3.0,PRECISE=YES";
   "#EXT-X-MAP:URI=" ++ dquote
   ++ "http://p/segment/init.mp4?base_url=http%3A%2F%2Fo%2Fvod%2Finit.mp4"
   ++ dquote;
   "#EXT-X-MEDIA-SEQUENCE:0"].

Lemma live_playlist_of_an_empty_timeline_witness :
  (exists map_lines,
      live_empty_lines
      = ["#EXTM3U"; "#EXT-X-VERSION:7";
         "#EXT-X-START:TIME-OFFSET=-3.0,PRECISE=YES"]
        +++ map_lines +++ ["#EXT-X-MEDIA-SEQUENCE:0"]
      /\ (map_lines = []
          \/ exists u, map_lines = ["#EXT-X-MAP:URI=" ++ dquote ++ u ++ dquote]))
  /\ count_lines "#EXT-X-TARGETDURATION" live_empty_lines = 0%nat
  /\ count_lines "#EXTINF" live_empty_lines = 0%nat.
Proof.
  apply (live_playlist_of_an_empty_timeline (F := Q_float)
           (L := example_lib (example_parser []))
           live_empty_root
           (ET.Element (mpd "Representation")
              [("id", "v1"); ("bandwidth", "2000000")] None None
              [ET.Element (mpd "SegmentTemplate")
                 [("timescale", "1000"); ("media", "seg_$Number$.m4s");
                  ("initialization", "init.mp4")] None None [timeline_of []]])
           (ET.Element (mpd "AdaptationSet") [("mimeType", "video/mp4")]
              None None [])
           (ET.Element (mpd "SegmentTemplate")
              [("timescale", "1000"); ("media", "seg_$Number$.m4s");
               ("initialization", "init.mp4")] None None [timeline_of []])
           (timeline_of [])
           "v1" "http://p" "http://o/vod/manifest.mpd" "" None).
  - reflexivity.
  - reflexivity.
  - reflexivity.
  - reflexivity.
  - vm_compute. reflexivity.
Defined.

Example live_empty_timeline_example :
  MPDToHLSConverter.convert_media_playlist (F := Q_float)
    (L := example_lib (example_parser [(live_empty_text, live_empty_root)]))
    live_empty_text "v1" "http://p" "http://o/vod/manifest.mpd" "" None
  = Py.join nl live_empty_lines.
Proof. vm_compute. reflexivity. Qed.

(** X20.  With a [clearkey] of the form [kid:key] the playlist holds no
    [#EXT-X-MAP] line.  When the template has a timeline, every line is
    a tag or a URL of the decryption endpoint that carries the segment
    URL, the initialization URL, the key, the key id and [params].  When
    it has none, the fixed-duration branch takes no notice of the key:
    every line is a tag or a URL of [{proxy_base}/segment/seg_]. *)
Theorem clearkey_playlist_lines {F : PyFloat} {L : PyLib}
  (root representation adaptation_set template : ET.element)
  (rep_id proxy_base original_url params clearkey kid_hex key_hex : string)
  (lines : list string) :
  Py.split ":" clearkey = [kid_hex; key_hex] ->
  template_of representation adaptation_set = Some template ->
  MPDToHLSConverter.playlist_lines root representation adaptation_set rep_id
    proxy_base original_url params (Some clearkey) = Ok lines ->
  match ET.find template (mpd "SegmentTimeline") with
  | Some _ => Forall (decrypted_line proxy_base params kid_hex key_hex) lines
  | None => Forall (plain_line proxy_base) lines
  end.
Proof.
  intros Hsplit Htemplate H.
  rewrite (playlist_lines_template _ _ _ _ _ _ _ _ _ Htemplate) in H.
  assert (Hkey : MPDToHLSConverter.parse_clearkey (Some clearkey)
                 = (true, "&key=" ++ key_hex ++ "&key_id=" ++ kid_hex)).
  { unfold MPDToHLSConverter.parse_clearkey.
    destruct clearkey as [| c rest]; [discriminate |].
    rewrite Hsplit. reflexivity. }
  rewrite Hkey in H. cbn [fst snd] in H.
  apply bind_ok in H as (out & H & Hout). injection Hout as <-.
  pose proof (template_branch_decrypted _ _ _ _ _ _ _ _ _ _ _ H) as Hbranch.
  assert (Hheader : forall P : string -> Prop,
             (forall line, tag_but_map line -> P line) ->
             Forall P (MPDToHLSConverter.header_lines
                         (MPDToHLSConverter.is_live root))).
  { intros P HP. destruct (MPDToHLSConverter.is_live root);
      repeat constructor; apply HP; split; reflexivity. }
  assert (Hclose : forall P : string -> Prop,
             (forall line, tag_but_map line -> P line) ->
             Forall P out ->
             Forall P (if negb (MPDToHLSConverter.is_live root)
                       then out +++ ["#EXT-X-ENDLIST"] else out)).
  { intros P HP Hall. destruct (negb (MPDToHLSConverter.is_live root));
      [| exact Hall].
    apply Forall_app. split; [exact Hall |].
    repeat constructor. apply HP. split; reflexivity. }
  assert (Hmain : match ET.find template (mpd "SegmentTimeline") with
                  | Some _ =>
                      Forall (decrypted_line proxy_base params kid_hex key_hex)
                        (if negb (MPDToHLSConverter.is_live root)
                         then out +++ ["#EXT-X-ENDLIST"] else out)
                  | None =>
                      Forall (plain_line proxy_base)
                        (if negb (MPDToHLSConverter.is_live root)
                         then out +++ ["#EXT-X-ENDLIST"] else out)
                  end).
  { destruct (ET.find template (mpd "SegmentTimeline")).
    - apply Hclose; [intros line Hl; left; exact Hl |].
      apply Hbranch, Hheader. intros line Hl. left. exact Hl.
    - apply Hclose; [intros line Hl; left; exact Hl |].
      apply Hbranch, Hheader. intros line Hl. left. exact Hl. }
  exact Hmain.
Qed.

Definition vod_init : ET.element :=
  example_manifest "static"
    [("timescale", "1000"); ("media", "seg_$Number$.m4s");
     ("initialization", "init.mp4")]
    [timeline_of [s_element [("t", "0"); ("d", "4000"); ("r", "1")]]].

Definition vod_init_text : string :=
  "<MPD xmlns='urn:mpeg:dash:schema:mpd:2011' type='static'><Period>"
  ++ "<AdaptationSet mimeType='video/mp4'>"
  ++ "<Representation id='v1' bandwidth='2000000'>"
  ++ "<SegmentTemplate timescale='1000' media='seg_$Number$.m4s' initialization='init.mp4'>"
  ++ "<SegmentTimeline><S t='0' d='4000' r='1'/></SegmentTimeline>"
  ++ "</SegmentTemplate></Representation></AdaptationSet></Period></MPD>".

Definition vod_init_lines : list string :=
  ["#EXTM3U"; "#EXT-X-VERSION:7"; "#EXT-X-TARGETDURATION:10";
   "#EXT-X-PLAYLIST-TYPE:VOD"; "#EXT-X-MEDIA-SEQUENCE:0";
   "#EXTINF:4.000,";
   "http://p/decrypt/segment.mp4?url=http%3A%2F%2Fo%2Fvod%2Fseg_1.m4s&init_url=http%3A%2F%2Fo%2Fvod%2Finit.mp4&key=bb&key_id=aa&k=1";
   "#EXTINF:4.000,";
   "http://p/decrypt/segment.mp4?url=http%3A%2F%2Fo%2Fvod%2Fseg_2.m4s&init_url=http%3A%2F%2Fo%2Fvod%2Finit.mp4&key=bb&key_id=aa&k=1";
   "#EXT-X-ENDLIST"].

Lemma clearkey_playlist_lines_witness :
  Forall (decrypted_line "http://p" "&k=1" "aa" "bb") vod_init_lines.
Proof.
  apply (clearkey_playlist_lines (F := Q_float)
           (L := example_lib (example_parser []))
           vod_init
           (ET.Element (mpd "Representation")
              [("id", "v1"); ("bandwidth", "2000000")] None None
              [ET.Element (mpd "SegmentTemplate")
                 [("timescale", "1000"); ("media", "seg_$Number$.m4s");
                  ("initialization", "init.mp4")] None None
                 [timeline_of
                    [s_element [("t", "0"); ("d", "4000"); ("r", "1")]]]])
           (ET.Element (mpd "AdaptationSet") [("mimeType", "video/mp4")]
              None None [])
           (ET.Element (mpd "SegmentTemplate")
              [("timescale", "1000"); ("media", "seg_$Number$.m4s");
               ("initialization", "init.mp4")] None None
              [timeline_of
                 [s_element [("t", "0"); ("d", "4000"); ("r", "1")]]])
           "v1" "http://p" "http://o/vod/manifest.mpd" "&k=1" "aa:bb"
           "aa" "bb" vod_init_lines).
  - reflexivity.
  - reflexivity.
  - vm_compute. reflexivity.
Defined.

Example clearkey_playlist_example :
  MPDToHLSConverter.convert_media_playlist (F := Q_float)
    (L := example_lib (example_parser [(vod_init_text, vod_init)]))
    vod_init_text "v1" "http://p" "http://o/vod/manifest.mpd" "&k=1"
    (Some "aa:bb")
  = Py.join nl vod_init_lines.
Proof. vm_compute. reflexivity. Qed.

(** * [extractors/freeshot.py]: class [FreeshotExtractor] *)

Module Freeshot.

(** [re.IGNORECASE] on a pattern of lower-case ASCII: a character of the
    text matches a character of the pattern when its lower case is that
    character.  The result is what follows the match. *)
Fixpoint match_ci (pat text : string) : option string :=
  match pat with
  | EmptyString => Some text
  | String p pat' =>
      match text with
      | String c text' =>
          if Ascii.eqb (Py.lower_char c) p then match_ci pat' text' else None
      | EmptyString => None
      end
  end.

(** The class of the pattern, one or more characters other than the
    double quote: the longest run of them, and what follows it. *)
Fixpoint until_quote (s : string) : string * string :=
  match s with
  | EmptyString => ("", "")
  | String c t =>
      if Ascii.eqb c "034" then ("", s)
      else let '(u, r) := until_quote t in (String c u, r)
  end.

(** A match of the pattern at the start of [text], and its group 1.  The
    pattern is [frameborder=<q>0<q>], then [\s+], then [src=<q>], then
    the group, one or more characters other than the double quote, then
    [<q>], where [<q>] stands for the double quote.  The two repetitions
    are greedy, and what follows each of them cannot start with a
    character of the run, so the longest run is the only one that can
    match. *)
Definition match_here (text : string) : option string :=
  match match_ci ("frameborder=" ++ dquote ++ "0" ++ dquote) text with
  | Some (String c rest) =>
      if Py.isspace c
      then match match_ci ("src=" ++ dquote) (Py.lstrip rest) with
           | Some after =>
               match until_quote after with
               | (String _ _ as u, String _ _) => Some u
               | _ => None
               end
           | None => None
           end
      else None
  | _ => None
  end.

(** [re.search(pattern, body, re.IGNORECASE)]: the leftmost match. *)
Fixpoint search_iframe (body : string) : option string :=
  match match_here body with
  | Some u => Some u
  | None =>
      match body with
      | String _ t => search_iframe t
      | EmptyString => None
      end
  end.

(** A value, or an exception given by its text [str(e)]. *)
Inductive outcome (A : Type) : Type :=
| Done (a : A)
| Failed (message : string).
Arguments Done {A} a.
Arguments Failed {A} message.

(** The dict that [extract] returns. *)
Record extraction : Type := Extraction {
  destination_url : string;
  user_agent : string;
  referer : string;
  origin : string;
  mediaflow_endpoint : string
}.

(** What [extract] ends in: the dict, or [ExtractorError(message)]. *)
Inductive extract_result : Type :=
| Extracted (r : extraction)
| ExtractorError (message : string).

(** [self.base_headers["User-Agent"]] *)
Definition base_user_agent : string :=
  "Mozilla/5.0 (Windows NT 10.0; Win64; x64) AppleWebKit/537.36 (KHTML, like Gecko) Chrome/135.0.0.0 Safari/537.36".

(** [target_url]: the URL as given when it starts with [http], else the
    page of the channel code. *)
Definition target_url (url : string) : string :=
  if negb (Py.startswith url "http")
  then "https://popcdn.day/go.php?stream=" ++ Py.quote url
  else url.

Section Extract.

(** The request: [session.get(target_url, headers=...)] gives a status
    and [resp.text()] a body, and either can raise. *)
Variable session_get : string -> outcome (Z * outcome string).

(** [urllib.parse.urlparse(url).netloc] *)
Variable netloc : string -> outcome string.

(** The body of the [try]. *)
Definition resolve (url : string) : outcome extraction :=
  match session_get (target_url url) with
  | Failed message => Failed message
  | Done (status, text) =>
      if negb (status =? 200)
      then Failed ("Freeshot request failed: " ++ Py.str_of_int status)
      else
        match text with
        | Failed message => Failed message
        | Done body =>
            match search_iframe body with
            | None => Failed "Freeshot iframe not found"
            | Some iframe_url =>
                let m3u8_url :=
                  Py.replace iframe_url "embed.html" "index.fmp4.m3u8" in
                match netloc iframe_url with
                | Failed message => Failed message
                | Done host =>
                    Done (Extraction m3u8_url base_user_agent iframe_url
                            ("https://" ++ host) "hls_proxy")
                end
            end
        end
  end.

(** [extract(url)], once the session is there: [except Exception as e:
    raise ExtractorError(f"Freeshot extraction failed: {str(e)}")]. *)
Definition extract (url : string) : extract_result :=
  match resolve url with
  | Done r => Extracted r
  | Failed message => ExtractorError ("Freeshot extraction failed: " ++ message)
  end.

End Extract.

End Freeshot.

Example freeshot_search_examples :
  Freeshot.search_iframe
    ("<iframe frameborder=" ++ dquote ++ "0" ++ dquote ++ " src=" ++ dquote
     ++ "https://a/embed.html?t=1" ++ dquote ++ "></iframe>")
  = Some "https://a/embed.html?t=1"
  /\ Freeshot.search_iframe
       ("<IFRAME FRAMEBORDER=" ++ dquote ++ "0" ++ dquote ++ nl ++ "  SRC="
        ++ dquote ++ "x" ++ dquote ++ ">")
     = Some "x"
  /\ Freeshot.search_iframe
       ("frameborder=" ++ dquote ++ "0" ++ dquote ++ "src=" ++ dquote ++ "x"
        ++ dquote)
     = None
  /\ Freeshot.search_iframe
       ("frameborder=" ++ dquote ++ "0" ++ dquote ++ " src=" ++ dquote
        ++ dquote ++ " frameborder=" ++ dquote ++ "0" ++ dquote ++ "  src="
        ++ dquote ++ "b" ++ dquote)
     = Some "b"
  /\ Freeshot.search_iframe
       ("frameborder=" ++ dquote ++ "0" ++ dquote ++ " src=" ++ dquote ++ "abc")
     = None.
Proof. repeat split; reflexivity. Qed.

(** ** The search for the iframe *)

Section IframeSearch.
Import Freeshot.

(** An occurrence of the pattern in [body], with [u] between the quotes:
    the words in any case, white space between them, and a [u] that is
    not empty and holds no double quote. *)
Definition iframe_occurrence (body u : string) : Prop :=
  exists pre a ws b post,
    body = pre ++ a ++ ws ++ b ++ u ++ dquote ++ post
    /\ Py.lower a = "frameborder=" ++ dquote ++ "0" ++ dquote
    /\ ws <> ""
    /\ all_chars Py.isspace ws = true
    /\ Py.lower b = "src=" ++ dquote
    /\ u <> ""
    /\ Py.contains dquote u = false.

Lemma match_ci_sound (pat text rest : string) :
  match_ci pat text = Some rest ->
  exists a, text = a ++ rest /\ Py.lower a = pat.
Proof.
  revert text. induction pat as [| p pat IH]; intros text H; cbn in H.
  - injection H as <-. exists "". split; reflexivity.
  - destruct text as [| c text]; [discriminate |].
    destruct (Ascii.eqb_spec (Py.lower_char c) p) as [<- | _]; [| discriminate].
    destruct (IH _ H) as (a & -> & <-).
    exists (String c a). split; reflexivity.
Qed.

Lemma match_ci_complete (a rest : string) :
  match_ci (Py.lower a) (a ++ rest) = Some rest.
Proof.
  induction a as [| c a IH]; cbn; [reflexivity |].
  rewrite Ascii.eqb_refl. exact IH.
Qed.

Lemma lstrip_split (s : string) :
  exists ws, s = ws ++ Py.lstrip s /\ all_chars Py.isspace ws = true.
Proof.
  induction s as [| c t (ws & E & H)]; cbn [Py.lstrip].
  - exists "". split; reflexivity.
  - destruct (Py.isspace c) eqn:Hc.
    + exists (String c ws). cbn. rewrite Hc, H, <- E. split; reflexivity.
    + exists "". split; reflexivity.
Qed.

Lemma lstrip_spaces (ws t : string) :
  all_chars Py.isspace ws = true -> Py.lstrip (ws ++ t) = Py.lstrip t.
Proof.
  induction ws as [| c ws IH]; cbn; [reflexivity |].
  intros H. apply andb_true_iff in H as [-> H]. apply IH, H.
Qed.

Lemma until_quote_spec (s u r : string) :
  until_quote s = (u, r) ->
  s = u ++ r /\ Py.contains dquote u = false
  /\ (r = "" \/ exists r', r = dquote ++ r').
Proof.
  revert u r. induction s as [| c t IH]; intros u r H; cbn in H.
  - injection H as <- <-. repeat split. left. reflexivity.
  - destruct (Ascii.eqb_spec c "034") as [-> | Hc].
    + injection H as <- <-. repeat split. right. exists t. reflexivity.
    + destruct (until_quote t) as [u' r'].
      injection H as <- <-.
      destruct (IH u' r' eq_refl) as (-> & Hu & Hr).
      split; [reflexivity |]. split; [| exact Hr].
      cbn [Py.contains]. rewrite Hu, orb_false_r.
      unfold dquote. rewrite prefix_cons.
      destruct (Ascii.eqb_spec "034" c) as [E | _]; [congruence | reflexivity].
Qed.

Lemma until_quote_found (u post : string) :
  Py.contains dquote u = false ->
  until_quote (u ++ dquote ++ post) = (u, dquote ++ post).
Proof.
  induction u as [| c u IH]; intros H; [reflexivity |].
  cbn [Py.contains] in H. apply orb_false_iff in H as [Hc Hu].
  unfold dquote in Hc. rewrite prefix_cons, prefix_nil, andb_true_r in Hc.
  cbn [String.append until_quote].
  rewrite Ascii.eqb_sym, Hc, (IH Hu). reflexivity.
Qed.

Lemma match_here_sound (text u : string) :
  match_here text = Some u -> iframe_occurrence text u.
Proof.
  unfold match_here. intros H.
  destruct (match_ci _ text) as [[| c rest] |] eqn:Ha; try discriminate.
  destruct (Py.isspace c) eqn:Hc; [| discriminate].
  destruct (match_ci _ (Py.lstrip rest)) as [after |] eqn:Hb; [| discriminate].
  destruct (until_quote after) as [[| c1 u1] [| c2 r2]] eqn:Hu;
    try discriminate.
  injection H as <-.
  apply match_ci_sound in Ha as (a & -> & Hlower_a).
  apply match_ci_sound in Hb as (b & Hrest & Hlower_b).
  destruct (lstrip_split rest) as (ws & Ews & Hws).
  apply until_quote_spec in Hu as (-> & Hquote & [Hr | (r' & Hr)]);
    [discriminate |].
  exists "", a, (String c ws), b, r'.
  split; [| split; [exact Hlower_a | split; [discriminate |
             split; [cbn; rewrite Hc; exact Hws |
             split; [exact Hlower_b | split; [discriminate | exact Hquote]]]]]].
  cbn [String.append]. rewrite Ews, Hrest, Hr at 1. reflexivity.
Qed.

Lemma lower_s_not_space (c : ascii) :
  Py.lower_char c = "s"%char -> Py.isspace c = false.
Proof.
  destruct c as [[] [] [] [] [] [] [] []]; cbn; congruence.
Qed.

Lemma match_here_complete (a ws b u post : string) :
  Py.lower a = "frameborder=" ++ dquote ++ "0" ++ dquote ->
  ws <> "" ->
  all_chars Py.isspace ws = true ->
  Py.lower b = "src=" ++ dquote ->
  u <> "" ->
  Py.contains dquote u = false ->
  match_here (a ++ ws ++ b ++ u ++ dquote ++ post) = Some u.
Proof.
  intros Ha Hne Hws Hb Hu Hquote. unfold match_here.
  rewrite <- Ha, match_ci_complete.
  destruct ws as [| c ws]; [congruence |].
  cbn [all_chars] in Hws. apply andb_true_iff in Hws as [Hc Hws].
  cbn [String.append]. rewrite Hc, (lstrip_spaces _ _ Hws).
  assert (Hstrip : Py.lstrip (b ++ u ++ dquote ++ post)
                   = b ++ u ++ dquote ++ post).
  { destruct b as [| cb b]; [discriminate |].
    cbn [Py.lower] in Hb. injection Hb as Hcb _.
    cbn [String.append Py.lstrip].
    rewrite (lower_s_not_space cb Hcb). reflexivity. }
  rewrite Hstrip.
  change (String "s" (String "r" (String "c" (String "=" dquote))))
    with ("src=" ++ dquote).
  rewrite <- Hb, match_ci_complete, (until_quote_found _ _ Hquote).
  destruct u as [| cu u]; [congruence |]. reflexivity.
Qed.

Lemma search_iframe_sound (body u : string) :
  search_iframe body = Some u -> iframe_occurrence body u.
Proof.
  induction body as [| c t IH]; intros H; cbn [search_iframe] in H.
  - destruct (match_here "") eqn:Hm; [| discriminate].
    injection H as <-. apply match_here_sound, Hm.
  - destruct (match_here (String c t)) as [u' |] eqn:Hm.
    + injection H as <-. apply match_here_sound, Hm.
    + destruct (IH H) as (pre & a & ws & b & post & E & Hrest).
      exists (String c pre), a, ws, b, post.
      split; [cbn; rewrite E; reflexivity | exact Hrest].
Qed.

End IframeSearch.

(** X21.  The search for the iframe finds a URL exactly when the body
    holds an occurrence of the pattern -- [frameborder] with the value 0
    in double quotes, white space, [src=], and in double quotes a text
    that is not empty and holds no double quote, the two words in any
    case -- and the URL it gives is the text of such an occurrence. *)
Theorem iframe_search_finds_an_occurrence (body : string) :
  (forall u, Freeshot.search_iframe body = Some u -> iframe_occurrence body u)
  /\ ((exists u, iframe_occurrence body u) ->
      exists u, Freeshot.search_iframe body = Some u).
Proof.
  split.
  - intros u. apply search_iframe_sound.
  - intros (u & pre & a & ws & b & post & -> & Ha & Hne & Hws & Hb & Hu & Hq).
    induction pre as [| c pre IH]; cbn [String.append].
    + exists u.
      pose proof (match_here_complete a ws b u post Ha Hne Hws Hb Hu Hq) as Hm.
      destruct (a ++ ws ++ b ++ u ++ dquote ++ post);
        cbn [Freeshot.search_iframe]; rewrite Hm; reflexivity.
    + cbn [Freeshot.search_iframe].
      destruct (Freeshot.match_here _) as [u' |]; [eauto | exact IH].
Qed.

Lemma iframe_search_finds_an_occurrence_witness :
  exists u,
    Freeshot.search_iframe
      ("<IFRAME FRAMEBORDER=" ++ dquote ++ "0" ++ dquote ++ nl ++ "  SRC="
       ++ dquote ++ "x" ++ dquote ++ ">")
    = Some u.
Proof.
  apply (proj2 (iframe_search_finds_an_occurrence
                  ("<IFRAME FRAMEBORDER=" ++ dquote ++ "0" ++ dquote ++ nl
                   ++ "  SRC=" ++ dquote ++ "x" ++ dquote ++ ">"))).
  exists "x", "<IFRAME ", ("FRAMEBORDER=" ++ dquote ++ "0" ++ dquote),
    (nl ++ "  "), ("SRC=" ++ dquote), ">".
  repeat split; discriminate.
Defined.

(** X22.  The request goes to the URL as given when it starts with
    [http], and otherwise to the page of the channel code on
    [popcdn.day], the code percent-encoded: whatever the code is, the
    URL holds one [?] and one [=] and no [&] or [#], so the code cannot
    add a parameter to the request or cut it short. *)
Theorem freeshot_request_url (url : string) :
  Py.startswith (Freeshot.target_url url) "http" = true
  /\ (Py.startswith url "http" = true -> Freeshot.target_url url = url)
  /\ (Py.startswith url "http" = false ->
      Freeshot.target_url url
      = "https://popcdn.day/go.php?stream=" ++ Py.quote url
      /\ count_char "?" (Freeshot.target_url url) = 1%nat
      /\ count_char "=" (Freeshot.target_url url) = 1%nat
      /\ count_char "&" (Freeshot.target_url url) = 0%nat
      /\ count_char "#" (Freeshot.target_url url) = 0%nat).
Proof.
  unfold Freeshot.target_url.
  destruct (Py.startswith url "http") eqn:Hhttp; cbn [negb].
  - split; [exact Hhttp |]. split; [reflexivity | discriminate].
  - split; [reflexivity |]. split; [discriminate |]. intros _.
    split; [reflexivity |].
    rewrite !count_char_app.
    rewrite !(count_char_none url_path_token _ (Py.quote url))
      by (reflexivity || apply quote_path_token).
    repeat split.
Qed.

(** X23.  What [extract] ends in.  It returns only when the request
    answers 200 with a body in which the search finds an iframe URL: the
    Referer it returns is that URL, which is not empty and holds no
    double quote, and the destination is that URL with every
    [embed.html] replaced by [index.fmp4.m3u8] -- the URL itself when it
    holds no [embed.html] -- and the Origin is [https://] followed by the
    host of that URL.  Every other outcome is an [ExtractorError]
    whose message begins with [Freeshot extraction failed: ]; for a
    status other than 200 it goes on with [Freeshot request failed: ]
    and the status. *)
Theorem freeshot_extract_outcomes
  (session_get : string -> Freeshot.outcome (Z * Freeshot.outcome string))
  (netloc : string -> Freeshot.outcome string) (url : string) :
  match Freeshot.extract session_get netloc url with
  | Freeshot.Extracted r =>
      exists body,
        session_get (Freeshot.target_url url)
        = Freeshot.Done (200, Freeshot.Done body)
        /\ Freeshot.search_iframe body = Some (Freeshot.referer r)
        /\ iframe_occurrence body (Freeshot.referer r)
        /\ Freeshot.destination_url r
           = Py.replace (Freeshot.referer r) "embed.html" "index.fmp4.m3u8"
        /\ (Py.contains "embed.html" (Freeshot.referer r) = false ->
            Freeshot.destination_url r = Freeshot.referer r)
        /\ (exists host,
               netloc (Freeshot.referer r) = Freeshot.Done host
               /\ Freeshot.origin r = "https://" ++ host)
  | Freeshot.ExtractorError message =>
      Py.startswith message "Freeshot extraction failed: " = true
      /\ forall status text,
           session_get (Freeshot.target_url url) = Freeshot.Done (status, text) ->
           status <> 200 ->
           message = "Freeshot extraction failed: Freeshot request failed: "
                     ++ Py.str_of_int status
  end.
Proof.
  assert (Hreplace : forall s old new,
             old <> "" -> Py.contains old s = false ->
             Py.replace s old new = s).
  { intros s old new Hold. unfold Py.replace.
    induction s as [| c t IH]; intros H; [reflexivity |].
    cbn [Py.contains] in H. apply orb_false_iff in H as [Hhere Hlater].
    cbn [Py.replace_from]. rewrite Hhere, (IH Hlater). reflexivity. }
  assert (Hprefix : forall m,
             Py.startswith ("Freeshot extraction failed: " ++ m)
               "Freeshot extraction failed: " = true).
  { intros m. apply prefix_append. }
  unfold Freeshot.extract, Freeshot.resolve.
  destruct (session_get (Freeshot.target_url url)) as [[status text] | m];
    [| split; [apply Hprefix | intros ? ? H; discriminate H]].
  destruct (Z.eqb_spec status 200) as [-> | Hstatus]; cbn [negb].
  - destruct text as [body | m];
      [| split; [apply Hprefix
                | intros ? ? H ?; injection H as <- _; congruence]].
    destruct (Freeshot.search_iframe body) as [iframe_url |] eqn:Hsearch;
      [| split; [apply Hprefix
                | intros ? ? H ?; injection H as <- _; congruence]].
    destruct (netloc iframe_url) as [host | m] eqn:Hhost;
      [| split; [apply Hprefix
                | intros ? ? H ?; injection H as <- _; congruence]].
    exists body. cbn [Freeshot.referer Freeshot.destination_url Freeshot.origin].
    split; [reflexivity |]. split; [exact Hsearch |].
    split; [apply search_iframe_sound, Hsearch |].
    split; [reflexivity |].
    split; [apply Hreplace; discriminate |].
    exists host. split; [exact Hhost | reflexivity].
  - split; [apply Hprefix |].
    intros status' text' H Hne. injection H as <- _. reflexivity.
Qed.
